(** * Gestao-safra: the data engine of [app.py]

    A shallow embedding of the record store, the metric engine, the timeline
    builder and the aggregation views of [src/app.py], and the properties the
    specification states about them.

    Conventions of the embedding.
    - A pandas cell is a [Cell]: missing ([NaN]), a number or a text.
    - A float64 column that went through [.fillna(0).astype(float)] holds no
      missing value; its cells are rationals ([Q]).  Arithmetic is exact: the
      rounding error of binary floating point is not modelled, and the
      statement on the rounded percentage allows for it.  A division by 0
      gives a float that is not finite ([Float64]).
    - A number too large for a float64 makes the load raise; the model
      leaves that case out and the properties that need the load to
      return assume [load_fits].
    - The files [data.csv] and [timeline_data.csv] are the two fields of
      [Files]; every function that touches them is a state transformer
      ([IO]).
    - What pandas and Python do to text (parsing a number, printing a float,
      parsing a date) is taken from a [Library], so that every theorem holds
      for any such functions. *)

From Stdlib Require Import List String Ascii ZArith QArith Qround Qabs Bool Lia.
From Stdlib Require Import Permutation Sorted DecimalString Lqa.
Import ListNotations.

Local Open Scope string_scope.
Local Open Scope list_scope.
Local Open Scope Z_scope.

(** ** Cells and frames *)

Inductive Cell : Type :=
| NaN
| Num (q : Q)
| Str (s : string).

Definition isna (c : Cell) : bool :=
  match c with NaN => true | _ => false end.

(** [Series.fillna(value)] on one cell. *)
Definition fillna (value c : Cell) : Cell :=
  if isna c then value else c.

(** Python's [==] on two cells: numbers by value, texts by content.  The
    missing value of an object column is the one object [np.nan], found
    again by identity when it is a dictionary key. *)
Definition cell_eqb (a b : Cell) : bool :=
  match a, b with
  | NaN, NaN => true
  | Num x, Num y => Qeq_bool x y
  | Str s, Str t => String.eqb s t
  | _, _ => false
  end.

(** A row is read like [row['Cultivar']]. *)
Definition Row : Type := string -> Cell.

Definition set (col : string) (v : Cell) (r : Row) : Row :=
  fun c => if String.eqb c col then v else r c.

Record DataFrame : Type := mkFrame {
  columns : list string;
  rows : list Row
}.

Definition col_in (col : string) (cols : list string) : bool :=
  existsb (String.eqb col) cols.

(** ** What the libraries do to text *)

Record Library : Type := mkLibrary {
  (** the numeric parser of [pd.read_csv] and [pd.to_numeric] *)
  parse_float : string -> option Q;
  (** the text [to_csv] writes for a float *)
  float_repr : Q -> string;
  (** [pd.to_datetime(_, errors='coerce')] on one cell, in days; [None] is NaT *)
  to_datetime : Cell -> option Z;
  (** Python's [float(text)]: [None] is a ValueError, [Some None] is nan *)
  py_float : string -> option (option Q)
}.

(** The texts [pd.read_csv] reads as a missing value. *)
Definition na_values : list string :=
  [""; "#N/A"; "#N/A N/A"; "#NA"; "-1.#IND"; "-1.#QNAN"; "-NaN"; "-nan";
   "1.#IND"; "1.#QNAN"; "<NA>"; "N/A"; "NA"; "NULL"; "NaN"; "None"; "n/a";
   "nan"; "null"].

Definition is_na (t : string) : bool := existsb (String.eqb t) na_values.

Definition is_some {A} (o : option A) : bool :=
  match o with Some _ => true | None => false end.

(** ** The files and the state they make up *)

(** A CSV file as its lines of fields, the header first; [[]] is a file of
    size 0. *)
Definition CsvFile : Type := list (list string).

(** A line of [timeline_data.csv]: Data (in days), Cultivar, Categoria,
    Volume_SC. *)
Record TimelineRecord : Type := mkTimeline {
  tl_Data : option Z;
  tl_Cultivar : Cell;
  tl_Categoria : Cell;
  Volume_SC : Q
}.

Record Files : Type := mkFiles {
  DATA_FILE : option CsvFile;
  TIMELINE_FILE : option (list TimelineRecord)
}.

Definition IO (A : Type) : Type := Files -> A * Files.

Definition ret {A} (a : A) : IO A := fun fs => (a, fs).

Definition bind {A B} (m : IO A) (k : A -> IO B) : IO B :=
  fun fs => let (a, fs') := m fs in k a fs'.

Notation "x <- m ;; k" := (bind m (fun x => k))
  (at level 61, m at next level, right associativity).
Notation "m ;;; k" := (bind m (fun _ => k))
  (at level 61, right associativity).

Definition run {A} (m : IO A) (fs : Files) : A := fst (m fs).
Definition exec {A} (m : IO A) (fs : Files) : Files := snd (m fs).

Definition write_data (f : CsvFile) : IO unit :=
  fun fs => (tt, mkFiles (Some f) (TIMELINE_FILE fs)).

Definition write_timeline (t : list TimelineRecord) : IO unit :=
  fun fs => (tt, mkFiles (DATA_FILE fs) (Some t)).

(** ** The canonical record *)

Definition raw_cols : list string :=
  ["Cultivar"; "Prev_Colheita"; "Prev_Receb"; "Recepcao"; "Categoria"; "Status"].

Definition numeric_cols : list string :=
  ["Prev_Colheita"; "Prev_Receb"; "Recepcao"].

(** A row of the frame [load_and_process_data] returns; [Percent] is its
    column ['%']. *)
Record CultivarRecord : Type := mkRecord {
  Cultivar : Cell;
  Prev_Colheita : Q;
  Prev_Receb : Q;
  Recepcao : Q;
  Categoria : Cell;
  Percent : Q;
  Status : Cell
}.

Definition with_Status (s : Cell) (r : CultivarRecord) : CultivarRecord :=
  mkRecord (Cultivar r) (Prev_Colheita r) (Prev_Receb r) (Recepcao r)
           (Categoria r) (Percent r) s.

(** The six raw columns of a record, as [save_dataframe] keeps them. *)
Definition to_row (r : CultivarRecord) : Row :=
  fun c =>
    if String.eqb c "Cultivar" then Cultivar r
    else if String.eqb c "Prev_Colheita" then Num (Prev_Colheita r)
    else if String.eqb c "Prev_Receb" then Num (Prev_Receb r)
    else if String.eqb c "Recepcao" then Num (Recepcao r)
    else if String.eqb c "Categoria" then Categoria r
    else if String.eqb c "%" then Num (Percent r)
    else if String.eqb c "Status" then Status r
    else NaN.

Definition to_frame (df : list CultivarRecord) : DataFrame :=
  mkFrame (raw_cols ++ ["%"]) (map to_row df).

(** ** Numbers *)

Definition Qlt_bool (a b : Q) : bool := negb (Qle_bool b a).

(** [np.rint]: the nearest integer, a tie going to the even one. *)
Definition rint (x : Q) : Z :=
  let n := Qfloor x in
  match (x - inject_Z n ?= 1 # 2)%Q with
  | Lt => n
  | Gt => n + 1
  | Eq => if Z.even n then n else n + 1
  end.

(** [Series.round(decimals)]. *)
Definition round (x : Q) (decimals : nat) : Q :=
  (inject_Z (rint (x * inject_Z (10 ^ Z.of_nat decimals))) /
   inject_Z (10 ^ Z.of_nat decimals))%Q.

(** A float64 of a column: a finite number, or one of inf, -inf and nan. *)
Inductive Float64 : Type :=
| Finite (q : Q)
| NotFinite.

(** [a / b] on two columns of floats: a division by 0 raises nothing and
    gives inf, -inf or nan. *)
Definition divide (a b : Q) : Float64 :=
  if Qeq_bool b 0 then NotFinite else Finite (a / b)%Q.

(** [Series.where(cond, other)] on one cell. *)
Definition where_ (x : Float64) (cond : bool) (other : Q) : Float64 :=
  if cond then x else Finite other.

(** An operation on the finite floats of a column; inf and nan stay. *)
Definition on_finite (f : Q -> Q) (x : Float64) : Float64 :=
  match x with
  | Finite q => Finite (f q)
  | NotFinite => NotFinite
  end.

(** ** The views (lines 222-532) *)

(** A view returns a figure or, as a text, the placeholder shown instead. *)
Inductive Graph (A : Type) : Type :=
| Placeholder (html : string)
| Figure (data : A).

Arguments Placeholder {A} html.
Arguments Figure {A} data.

Definition Qsum (l : list Q) : Q := fold_left Qplus l 0%Q.

(** A stable sort: [sort_values] and [nlargest] keep the order of the
    frame among equal keys. *)
Fixpoint insert_by {A} (leb : A -> A -> bool) (x : A) (l : list A) : list A :=
  match l with
  | [] => [x]
  | y :: t => if leb x y then x :: y :: t else y :: insert_by leb x t
  end.

Definition sort_by {A} (leb : A -> A -> bool) (l : list A) : list A :=
  fold_right (insert_by leb) [] l.

(** The order of group keys: numbers before texts. *)
Definition cell_leb (a b : Cell) : bool :=
  match a, b with
  | NaN, _ => true
  | _, NaN => false
  | Num x, Num y => Qle_bool x y
  | Num _, Str _ => true
  | Str _, Num _ => false
  | Str s, Str t => String.leb s t
  end.

Fixpoint unique (l : list Cell) : list Cell :=
  match l with
  | [] => []
  | k :: t => k :: filter (fun k' => negb (cell_eqb k k')) (unique t)
  end.

(** The keys of [df.groupby('Cultivar')]: sorted, a missing key dropped. *)
Definition group_keys (df : list CultivarRecord) : list Cell :=
  sort_by cell_leb (unique (filter (fun k => negb (isna k)) (map Cultivar df))).

Definition group (k : Cell) (df : list CultivarRecord) : list CultivarRecord :=
  filter (fun r => cell_eqb k (Cultivar r)) df.

Record Summary : Type := mkSummary {
  s_Cultivar : Cell;
  Total_Previsto : Q;
  Total_Recebido : Q
}.

(** Lines 230-233. *)
Definition summary (df : list CultivarRecord) : list Summary :=
  map (fun k => mkSummary k (Qsum (map Prev_Receb (group k df)))
                          (Qsum (map Recepcao (group k df))))
      (group_keys df).

(** Lines 227-235: the bars of the grouped chart. *)
Definition create_bar_grouped_graph (df : list CultivarRecord)
  : Graph (list Summary) :=
  match df with
  | [] => Placeholder "<div class='text-center p-5 text-muted'>Adicione dados com previsão para ver o Gráfico de Barras Agrupadas.</div>"
  | _ :: _ =>
      if Qeq_bool (Qsum (map Prev_Receb df)) 0 then
        Placeholder "<div class='text-center p-5 text-muted'>Adicione dados com previsão para ver o Gráfico de Barras Agrupadas.</div>"
      else
        Figure (filter (fun g => Qlt_bool 0 (Total_Previsto g)) (summary df))
  end.

(** Lines 367-375: the rows of the difference chart, each with its column
    Diferenca. *)
Definition create_diff_bar_graph (df : list CultivarRecord)
  : Graph (list (CultivarRecord * Q)) :=
  match df with
  | [] => Placeholder "<div class='text-center p-5 text-muted'>Adicione dados para ver o gráfico de diferenças.</div>"
  | _ :: _ =>
      let df1 := map (fun r => (r, (Recepcao r - Prev_Receb r)%Q)) df in
      let df2 := filter (fun rd => Qlt_bool 0 (Prev_Receb (fst rd))) df1 in
      Figure (sort_by (fun a b => Qle_bool (snd b) (snd a)) df2)
  end.

(** Lines 414-418. *)
Definition create_percent_bar_graph (df : list CultivarRecord)
  : Graph (list CultivarRecord) :=
  match df with
  | [] => Placeholder "<div class='text-center p-5 text-muted'>Adicione dados para ver o gráfico de percentuais.</div>"
  | _ :: _ =>
      let df1 := filter (fun r => Qlt_bool 0 (Prev_Receb r)) df in
      Figure (sort_by (fun a b => Qle_bool (Percent a) (Percent b)) df1)
  end.

(** [df.nlargest(n, 'Recepcao')] *)
Definition nlargest (n : nat) (df : list CultivarRecord) : list CultivarRecord :=
  firstn n (sort_by (fun a b => Qle_bool (Recepcao b) (Recepcao a)) df).

(** Lines 504-508. *)
Definition create_top_cultivars_graph (df : list CultivarRecord)
  : Graph (list CultivarRecord) :=
  match df with
  | [] => Placeholder "<div class='text-center p-5 text-muted'>Adicione dados para ver o ranking.</div>"
  | _ :: _ => Figure (nlargest 10 df)
  end.

(** ** The record store, the timeline and the routes *)

Section WithLibrary.

Variable L : Library.

(** ** Reading and writing CSV *)

(** The text [to_csv] writes for a cell.  A number is written as a float
    whatever the dtype of its column, where pandas writes 1000 for a
    column of integers. *)
Definition cell_text (c : Cell) : string :=
  match c with
  | NaN => ""
  | Num q => float_repr L q
  | Str s => s
  end.

(** [df.to_csv(_, index=False)] *)
Definition to_csv (df : DataFrame) : CsvFile :=
  columns df :: map (fun r => map (fun c => cell_text (r c)) (columns df)) (rows df).

Fixpoint index_of (c : string) (hdr : list string) : option nat :=
  match hdr with
  | [] => None
  | h :: t => if String.eqb c h then Some O else option_map S (index_of c t)
  end.

(** A column is read as numbers when each of its fields is missing or
    parses as one; otherwise its fields stay texts. *)
Definition column_is_numeric (j : nat) (body : list (list string)) : bool :=
  forallb (fun l => let t := nth j l "" in is_na t || is_some (parse_float L t)) body.

Definition read_cell (numeric : bool) (t : string) : Cell :=
  if is_na t then NaN
  else if numeric then
         match parse_float L t with Some q => Num q | None => Str t end
       else Str t.

Definition read_field (hdr : list string) (body : list (list string))
           (l : list string) : Row :=
  fun c =>
    match index_of c hdr with
    | Some j => read_cell (column_is_numeric j body) (nth j l "")
    | None => NaN
    end.

(** [pd.read_csv]: [None] stands for the exception it raises on a file
    without a header (EmptyDataError) or on a line with more fields than
    the header (ParserError). *)
Definition read_csv (f : CsvFile) : option DataFrame :=
  match f with
  | [] => None
  | hdr :: body =>
      if existsb (fun l => (List.length hdr <? List.length l)%nat) body then None
      else Some (mkFrame hdr (map (read_field hdr body) body))
  end.

(** ** load_and_process_data (lines 63-107) *)

(** [pd.to_numeric(_, errors='coerce')] on one cell; [None] is NaN. *)
Definition to_numeric (c : Cell) : option Q :=
  match c with
  | NaN => None
  | Num q => Some q
  | Str s => parse_float L s
  end.

(** [pd.to_numeric(df[col], errors='coerce').fillna(0).astype(float)] on
    a cell whose number fits a float64.  On a number that does not, the
    line raises OverflowError: that case is left out here, and the
    properties that need the load to return say so ([load_fits]). *)
Definition coerce (c : Cell) : Q :=
  match to_numeric c with Some q => q | None => 0%Q end.

(** Lines 68-75: the file is created when it is missing or empty, then
    read; a failed read gives the empty frame. *)
Definition read_data_file : IO DataFrame :=
  fun fs =>
    let fs1 :=
      match DATA_FILE fs with
      | None | Some [] => exec (write_data (to_csv (mkFrame raw_cols []))) fs
      | Some _ => fs
      end in
    let df :=
      match DATA_FILE fs1 with
      | Some f => match read_csv f with
                  | Some df => df
                  | None => mkFrame raw_cols []
                  end
      | None => mkFrame raw_cols []
      end in
    (df, fs1).

(** Lines 77-82. *)
Definition default_of (col : string) : Cell :=
  if col_in col numeric_cols then Num 0%Q else Str "N/A".

Definition add_missing (df : DataFrame) (col : string) : DataFrame :=
  if col_in col (columns df) then df
  else mkFrame (columns df ++ [col]) (map (set col (default_of col)) (rows df)).

Definition fill_missing_columns (df : DataFrame) : DataFrame :=
  fold_left add_missing raw_cols df.

(** Lines 87-88. *)
Definition percent_cell (recepcao prev_receb : Q) : Float64 :=
  let quotient :=
    where_ (divide recepcao prev_receb) (negb (Qeq_bool prev_receb 0)) 0 in
  on_finite (fun q => round (q * 100)%Q 2) quotient.

(** The number in that cell.  The cell is never inf or nan, as is proved
    of every loaded record, so the second case does not occur. *)
Definition percent (recepcao prev_receb : Q) : Q :=
  match percent_cell recepcao prev_receb with
  | Finite q => q
  | NotFinite => 0%Q
  end.

(** Lines 84-88: one row with its three volumes coerced and ['%'] computed;
    its Status is still the cell of the frame. *)
Definition with_percent (r : Row) : CultivarRecord :=
  let prev_colheita := coerce (r "Prev_Colheita") in
  let prev_receb := coerce (r "Prev_Receb") in
  let recepcao := coerce (r "Recepcao") in
  mkRecord (r "Cultivar") prev_colheita prev_receb recepcao (r "Categoria")
           (percent recepcao prev_receb) (r "Status").

(** Lines 92-100. *)
Definition get_status (row : CultivarRecord) : Cell :=
  if Qeq_bool (Prev_Receb row) 0 then Str "Prev. Inválida"
  else if Qle_bool 100 (Percent row) then Str "OK"
  else if Qlt_bool 0 (Recepcao row) then Str "Em Andamento"
  else Str "Falta Receber".

(** The test of line 91. *)
Definition status_is_automatic (df : DataFrame) : bool :=
  negb (col_in "Status" (columns df)) || forallb (fun r => isna (r "Status")) (rows df).

(** Lines 77-107 on the frame that was read. *)
Definition process (df0 : DataFrame) : list CultivarRecord :=
  let df := fill_missing_columns df0 in
  let recs := map with_percent (rows df) in
  if status_is_automatic df then
    map (fun row => with_Status (get_status row) row) recs
  else
    map (fun row => with_Status (fillna (Str "Em Andamento") (Status row)) row) recs.

Definition load_and_process_data : IO (list CultivarRecord) :=
  df <- read_data_file ;;
  ret (process df).

(** ** save_dataframe (lines 109-113) *)

(** [df.reindex(columns=raw_cols).fillna(0)]: a column the frame lacks is
    all missing, and every missing cell becomes 0. *)
Definition reindex_fillna (df : DataFrame) : DataFrame :=
  mkFrame raw_cols
    (map (fun r c => if col_in c (columns df) then fillna (Num 0%Q) (r c)
                     else Num 0%Q) (rows df)).

Definition save_dataframe (df : DataFrame) : IO unit :=
  write_data (to_csv (reindex_fillna df)).

(** ** The timeline (lines 117-167) *)

(** A missing file is created empty; the lines of an existing one are
    returned, their dates as stored.  The records stand for the lines as
    they were written: what reading the CSV again makes of a text (N/A is
    read as a missing value) is left out. *)
Definition load_timeline_data : IO (list TimelineRecord) :=
  fun fs =>
    match TIMELINE_FILE fs with
    | None => ([], exec (write_timeline []) fs)
    | Some t => (t, fs)
    end.

Definition save_timeline_data (df : list TimelineRecord) : IO unit :=
  write_timeline df.

(** A row of the sheet [import_timeline_data] hands over, its date and
    quantity already converted. *)
Record TimelineEvent : Type := mkEvent {
  ev_Responsavel : Cell;
  ev_Data : Z;
  ev_Turno : Cell;
  ev_Cultivar : Cell;
  Quantidade_Kg : Q
}.

(** A Python [dict] on cells: keys in insertion order, a key set again
    keeps its place and takes the new value. *)
Definition dict : Type := list (Cell * Cell).

Fixpoint dict_set (k v : Cell) (d : dict) : dict :=
  match d with
  | [] => [(k, v)]
  | (k', v') :: t =>
      if cell_eqb k' k then (k', v) :: t else (k', v') :: dict_set k v t
  end.

Fixpoint dict_get (d : dict) (k default : Cell) : Cell :=
  match d with
  | [] => default
  | (k', v') :: t => if cell_eqb k' k then v' else dict_get t k default
  end.

(** [dict(pairs)] *)
Definition dict_of (pairs : list (Cell * Cell)) : dict :=
  fold_left (fun d kv => dict_set (fst kv) (snd kv) d) pairs [].

(** Lines 136-167. *)
Definition process_timeline_data (raw_df : list TimelineEvent)
  : IO (list TimelineRecord) :=
  main_df <- load_and_process_data ;;
  let cultivar_to_category :=
    dict_of (combine (map Cultivar main_df) (map Categoria main_df)) in
  ret (map (fun row =>
              let cultivar := ev_Cultivar row in
              let categoria := dict_get cultivar_to_category cultivar (Str "N/A") in
              let quantidade_kg := Quantidade_Kg row in
              let volume_sc := (quantidade_kg / 60)%Q in
              mkTimeline (Some (ev_Data row)) cultivar categoria volume_sc)
           raw_df).

(** ** The sample timeline (lines 169-204) *)

(** The state of [random]: the raw draws still to come.  Every sequence of
    results of [randint] is the sequence of some such state. *)
Definition Rng : Type := nat -> Z.

(** [random.randint(a, b)] *)
Definition randint (a b : Z) (g : Rng) : Z * Rng :=
  (a + g O mod (b - a + 1), fun i => g (S i)).

(** Python's [min(a, b)]: [b] only when it is strictly smaller. *)
Definition py_min (a b : Q) : Q := if Qlt_bool b a then b else a.

(** What the [while] loop of lines 186-197 reads and writes. *)
Record LoopState : Type := mkLoop {
  sample_data : list TimelineRecord;
  remaining : Q;
  current_date : Z;
  rng : Rng
}.

(** The test of line 186.  Dates are counted in days and [now] is the day
    of the call: the clock, read again at each test, stays within it. *)
Definition loop_test (now : Z) (s : LoopState) : bool :=
  Qlt_bool 0 (remaining s) && (current_date s <=? now).

(** Lines 188-197. *)
Definition loop_body (row : CultivarRecord) (s : LoopState) : LoopState :=
  let (r, g1) := randint 100 1000 (rng s) in
  let daily_volume := py_min (inject_Z r) (remaining s) in
  let (d, g2) := randint 1 3 g1 in
  if Qlt_bool 0 daily_volume then
    mkLoop (sample_data s ++
              [mkTimeline (Some (current_date s)) (Cultivar row) (Categoria row)
                          daily_volume])
           (remaining s - daily_volume)%Q
           (current_date s + d) g2
  else
    mkLoop (sample_data s) (remaining s) (current_date s + d) g2.

(** The [while] loop, run for at most [fuel] turns; [None] when the fuel
    runs out before the test fails. *)
Fixpoint while_loop (fuel : nat) (now : Z) (row : CultivarRecord)
         (s : LoopState) : option LoopState :=
  if loop_test now s then
    match fuel with
    | O => None
    | S fuel' => while_loop fuel' now row (loop_body row s)
    end
  else Some s.

(** The date moves on by a day at least each turn: this many turns are
    enough from [s]. *)
Definition turns (now : Z) (s : LoopState) : nat :=
  Z.to_nat (now - current_date s + 1).

(** Lines 180-197 for one row: the loop from [start_date] with the whole
    received volume left. *)
Definition distribute (now : Z) (row : CultivarRecord)
           (acc : list TimelineRecord * Rng) : list TimelineRecord * Rng :=
  if Qlt_bool 0 (Recepcao row) then
    let total_received := Recepcao row in
    let start_date := now - 60 in
    let s := mkLoop (fst acc) total_received start_date (snd acc) in
    match while_loop (turns now s) now row s with
    | Some s' => (sample_data s', rng s')
    | None => acc
    end
  else acc.

Definition generate_sample_timeline_data (now : Z) (g : Rng)
  : IO (list TimelineRecord) :=
  main_df <- load_and_process_data ;;
  timeline_df <- load_timeline_data ;;
  match timeline_df, main_df with
  | [], _ :: _ =>
      let sample_data := fst (fold_left (fun acc row => distribute now row acc)
                                        main_df ([], g)) in
      match sample_data with
      | _ :: _ => save_timeline_data sample_data ;;; ret sample_data
      | [] => ret timeline_df
      end
  | _, _ => ret timeline_df
  end.

(** ** The routes *)

(** The body of a JSON answer. *)
Inductive Json : Type :=
| JError (error : string)
| JMessage (message : string)
| JImported (message : string) (records_processed : nat).

(** An answer: the body and the HTTP status. *)
Definition Response : Type := (Json * Z)%type.

(** An uploaded file: its name and what [pd.read_excel] makes of it, the
    text of the exception when it raises. *)
Record Upload : Type := mkUpload {
  filename : string;
  read_excel : string + DataFrame
}.

Definition endswith (s suffix : string) : bool :=
  (String.length suffix <=? String.length s)%nat &&
  String.eqb (substring (String.length s - String.length suffix)
                        (String.length suffix) s) suffix.

Definition str_of_nat (n : nat) : string :=
  NilZero.string_of_uint (Nat.to_uint n).

Definition required_cols : list string :=
  ["Responsável pelo recebimento"; "Data"; "Turno"; "Cultivar"; "Quantidade (Kg)"].

Definition unwrap {A} (default : A) (o : option A) : A :=
  match o with Some a => a | None => default end.

(** The test of line 721. *)
Definition name_ok (file : Upload) : bool :=
  negb (String.eqb (filename file) "" ||
        negb (endswith (filename file) ".xlsx" || endswith (filename file) ".xls")).

(** The test of line 728. *)
Definition has_required_cols (df : DataFrame) : bool :=
  forallb (fun col => col_in col (columns df)) required_cols.

(** The frame after lines 732 and 736, once both checks have passed. *)
Definition to_events (df : DataFrame) : list TimelineEvent :=
  map (fun r => mkEvent (r "Responsável pelo recebimento")
                        (unwrap 0 (to_datetime L (r "Data")))
                        (r "Turno") (r "Cultivar")
                        (unwrap 0%Q (to_numeric (r "Quantidade (Kg)"))))
      (rows df).

(** Lines 714-752. *)
Definition import_timeline_data (timeline_file : option Upload) : IO Response :=
  match timeline_file with
  | None => ret (JError "Nenhum arquivo enviado", 400)
  | Some file =>
      if negb (name_ok file)
      then ret (JError "Formato de arquivo inválido. Use .xlsx ou .xls", 400)
      else
        match read_excel file with
        | inl e => ret (JError ("Erro ao processar o arquivo: " ++ e)%string, 500)
        | inr imported_df =>
            if negb (has_required_cols imported_df)
            then ret (JError ("O arquivo deve ter as colunas: " ++
                              String.concat ", " required_cols)%string, 400)
            else
              let datas := map (fun r => to_datetime L (r "Data")) (rows imported_df) in
              if existsb (fun d => negb (is_some d)) datas
              then ret (JError "Datas inválidas no arquivo. Use formato AAAA-MM-DD", 400)
              else
                let quantidades :=
                  map (fun r => to_numeric (r "Quantidade (Kg)")) (rows imported_df) in
                if existsb (fun q => negb (is_some q)) quantidades
                then ret (JError "Valores de quantidade inválidos no arquivo", 400)
                else
                  processed_df <- process_timeline_data (to_events imported_df) ;;
                  save_timeline_data processed_df ;;;
                  ret (JImported ("Dados de timeline importados com sucesso! " ++
                                  str_of_nat (List.length processed_df) ++
                                  " registros processados.")%string
                                 (List.length processed_df), 200)
        end
  end.

(** The fields of the registration form; [None] is a field not sent. *)
Record Form : Type := mkForm {
  cultivar : option string;
  categoria : option string;
  prev_colheita : option string;
  prev_receb : option string;
  recepcao : option string
}.

(** [float(request.form.get(name, 0))]: the float, or the text of the
    ValueError. *)
Definition float_field (field : option string) : string + Cell :=
  match field with
  | None => inr (Num 0%Q)
  | Some t =>
      match py_float L t with
      | Some (Some q) => inr (Num q)
      | Some None => inr NaN
      | None => inl ("could not convert string to float: '" ++ t ++ "'")%string
      end
  end.

Definition text_field (field : option string) : Cell :=
  match field with Some t => Str t | None => NaN end.

(** [pd.concat([df, new_df_row], ignore_index=True)] *)
Definition concat (df new_df_row : DataFrame) : DataFrame :=
  mkFrame (columns df) (rows df ++ rows new_df_row).

(** The row of [pd.DataFrame([data], columns=cols)]: a column the
    dictionary lacks is missing. *)
Definition row_of (data : list (string * Cell)) : Row :=
  fun c =>
    match find (fun kv => String.eqb c (fst kv)) data with
    | Some kv => snd kv
    | None => NaN
    end.

(** Lines 952-969. *)
Definition register_cultivar (form : Form) : IO Response :=
  match float_field (prev_colheita form) with
  | inl e => ret (JError ("Erro ao cadastrar: " ++ e)%string, 500)
  | inr v_prev_colheita =>
  match float_field (prev_receb form) with
  | inl e => ret (JError ("Erro ao cadastrar: " ++ e)%string, 500)
  | inr v_prev_receb =>
  match float_field (recepcao form) with
  | inl e => ret (JError ("Erro ao cadastrar: " ++ e)%string, 500)
  | inr v_recepcao =>
      let new_cultivar_data :=
        [("Cultivar", text_field (cultivar form));
         ("Categoria", text_field (categoria form));
         ("Prev_Colheita", v_prev_colheita);
         ("Prev_Receb", v_prev_receb);
         ("Recepcao", v_recepcao);
         ("Status", Str "Em Andamento")] in
      df <- load_and_process_data ;;
      let new_df_row := mkFrame (columns (to_frame df)) [row_of new_cultivar_data] in
      let df' := concat (to_frame df) new_df_row in
      save_dataframe df' ;;;
      ret (JMessage "Cultivar cadastrada com sucesso!", 200)
  end end end.

End WithLibrary.

(** ** A library to run the functions on examples

    Numbers are read as decimals without exponent; a whole float is
    printed with [.0] and any other as a fraction, which is not read back;
    dates are written AAAA-MM-DD. *)

Fixpoint split_at (sep : ascii) (s : string) : string * option string :=
  match s with
  | EmptyString => (EmptyString, None)
  | String c t =>
      if Ascii.eqb c sep then (EmptyString, Some t)
      else let (a, b) := split_at sep t in (String c a, b)
  end.

Definition digits (s : string) : option Z :=
  match s with
  | EmptyString => None
  | _ => option_map Z.of_uint (NilEmpty.uint_of_string s)
  end.

Definition unsigned_decimal (s : string) : option Q :=
  match split_at "." s with
  | (i, None) => option_map inject_Z (digits i)
  | (i, Some f) =>
      match digits i, digits f with
      | Some n, Some m =>
          Some (Qred (inject_Z n + inject_Z m / inject_Z (10 ^ Z.of_nat (String.length f))))
      | _, _ => None
      end
  end.

Definition decimal (s : string) : option Q :=
  match s with
  | String "-" t => option_map Qopp (unsigned_decimal t)
  | _ => unsigned_decimal s
  end.

Definition str_of_Z (z : Z) : string := NilZero.string_of_int (Z.to_int z).

Definition plain_repr (q : Q) : string :=
  let q := Qred q in
  if Pos.eqb (Qden q) 1 then (str_of_Z (Qnum q) ++ ".0")%string
  else (str_of_Z (Qnum q) ++ "/" ++ str_of_Z (Z.pos (Qden q)))%string.

(** The day number of a date of the civil calendar, 1970-01-01 being 0. *)
Definition days_from_civil (y m d : Z) : Z :=
  let y := if m <=? 2 then y - 1 else y in
  let era := y / 400 in
  let yoe := y - era * 400 in
  let doy := (153 * (if m >? 2 then m - 3 else m + 9) + 2) / 5 + d - 1 in
  let doe := yoe * 365 + yoe / 4 - yoe / 100 + doy in
  era * 146097 + doe - 719468.

Definition plain_date (c : Cell) : option Z :=
  match c with
  | Str s =>
      match split_at "-" s with
      | (y, Some md) =>
          match split_at "-" md with
          | (m, Some d) =>
              match digits y, digits m, digits d with
              | Some y, Some m, Some d =>
                  if (1 <=? m) && (m <=? 12) && (1 <=? d) && (d <=? 31)
                  then Some (days_from_civil y m d) else None
              | _, _, _ => None
              end
          | _ => None
          end
      | _ => None
      end
  | _ => None
  end.

Definition plain_float (s : string) : option (option Q) :=
  if String.eqb s "nan" then Some None else option_map Some (decimal s).

Definition plain : Library :=
  mkLibrary decimal plain_repr plain_date plain_float.

(** ** Inputs of the examples *)

(** A [data.csv] without the column Status. *)
Definition csv_without_status : CsvFile :=
  [["Cultivar"; "Prev_Colheita"; "Prev_Receb"; "Recepcao"; "Categoria"];
   ["TRUNFO"; "1000"; "1000"; "1000"; "Pao"]].

Definition files_without_status : Files := mkFiles (Some csv_without_status) None.

(** A frame whose column Status is filled in one row only. *)
Definition frame_partly_filled : DataFrame :=
  mkFrame raw_cols
    [row_of [("Cultivar", Str "TRUNFO"); ("Prev_Receb", Num 1000);
             ("Recepcao", Num 1000); ("Status", Str "Conferir")];
     row_of [("Cultivar", Str "VELOZ"); ("Prev_Receb", Num 1000);
             ("Recepcao", Num 0)]].

(** A [data.csv] in which TRUNFO is listed twice, under two categories. *)
Definition csv_twice : CsvFile :=
  [raw_cols;
   ["TRUNFO"; "1000"; "1000"; "400"; "Pao"; "Em Andamento"];
   ["TRUNFO"; "500"; "500"; "0"; "Melhorador"; "Falta Receber"]].

Definition files_twice : Files := mkFiles (Some csv_twice) None.

Definition event_trunfo : TimelineEvent :=
  mkEvent (Str "Maria Santos") 19737 (Str "Tarde") (Str "TRUNFO") 15000.

(** A sheet of two receipts, and the same with a text that is no date. *)
Definition sheet_good : DataFrame :=
  mkFrame required_cols
    [row_of [("Responsável pelo recebimento", Str "João Silva");
             ("Data", Str "2024-01-15"); ("Turno", Str "Manhã");
             ("Cultivar", Str "TRUNFO"); ("Quantidade (Kg)", Num 15000)];
     row_of [("Responsável pelo recebimento", Str "Maria Santos");
             ("Data", Str "2024-01-16"); ("Turno", Str "Tarde");
             ("Cultivar", Str "VELOZ"); ("Quantidade (Kg)", Str "12000")]].

Definition sheet_bad_date : DataFrame :=
  mkFrame required_cols
    [row_of [("Responsável pelo recebimento", Str "João Silva");
             ("Data", Str "2024-01-15"); ("Turno", Str "Manhã");
             ("Cultivar", Str "TRUNFO"); ("Quantidade (Kg)", Num 15000)];
     row_of [("Responsável pelo recebimento", Str "Maria Santos");
             ("Data", Str "amanhã"); ("Turno", Str "Tarde");
             ("Cultivar", Str "VELOZ"); ("Quantidade (Kg)", Num 12000)]].

(** A [data.csv] in which TRUNFO has a row with a forecast and a row
    without one. *)
Definition csv_zero_forecast : CsvFile :=
  [raw_cols;
   ["TRUNFO"; "100"; "100"; "50"; "Pao"; "Em Andamento"];
   ["TRUNFO"; "0"; "0"; "30"; "Pao"; "Em Andamento"]].

Definition files_zero_forecast : Files := mkFiles (Some csv_zero_forecast) None.

(** A [data.csv] with 100000 received, and the seed whose draws are the
    largest volume, 1000, and the shortest step, one day. *)
Definition csv_large : CsvFile :=
  [raw_cols; ["TRUNFO"; "100000"; "100000"; "100000"; "Pao"; "OK"]].

Definition files_large : Files := mkFiles (Some csv_large) None.

Definition seed_largest : Rng := fun _ => 900.

(** A record with 250 received. *)
Definition record_250 : CultivarRecord :=
  mkRecord (Str "VELOZ") 1000 1000 250 (Str "Pao") 25 (Str "Em Andamento").

(** No file yet. *)
Definition no_files : Files := mkFiles None None.

(** The set loaded from a [data.csv] without the column Categoria: its
    Categoria is the default text of a missing column. *)
Definition set_with_default : list CultivarRecord :=
  run (load_and_process_data plain)
      (mkFiles (Some [["Cultivar"; "Prev_Colheita"; "Prev_Receb"; "Recepcao"; "Status"];
                      ["TRUNFO"; "1000"; "1000"; "400"; "Em Andamento"]]) None).

(** A set of two records with plain texts. *)
Definition set_plain : list CultivarRecord :=
  run (load_and_process_data plain) files_twice.

(** A registration form, and the two uploads of the sheets above. *)
Definition form_veloz : Form :=
  mkForm (Some "VELOZ") (Some "Melhorador") (Some "2000") (Some "1800") (Some "1800").

Definition upload_good : Upload := mkUpload "recebimento.xlsx" (inr sheet_good).

Definition upload_bad_date : Upload := mkUpload "recebimento.xlsx" (inr sheet_bad_date).

(** ** Definitions that state the properties *)

(** What lines 77-82 make of a row of [df]: the default in each column
    the frame lacks. *)
Definition normalize_row (cols : list string) (df : DataFrame) (r : Row) : Row :=
  fun c => if col_in c cols && negb (col_in c (columns df)) then default_of c else r c.

(** The lookup as the specification words it: the Categoria of the first
    record of the set with that Cultivar, 'N/A' when there is none. *)
Definition first_seen_categoria (main_df : list CultivarRecord) (cultivar : Cell) : Cell :=
  match find (fun r => cell_eqb (Cultivar r) cultivar) main_df with
  | Some r => Categoria r
  | None => Str "N/A"
  end.

(** The Categoria of the last record of the set with that Cultivar. *)
Definition last_seen_categoria (main_df : list CultivarRecord) (cultivar : Cell) : Cell :=
  match find (fun r => cell_eqb (Cultivar r) cultivar) (rev main_df) with
  | Some r => Categoria r
  | None => Str "N/A"
  end.

(** A row of the sheet whose date or quantity does not parse. *)
Definition unparsable (L : Library) (r : Row) : Prop :=
  to_datetime L (r "Data") = None \/ to_numeric L (r "Quantidade (Kg)") = None.

(** The bars of a view; the placeholder has none. *)
Definition bars_of {A} (g : Graph (list A)) : list A :=
  match g with
  | Figure data => data
  | Placeholder _ => []
  end.

(** The set without its rows of forecast 0. *)
Definition drop_zero_forecast (df : list CultivarRecord) : list CultivarRecord :=
  filter (fun r => negb (Qeq_bool (Prev_Receb r) 0)) df.

(** The state in which the loop of lines 186-197 starts for [row], the
    list so far being [acc]. *)
Definition loop_start (now : Z) (row : CultivarRecord)
           (acc : list TimelineRecord) (g : Rng) : LoopState :=
  mkLoop acc (Recepcao row) (now - 60) g.

(** The states the loop goes through from [s0]. *)
Inductive reachable (now : Z) (row : CultivarRecord) (s0 : LoopState)
  : LoopState -> Prop :=
| reach_start : reachable now row s0 s0
| reach_turn (s : LoopState) :
    reachable now row s0 s -> loop_test now s = true ->
    reachable now row s0 (loop_body row s).

(** What the loop does for one record: it never leaves a negative
    volume, it ends, and its entries and the volume left add up to
    Recepcao; nothing is left when Recepcao is 2100 at most. *)
Definition distribute_spec (now : Z) (row : CultivarRecord)
           (acc : list TimelineRecord) (g : Rng) : Prop :=
  let s0 := loop_start now row acc g in
  (forall s, reachable now row s0 s -> (0 <= remaining s)%Q) /\
  exists s' new,
    while_loop (turns now s0) now row s0 = Some s' /\
    loop_test now s' = false /\
    distribute now row (acc, g) = (acc ++ new, rng s') /\
    Forall (fun e => tl_Cultivar e = Cultivar row) new /\
    (Qsum (map Volume_SC new) + remaining s' == Recepcao row)%Q /\
    (0 <= remaining s')%Q /\
    (Recepcao row <= 2100 ->
     remaining s' == 0 /\ Qsum (map Volume_SC new) == Recepcao row)%Q.

(** What holds of every state of the loop for [row]: the volume left is
    not negative, and with the entries added since [acc] it makes up
    Recepcao. *)
Definition accounted (row : CultivarRecord) (acc : list TimelineRecord)
           (s : LoopState) : Prop :=
  (0 <= remaining s)%Q /\
  exists new,
    sample_data s = acc ++ new /\
    Forall (fun e => tl_Cultivar e = Cultivar row) new /\
    (Qsum (map Volume_SC new) + remaining s == Recepcao row)%Q.

(** The volume left is within what the turns still to come consume at
    least, 100 each, a turn every three days at most. *)
Definition within_reach (now : Z) (s : LoopState) : Prop :=
  (-3 <= now - current_date s)%Z /\
  (remaining s <= inject_Z (100 * ((now - current_date s + 3) / 3)))%Q.

(** Saving a set and loading it again. *)
Definition save_then_load (L : Library) (df : list CultivarRecord)
  : IO (list CultivarRecord) :=
  save_dataframe L (to_frame df) ;;; load_and_process_data L.

Definition six_columns (r : CultivarRecord) : Cell * Q * Q * Q * Cell * Cell :=
  (Cultivar r, Prev_Colheita r, Prev_Receb r, Recepcao r, Categoria r, Status r).

(** A text that [read_csv] gives back as it is: not one of the texts of a
    missing value and not a number. *)
Definition plain_text (L : Library) (c : Cell) : Prop :=
  exists t, c = Str t /\ is_na t = false /\ parse_float L t = None.

(** A float whose text is read back as the same float. *)
Definition float_survives (L : Library) (q : Q) : Prop :=
  is_na (float_repr L q) = false /\ parse_float L (float_repr L q) = Some q.

Definition survives_csv (L : Library) (r : CultivarRecord) : Prop :=
  plain_text L (Cultivar r) /\ plain_text L (Categoria r) /\ plain_text L (Status r) /\
  float_survives L (Prev_Colheita r) /\ float_survives L (Prev_Receb r) /\
  float_survives L (Recepcao r).

(** The record with its percentage computed anew. *)
Definition recomputed (r : CultivarRecord) : CultivarRecord :=
  mkRecord (Cultivar r) (Prev_Colheita r) (Prev_Receb r) (Recepcao r) (Categoria r)
           (percent (Recepcao r) (Prev_Receb r)) (Status r).

(** The cell [save_dataframe] writes for column [c] of a row of [df]. *)
Definition saved_cell (df : DataFrame) (r : Row) (c : string) : Cell :=
  if col_in c (columns df) then fillna (Num 0%Q) (r c) else Num 0%Q.

Definition saved_line (L : Library) (df : DataFrame) (r : Row) : list string :=
  map (fun c => cell_text L (saved_cell df r c)) raw_cols.

(** The line of [data.csv] written for a record. *)
Definition record_line (L : Library) (r : CultivarRecord) : list string :=
  [cell_text L (fillna (Num 0%Q) (Cultivar r));
   float_repr L (Prev_Colheita r);
   float_repr L (Prev_Receb r);
   float_repr L (Recepcao r);
   cell_text L (fillna (Num 0%Q) (Categoria r));
   cell_text L (fillna (Num 0%Q) (Status r))].



(** The largest float64, and the numbers it bounds. *)
Definition float_max : Q := inject_Z ((2 ^ 53 - 1) * 2 ^ 971).

Definition fits_float (q : Q) : Prop := (- float_max <= q <= float_max)%Q.

(** The volumes that a load reads from [data.csv] fit a float64.  Line 85
    raises OverflowError on a number that does not, and with it the load
    and every route that calls it; nothing here describes that case. *)
Definition load_fits (L : Library) (fs : Files) : Prop :=
  Forall (fun r => fits_float (Prev_Colheita r) /\ fits_float (Prev_Receb r) /\
                   fits_float (Recepcao r))
         (run (load_and_process_data L) fs).

(** The sheet of two receipts under a name in capitals. *)
Definition upload_capitals : Upload := mkUpload "recebimento.XLSX" (inr sheet_good).

(** * More of the program *)

(** ** The figures of the report (lines 773-781) *)

Record Kpis : Type := mkKpis {
  total_previsto : Q;
  total_recebido : Q;
  progresso_geral : Q;
  num_cultivares : nat;
  total_excedente : Q;
  total_deficit : Q;
  cultivares_excedente : nat
}.

Definition kpis (df : list CultivarRecord) : Kpis :=
  let total_previsto := Qsum (map Prev_Receb df) in
  let total_recebido := Qsum (map Recepcao df) in
  let progresso_geral :=
    if Qlt_bool 0 total_previsto
    then round (total_recebido / total_previsto * 100)%Q 2 else 0%Q in
  let above := filter (fun r => Qlt_bool (Prev_Receb r) (Recepcao r)) df in
  let below := filter (fun r => Qlt_bool (Recepcao r) (Prev_Receb r)) df in
  mkKpis total_previsto total_recebido progresso_geral (List.length df)
         (Qsum (map Recepcao above) - Qsum (map Prev_Receb above))%Q
         (Qsum (map Prev_Receb below) - Qsum (map Recepcao below))%Q
         (List.length above).

(** ** The other views *)

(** The keys of [df.groupby(key)]: sorted, a missing key dropped. *)
Definition keys_by (key : CultivarRecord -> Cell) (df : list CultivarRecord)
  : list Cell :=
  sort_by cell_leb (unique (filter (fun k => negb (isna k)) (map key df))).






(** A Python [dict] from cells to values of any type; [getitem] is
    [d[k]], [None] standing for its KeyError. *)
Fixpoint setitem {V} (k : Cell) (v : V) (d : list (Cell * V)) : list (Cell * V) :=
  match d with
  | [] => [(k, v)]
  | (k', v') :: t =>
      if cell_eqb k' k then (k', v) :: t else (k', v') :: setitem k v t
  end.

Fixpoint getitem {V} (d : list (Cell * V)) (k : Cell) : option V :=
  match d with
  | [] => None
  | (k', v') :: t => if cell_eqb k' k then Some v' else getitem t k
  end.

(** [enumerate(l)] *)
Definition enumerate {A} (l : list A) : list (nat * A) :=
  combine (seq 0 (List.length l)) l.

(** [{name: i for i, name in enumerate(nodes)}] *)
Definition node_map_of (nodes : list Cell) : list (Cell * nat) :=
  fold_left (fun d p => setitem (snd p) (fst p) d) (enumerate nodes) [].

(** The nodes and the links of the Sankey diagram. *)
Record Sankey : Type := mkSankey {
  nodes : list Cell;
  sources : list nat;
  targets : list nat;
  values : list Q
}.

(** Lines 320-327: one link for each row; [None] when a name is not in
    [node_map]. *)
Fixpoint links (node_map : list (Cell * nat)) (sankey_df : list CultivarRecord)
  : option (list nat * list nat * list Q) :=
  match sankey_df with
  | [] => Some ([], [], [])
  | row :: rest =>
      match getitem node_map (Cultivar row), getitem node_map (Status row) with
      | Some source_index, Some target_index =>
          match links node_map rest with
          | Some (ss, ts, vs) =>
              Some (source_index :: ss, target_index :: ts, Prev_Receb row :: vs)
          | None => None
          end
      | _, _ => None
      end
  end.

(** Lines 303-327; [None] is the KeyError of a lookup in [node_map]. *)
Definition create_sankey_graph (df : list CultivarRecord) : option (Graph Sankey) :=
  match df with
  | [] => Some (Placeholder "<div class='text-center p-5 text-muted'>Adicione dados com previsão para ver o Sankey Diagram (Cultivar -> Status).</div>")
  | _ :: _ =>
      if Qeq_bool (Qsum (map Prev_Receb df)) 0 then
        Some (Placeholder "<div class='text-center p-5 text-muted'>Adicione dados com previsão para ver o Sankey Diagram (Cultivar -> Status).</div>")
      else
        let sankey_df := filter (fun r => Qlt_bool 0 (Prev_Receb r)) df in
        match sankey_df with
        | [] => Some (Placeholder "<div class='text-center p-5 text-muted'>Nenhum dado com Prev. Receb. válido para o Sankey Diagram.</div>")
        | _ :: _ =>
            let cultivares := unique (map Cultivar sankey_df) in
            let statuses := unique (map Status sankey_df) in
            let nodes := cultivares ++ statuses in
            let node_map := node_map_of nodes in
            match links node_map sankey_df with
            | Some (ss, ts, vs) => Some (Figure (mkSankey nodes ss ts vs))
            | None => None
            end
        end
  end.

(** No two keys of the list are equal. *)
Definition distinct : list Cell -> Prop :=
  ForallOrdPairs (fun a b : Cell => cell_eqb a b = false).

(** ** The other routes of the record store *)

Section OtherRoutes.

Variable L : Library.

Definition import_required_cols : list string :=
  ["Cultivar"; "Prev_Colheita"; "Prev_Receb"; "Recepcao"; "Categoria"].

(** Lines 1001-1002. *)
Definition with_default_status (imported_df : DataFrame) : DataFrame :=
  if col_in "Status" (columns imported_df) then imported_df
  else mkFrame (columns imported_df ++ ["Status"])
               (map (set "Status" (Str "Em Andamento")) (rows imported_df)).

(** Lines 984-1008. *)
Definition import_data (excel_file : option Upload) : IO Response :=
  match excel_file with
  | None => ret (JError "Nenhum arquivo enviado", 400)
  | Some file =>
      if negb (name_ok file)
      then ret (JError "Formato de arquivo inválido. Use .xlsx ou .xls", 400)
      else
        match read_excel file with
        | inl e => ret (JError ("Erro ao processar o arquivo: " ++ e)%string, 500)
        | inr imported_df =>
            if negb (forallb (fun col => col_in col (columns imported_df))
                             import_required_cols)
            then ret (JError ("O arquivo Excel deve ter as colunas: " ++
                              String.concat ", " import_required_cols)%string, 400)
            else
              save_dataframe L (with_default_status imported_df) ;;;
              ret (JMessage "Dados importados e compilados com sucesso!", 200)
        end
  end.

(** Lines 943-944 for one column. *)
Definition coerce_column (df : DataFrame) (col : string) : DataFrame :=
  mkFrame (columns df) (map (fun r => set col (Num (coerce L (r col))) r) (rows df)).

(** Lines 940-949 on the frame of [pd.DataFrame(request.json)]; [inl] is
    the KeyError of a volume column that the frame lacks, the name of the
    column in it. *)
Definition update_data (new_df : DataFrame) : IO (string + list CultivarRecord) :=
  match find (fun col => negb (col_in col (columns new_df))) numeric_cols with
  | Some col => ret (inl col)
  | None =>
      save_dataframe L (fold_left coerce_column numeric_cols new_df) ;;;
      df_updated <- load_and_process_data L ;;
      ret (inr df_updated)
  end.

(** Lines 934-937: [df.to_dict(orient='records')], one dictionary for
    each record. *)
Definition get_data : IO (list CultivarRecord) :=
  df <- load_and_process_data L ;;
  let data_json := df in
  ret data_json.

(** [pd.DataFrame(data)] on a list of such dictionaries: the columns are
    their keys, in an order that plays no part in what is done with the
    frame, and a frame of an empty list has no column. *)
Definition frame_of_records (data : list CultivarRecord) : DataFrame :=
  match data with
  | [] => mkFrame [] []
  | _ :: _ => to_frame data
  end.

End OtherRoutes.

(** An entry of the sample for [row]: its cultivar and category, a day
    of the sixty before [now], and a volume above 0, within 1000 and
    within what the record received. *)
Definition sample_entry (now : Z) (row : CultivarRecord) (e : TimelineRecord) : Prop :=
  tl_Cultivar e = Cultivar row /\ tl_Categoria e = Categoria row /\
  (exists d, tl_Data e = Some d /\ (now - 60 <= d <= now)%Z) /\
  (0 < Volume_SC e)%Q /\ (Volume_SC e <= 1000)%Q /\ (Volume_SC e <= Recepcao row)%Q.

(** What holds of every state of the loop for [row] from the entries
    [acc]: the date is not before the start, and the entries added, each
    a [sample_entry], make up Recepcao with the volume left. *)
Definition sampled (now : Z) (row : CultivarRecord) (acc : list TimelineRecord)
           (s : LoopState) : Prop :=
  (now - 60 <= current_date s)%Z /\ (0 <= remaining s)%Q /\
  exists new,
    sample_data s = acc ++ new /\
    Forall (sample_entry now row) new /\
    (Qsum (map Volume_SC new) + remaining s == Recepcao row)%Q.

(** ** More inputs of the examples *)

(** A sheet of two records without the column Status, and its upload. *)
Definition sheet_records : DataFrame :=
  mkFrame import_required_cols
    [row_of [("Cultivar", Str "TRUNFO"); ("Prev_Colheita", Num 1000);
             ("Prev_Receb", Num 1000); ("Recepcao", Num 1000);
             ("Categoria", Str "Pao")];
     row_of [("Cultivar", Str "VELOZ"); ("Prev_Colheita", Num 2000);
             ("Prev_Receb", Num 1800); ("Recepcao", Num 0);
             ("Categoria", Str "Melhorador")]].

Definition upload_records : Upload := mkUpload "dados.xlsx" (inr sheet_records).

(** A frame whose column Status is empty in both rows. *)
Definition frame_empty_status : DataFrame :=
  mkFrame raw_cols
    [row_of [("Cultivar", Str "TRUNFO"); ("Prev_Receb", Num 1000);
             ("Recepcao", Num 1000)];
     row_of [("Cultivar", Str "VELOZ"); ("Prev_Receb", Num 1000);
             ("Recepcao", Num 0)]].

(** The volume that a load makes of the text of a field: 0 for a missing
    value and for a text that is no number. *)
Definition volume_of_text (L : Library) (t : string) : Q :=
  if is_na t then 0%Q
  else match parse_float L t with Some q => q | None => 0%Q end.

(** A [data.csv] with a forecast and a receipt that are no numbers, and
    without the column Prev_Colheita. *)
Definition csv_bad_cells : CsvFile :=
  [["Cultivar"; "Prev_Receb"; "Recepcao"; "Categoria"; "Status"];
   ["TRUNFO"; "mil"; "400"; "Pao"; "Em Andamento"];
   ["VELOZ"; "500"; "n/a"; "Pao"];
   ["AUDAZ"; "800"; "80O"; "Melhorador"; "Em Andamento"]].

Definition files_bad_cells : Files := mkFiles (Some csv_bad_cells) None.

(** ** The timeline view (lines 534-581) *)

(** A trace of the figure: its category, the dates and the volume
    accumulated on each. *)
Record Trace : Type := mkTrace {
  t_name : Cell;
  t_x : list Z;
  t_y : list Q
}.

(** The order of [sort_values('Data')]: a date that is missing comes
    last. *)
Definition date_leb (a b : option Z) : bool :=
  match a, b with
  | Some x, Some y => (x <=? y)%Z
  | None, Some _ => false
  | _, None => true
  end.

(** [==] between a cell of a column and a value: a missing value is
    equal to nothing. *)
Definition series_eqb (a b : Cell) : bool := negb (isna a) && cell_eqb a b.

Definition on_date (d : Z) (e : TimelineRecord) : bool :=
  match tl_Data e with Some d' => (d' =? d)%Z | None => false end.

(** The dates of the entries that have one. *)
Definition dates_of (data : list TimelineRecord) : list Z :=
  flat_map (fun e => match tl_Data e with Some d => [d] | None => [] end) data.

(** The volume of the entries dated [d]. *)
Definition volume_on (data : list TimelineRecord) (d : Z) : Q :=
  Qsum (map Volume_SC (filter (on_date d) data)).

(** Lines 557-558: the volume of each date, the dates in order; an entry
    without a date is in no group. *)
Definition daily_data (category_data : list TimelineRecord) : list (Z * Q) :=
  map (fun d => (d, volume_on category_data d))
      (sort_by Z.leb (nodup Z.eq_dec (dates_of category_data))).

Fixpoint cumsum_from (acc : Q) (l : list Q) : list Q :=
  match l with
  | [] => []
  | x :: t => (acc + x)%Q :: cumsum_from (acc + x)%Q t
  end.

(** [Series.cumsum()] *)
Definition cumsum (l : list Q) : list Q :=
  match l with
  | [] => []
  | x :: t => x :: cumsum_from x t
  end.

(** Lines 554-565 for one category. *)
Definition trace_of (category : Cell) (timeline_df : list TimelineRecord) : Trace :=
  let category_data :=
    filter (fun e => series_eqb (tl_Categoria e) category) timeline_df in
  let daily := daily_data category_data in
  mkTrace category (map fst daily) (cumsum (map snd daily)).

(** Lines 541-565 on the timeline that line 539 got. *)
Definition timeline_traces (timeline_df : list TimelineRecord)
  : Graph (list Trace) :=
  match timeline_df with
  | [] => Placeholder "<div class='text-center p-5 text-muted'>Nenhum dado de timeline disponível. Use a exportação de dados para importar dados de recebimento por data.</div>"
  | _ :: _ =>
      let timeline_df :=
        sort_by (fun a b => date_leb (tl_Data a) (tl_Data b)) timeline_df in
      let categories := unique (map tl_Categoria timeline_df) in
      Figure (map (fun category => trace_of category timeline_df) categories)
  end.

Definition create_timeline_graph (L : Library) (now : Z) (g : Rng)
  : IO (Graph (list Trace)) :=
  timeline_df <- generate_sample_timeline_data L now g ;;
  ret (timeline_traces timeline_df).

(** Whether an entry is dated [d] at most, and the volume of those of
    [data] that are. *)
Definition dated_until (d : Z) (e : TimelineRecord) : bool :=
  match tl_Data e with Some d' => (d' <=? d)%Z | None => false end.

Definition volume_until (data : list TimelineRecord) (d : Z) : Q :=
  Qsum (map Volume_SC (filter (dated_until d) data)).

(** Whether an entry is of the category and dated [d] at most. *)
Definition until (category : Cell) (d : Z) (e : TimelineRecord) : bool :=
  series_eqb (tl_Categoria e) category && dated_until d e.

(** ** The configuration (lines 19-59, 208-220 and 909-929) *)

(** A value of JSON, as [json.load] returns it. *)
#[warnings="-register-all"]
Inductive JsonValue : Type :=
| VNull
| VBool (b : bool)
| VNumber (n : Q)
| VString (s : string)
| VList (l : list JsonValue)
| VDict (d : list (string * JsonValue)).

(** A Python [dict] with text keys: keys in insertion order, a key set
    again keeps its place and takes the new value. *)
Fixpoint obj_set (k : string) (v : JsonValue) (d : list (string * JsonValue))
  : list (string * JsonValue) :=
  match d with
  | [] => [(k, v)]
  | (k', v') :: t =>
      if String.eqb k' k then (k', v) :: t else (k', v') :: obj_set k v t
  end.

Fixpoint obj_get (d : list (string * JsonValue)) (k : string) : option JsonValue :=
  match d with
  | [] => None
  | (k', v') :: t => if String.eqb k' k then Some v' else obj_get t k
  end.

(** [d.update(new)] *)
Definition obj_update (d new : list (string * JsonValue))
  : list (string * JsonValue) :=
  fold_left (fun d kv => obj_set (fst kv) (snd kv) d) new d.

(** [key in obj]: among the keys of a dict, the items of a list, the
    parts of a text; [None] is the TypeError of the other values. *)
Definition contains (key : string) (obj : JsonValue) : option bool :=
  match obj with
  | VDict d => Some (existsb (fun kv => String.eqb (fst kv) key) d)
  | VList l =>
      Some (existsb (fun x => match x with
                              | VString s => String.eqb s key
                              | _ => false
                              end) l)
  | VString s => Some (is_some (index 0 key s))
  | _ => None
  end.

(** [obj[key]]: [None] is the KeyError of a dict without the key and the
    TypeError of a value that is no dict. *)
Definition get_item (obj : JsonValue) (key : string) : option JsonValue :=
  match obj with
  | VDict d => obj_get d key
  | _ => None
  end.

(** [obj[key] = v]: [None] is the TypeError of a value that is no dict. *)
Definition set_item (obj : JsonValue) (key : string) (v : JsonValue)
  : option JsonValue :=
  match obj with
  | VDict d => Some (VDict (obj_set key v d))
  | _ => None
  end.

Definition default_config : list (string * JsonValue) :=
  [("dashboardTitle", VString "Dashboard de Recepção de Trigo 🌾");
   ("theme", VDict
     [("primary", VString "#0d6efd");
      ("success", VString "#198754");
      ("warning", VString "#ffc107");
      ("danger", VString "#dc3545")]);
   ("tabNames", VDict
     [("dashboard-tab", VString "📊 Dashboard & Progresso Individual");
      ("avancado-tab", VString "🚀 Gráficos Avançados");
      ("analise-tab", VString "📈 Análise Detalhada");
      ("tabela-tab", VString "📋 Edição Rápida da Tabela");
      ("cadastro-tab", VString "➕ Cadastro & Opções");
      ("slideshow-tab", VString "🎬 Slideshow")]);
   ("graphTitles", VDict
     [("barGroupedTitle", VString "1. Previsto vs. Recebido (Barras Agrupadas)");
      ("treemapTitle", VString "2. Proporção do Recebido (Gráfico de Pizza)");
      ("sankeyTitle", VString "3. Fluxo de Volume (Sankey Diagram)")])].

(** [config.json]: missing or of size 0, not readable as JSON, or the
    value it holds. *)
Inductive ConfigFile : Type :=
| Absent
| Unreadable
| Stored (config : JsonValue).

(** Lines 45-48: [None] is an exception. *)
Fixpoint fill_defaults (defaults : list (string * JsonValue)) (config : JsonValue)
  : option JsonValue :=
  match defaults with
  | [] => Some config
  | (key, v) :: rest =>
      match contains key config with
      | None => None
      | Some true => fill_defaults rest config
      | Some false =>
          match set_item config key v with
          | Some config' => fill_defaults rest config'
          | None => None
          end
      end
  end.

(** Lines 19-54. *)
Definition load_config (f : ConfigFile) : JsonValue * ConfigFile :=
  match f with
  | Absent => (VDict default_config, Stored (VDict default_config))
  | Unreadable => (VDict default_config, f)
  | Stored config =>
      match fill_defaults default_config config with
      | Some config' => (config', f)
      | None => (VDict default_config, f)
      end
  end.

(** Lines 56-59. *)
Definition save_config (config : JsonValue) (f : ConfigFile) : ConfigFile :=
  Stored config.

Record Colors : Type := mkColors {
  primary : JsonValue;
  success : JsonValue;
  warning : JsonValue;
  danger : JsonValue;
  text_color : string;
  bg_color : string
}.

(** Lines 208-220; [None] is the KeyError or TypeError of a lookup. *)
Definition get_plotly_colors (f : ConfigFile) : option Colors * ConfigFile :=
  let (config, f1) := load_config f in
  (match get_item config "theme" with
   | Some theme =>
       match get_item theme "primary", get_item theme "success",
             get_item theme "warning", get_item theme "danger" with
       | Some p, Some s, Some w, Some d => Some (mkColors p s w d "black" "white")
       | _, _, _, _ => None
       end
   | None => None
   end, f1).

(** Lines 915-916; [None] is an exception. *)
Definition set_title (new_settings current_config : JsonValue) : option JsonValue :=
  match contains "dashboardTitle" new_settings with
  | None => None
  | Some false => Some current_config
  | Some true =>
      match get_item new_settings "dashboardTitle" with
      | Some title => set_item current_config "dashboardTitle" title
      | None => None
      end
  end.

(** Lines 917-918, and the same for the two other sections. *)
Definition update_section (section : string) (new_settings current_config : JsonValue)
  : option JsonValue :=
  match contains section new_settings with
  | None => None
  | Some false => Some current_config
  | Some true =>
      match get_item new_settings section with
      | None => None
      | Some (VDict new_section) =>
          match get_item current_config section with
          | Some (VDict d) =>
              set_item current_config section (VDict (obj_update d new_section))
          | _ => None
          end
      | Some _ => Some current_config
      end
  end.

(** Lines 910-929 on a request whose body is the JSON value
    [new_settings]: the status of the answer and the file. *)
Definition update_config (new_settings : JsonValue) (f : ConfigFile)
  : Z * ConfigFile :=
  let (current_config, f1) := load_config f in
  match set_title new_settings current_config with
  | None => (500, f1)
  | Some c1 =>
  match update_section "tabNames" new_settings c1 with
  | None => (500, f1)
  | Some c2 =>
  match update_section "graphTitles" new_settings c2 with
  | None => (500, f1)
  | Some c3 =>
  match update_section "theme" new_settings c3 with
  | None => (500, f1)
  | Some c4 => (200, save_config c4 f1)
  end end end end.

Definition setting_names : list string :=
  ["dashboardTitle"; "tabNames"; "graphTitles"; "theme"].

Definition section_names : list string := ["tabNames"; "graphTitles"; "theme"].

(** No key of [d] is lost in [d']. *)
Definition keys_kept (d d' : list (string * JsonValue)) : Prop :=
  forall key, obj_get d key <> None -> obj_get d' key <> None.

(** What an update may do to the configuration: nothing, or, on a dict,
    set the four settings only, losing no key of the dict nor of a section
    that is a dict, and leaving a section that is no dict as it is. *)
Definition keeps (before after : JsonValue) : Prop :=
  before = after \/
  exists c c',
    before = VDict c /\ after = VDict c' /\
    keys_kept c c' /\
    (forall k, ~ In k setting_names -> obj_get c' k = obj_get c k) /\
    (forall s v, In s section_names -> obj_get c s = Some v ->
       match v with
       | VDict d => exists d', obj_get c' s = Some (VDict d') /\ keys_kept d d'
       | _ => obj_get c' s = Some v
       end).

(** The four colours can be read. *)
Definition has_colors (config : JsonValue) : Prop :=
  exists theme,
    get_item config "theme" = Some (VDict theme) /\
    Forall (fun key => obj_get theme key <> None)
           ["primary"; "success"; "warning"; "danger"].

(** * Properties *)

Local Open Scope Q_scope.

(** ** Cells *)

Lemma Qeq_bool_sym (x y : Q) : Qeq_bool x y = Qeq_bool y x.
Proof.
  destruct (Qeq_bool x y) eqn:E; symmetry.
  - apply Qeq_bool_iff. symmetry. now apply Qeq_bool_iff.
  - destruct (Qeq_bool y x) eqn:E'; [|reflexivity].
    apply Qeq_bool_iff in E'. symmetry in E'. apply Qeq_bool_iff in E'. congruence.
Qed.

Lemma cell_eqb_refl (a : Cell) : cell_eqb a a = true.
Proof.
  destruct a; simpl; [reflexivity | | apply String.eqb_refl].
  apply Qeq_bool_iff. reflexivity.
Qed.

Lemma cell_eqb_sym (a b : Cell) : cell_eqb a b = cell_eqb b a.
Proof.
  destruct a, b; simpl; try reflexivity.
  - apply Qeq_bool_sym.
  - apply String.eqb_sym.
Qed.

Lemma cell_eqb_trans (a b c : Cell) :
  cell_eqb a b = true -> cell_eqb b c = true -> cell_eqb a c = true.
Proof.
  destruct a, b, c; simpl; try congruence.
  - rewrite !Qeq_bool_iff. intros H1 H2. now rewrite H1.
  - rewrite !String.eqb_eq. congruence.
Qed.

(** Two equal keys find the same entries. *)
Lemma cell_eqb_congr (a b c : Cell) :
  cell_eqb a b = true -> cell_eqb a c = cell_eqb b c.
Proof.
  intros Hab.
  destruct (cell_eqb b c) eqn:Hbc.
  - eapply cell_eqb_trans; eassumption.
  - destruct (cell_eqb a c) eqn:Hac; [|reflexivity].
    rewrite cell_eqb_sym in Hab.
    rewrite (cell_eqb_trans _ _ _ Hab Hac) in Hbc. discriminate.
Qed.

Lemma isna_false (c : Cell) : isna c = false <-> c <> NaN.
Proof. destruct c; simpl; split; congruence. Qed.

Lemma fillna_cases (v c : Cell) :
  (c <> NaN -> fillna v c = c) /\ (c = NaN -> fillna v c = v).
Proof. destruct c; unfold fillna; simpl; split; congruence. Qed.

(** ** Columns *)

Lemma forallb_over_map {A B} (f : A -> B) (p : B -> bool) (l : list A) :
  forallb p (map f l) = forallb (fun a => p (f a)) l.
Proof. induction l as [|a l IH]; simpl; [reflexivity | now rewrite IH]. Qed.

Lemma forallb_pointwise {A} (p q : A -> bool) (l : list A) :
  (forall a, p a = q a) -> forallb p l = forallb q l.
Proof. intros H. induction l as [|a l IH]; simpl; [reflexivity | now rewrite H, IH]. Qed.

Lemma col_in_app (c : string) (l1 l2 : list string) :
  col_in c (l1 ++ l2) = col_in c l1 || col_in c l2.
Proof. apply existsb_app. Qed.

Lemma fold_add_missing (cols : list string) :
  forall df, exists g : Row -> Row,
    rows (fold_left add_missing cols df) = map g (rows df) /\
    (forall r c, g r c = normalize_row cols df r c) /\
    (forall c, col_in c (columns (fold_left add_missing cols df)) =
               col_in c (columns df) || col_in c cols).
Proof.
  induction cols as [|col cols IH]; intros df; simpl.
  - exists (fun r => r). repeat split.
    + now rewrite map_id.
    + intros c. now rewrite orb_false_r.
  - unfold add_missing at 2 4. destruct (col_in col (columns df)) eqn:Hin.
    + destruct (IH df) as (g & Hrows & Hg & Hcols). exists g. repeat split.
      * assumption.
      * intros r c. rewrite Hg. unfold normalize_row. simpl.
        destruct (String.eqb c col) eqn:E; [|reflexivity].
        apply String.eqb_eq in E. subst c. rewrite Hin. simpl.
        now rewrite andb_false_r.
      * intros c. rewrite Hcols. simpl.
        destruct (String.eqb c col) eqn:E; [|reflexivity].
        apply String.eqb_eq in E. subst c. now rewrite Hin.
    + destruct (IH (mkFrame (columns df ++ [col])
                            (map (set col (default_of col)) (rows df))))
        as (g & Hrows & Hg & Hcols).
      simpl in *. exists (fun r => g (set col (default_of col) r)). repeat split.
      * rewrite Hrows. now rewrite map_map.
      * intros r c. rewrite Hg. unfold normalize_row, set. simpl.
        rewrite col_in_app. simpl. rewrite orb_false_r.
        destruct (String.eqb c col) eqn:E.
        -- apply String.eqb_eq in E. subst c. rewrite Hin. simpl.
           now destruct (col_in col cols).
        -- rewrite orb_false_r. simpl. reflexivity.
      * intros c. rewrite Hcols, col_in_app. simpl. rewrite orb_false_r.
        now rewrite <- orb_assoc.
Qed.

Section Metrics.

Variable L : Library.

Lemma with_percent_ext (r r' : Row) :
  (forall c, r c = r' c) -> with_percent L r = with_percent L r'.
Proof. intros H. unfold with_percent. now rewrite !H. Qed.

(** [process], with lines 77-82 read row by row. *)
Lemma process_eq (df : DataFrame) :
  let recs := map (fun r => with_percent L (normalize_row raw_cols df r)) (rows df) in
  process L df =
    if forallb (fun r => isna (normalize_row raw_cols df r "Status")) (rows df)
    then map (fun row => with_Status (get_status row) row) recs
    else map (fun row => with_Status (fillna (Str "Em Andamento") (Status row)) row) recs.
Proof.
  simpl. unfold process, fill_missing_columns, status_is_automatic.
  destruct (fold_add_missing raw_cols df) as (g & Hrows & Hg & Hcols).
  rewrite Hcols, Hrows. replace (col_in "Status" raw_cols) with true by reflexivity.
  rewrite orb_true_r. simpl negb. rewrite orb_false_l.
  rewrite forallb_over_map.
  rewrite (forallb_pointwise _ (fun r => isna (normalize_row raw_cols df r "Status")))
    by (intros r; now rewrite Hg).
  assert (Hrecs : map (with_percent L) (map g (rows df)) =
                  map (fun r => with_percent L (normalize_row raw_cols df r)) (rows df)).
  { rewrite map_map. apply map_ext. intros r. apply with_percent_ext, Hg. }
  rewrite Hrecs. reflexivity.
Qed.

End Metrics.

Lemma Forall2_map_right {A B} (P : A -> B -> Prop) (f : A -> B) (l : list A) :
  (forall a, In a l -> P a (f a)) -> Forall2 P l (map f l).
Proof.
  induction l as [|a l IH]; intros H; simpl; constructor.
  - apply H. now left.
  - apply IH. intros b Hb. apply H. now right.
Qed.

Lemma forallb_false_of_Exists {A} (p : A -> bool) (l : list A) :
  Exists (fun a => p a = false) l -> forallb p l = false.
Proof.
  induction 1 as [a l H | a l _ IH]; simpl.
  - now rewrite H.
  - rewrite IH. apply andb_false_r.
Qed.

Section Status.

Variable L : Library.

Lemma normalize_row_present (df : DataFrame) (r : Row) (c : string) :
  col_in c (columns df) = true -> normalize_row raw_cols df r c = r c.
Proof. intros H. unfold normalize_row. rewrite H. now rewrite andb_false_r. Qed.

Lemma normalize_row_absent (df : DataFrame) (r : Row) (c : string) :
  col_in c raw_cols = true -> col_in c (columns df) = false ->
  normalize_row raw_cols df r c = default_of c.
Proof. intros H1 H2. unfold normalize_row. now rewrite H1, H2. Qed.

Ltac q_absurd :=
  exfalso;
  match goal with
  | H1 : (?a < ?b)%Q, H2 : (?b <= ?a)%Q |- _ => exact (Qlt_not_le _ _ H1 H2)
  | H1 : ?P, H2 : ~ ?P |- _ => exact (H2 H1)
  end.

(** The rule of lines 92-100, case by case. *)
Lemma get_status_rule (row : CultivarRecord) :
  (Prev_Receb row == 0 -> get_status row = Str "Prev. Inválida") /\
  (~ Prev_Receb row == 0 -> 100 <= Percent row -> get_status row = Str "OK") /\
  (~ Prev_Receb row == 0 -> Percent row < 100 -> 0 < Recepcao row ->
   get_status row = Str "Em Andamento") /\
  (~ Prev_Receb row == 0 -> Percent row < 100 -> Recepcao row <= 0 ->
   get_status row = Str "Falta Receber").
Proof.
  unfold get_status, Qlt_bool.
  destruct (Qeq_bool (Prev_Receb row) 0) eqn:E0.
  - apply Qeq_bool_iff in E0. repeat split; intros; try reflexivity; contradiction.
  - assert (N0 : ~ Prev_Receb row == 0)
      by (intros H; apply Qeq_bool_iff in H; congruence).
    destruct (Qle_bool 100 (Percent row)) eqn:E1.
    + apply Qle_bool_iff in E1. repeat split; intros; try reflexivity; q_absurd.
    + assert (N1 : ~ 100 <= Percent row)
        by (intros H; apply Qle_bool_iff in H; congruence).
      destruct (Qle_bool (Recepcao row) 0) eqn:E2; simpl.
      * apply Qle_bool_iff in E2. repeat split; intros; try reflexivity; q_absurd.
      * assert (N2 : ~ Recepcao row <= 0)
          by (intros H; apply Qle_bool_iff in H; congruence).
        repeat split; intros; try reflexivity; q_absurd.
Qed.

(** The automatic rule is applied when the column Status is there and
    wholly empty. *)
Lemma status_rule_on_empty_column (df : DataFrame) :
  col_in "Status" (columns df) = true ->
  Forall (fun r => r "Status" = NaN) (rows df) ->
  Forall (fun out => Status out = get_status out) (process L df).
Proof.
  intros Hcol Hall. rewrite process_eq.
  rewrite (forallb_pointwise _ (fun r => isna (r "Status")))
    by (intros r; now rewrite normalize_row_present).
  replace (forallb (fun r => isna (r "Status")) (rows df)) with true.
  - apply Forall_forall. intros out Hout.
    apply in_map_iff in Hout. destruct Hout as (row & <- & _). reflexivity.
  - symmetry. apply forallb_forall. intros r Hr.
    rewrite Forall_forall in Hall. now rewrite (Hall r Hr).
Qed.

(** A frame without the column Status gets the default text of lines
    77-82 in every row, and line 91 then finds the column filled. *)
Lemma status_of_absent_column (df : DataFrame) :
  col_in "Status" (columns df) = false ->
  Forall (fun out => Status out = Str "N/A") (process L df).
Proof.
  intros Hcol. rewrite process_eq.
  rewrite (forallb_pointwise _ (fun _ => false))
    by (intros r; now rewrite normalize_row_absent).
  apply Forall_forall. intros out Hout.
  destruct (rows df) as [|r0 rs] eqn:Hrows; [contradiction|].
  simpl forallb in Hout. cbv iota in Hout.
  apply in_map_iff in Hout. destruct Hout as (row & <- & Hrow).
  apply in_map_iff in Hrow. destruct Hrow as (r & <- & _).
  simpl. now rewrite normalize_row_absent.
Qed.

(** C1: when the frame has a column Status with a value in one row at
    least, [process] keeps every value of the column and writes
    'Em Andamento' in each empty cell. *)
Theorem C1_status_is_sticky (df : DataFrame) :
  col_in "Status" (columns df) = true ->
  Exists (fun r => r "Status" <> NaN) (rows df) ->
  Forall2 (fun r out =>
             (r "Status" <> NaN -> Status out = r "Status") /\
             (r "Status" = NaN -> Status out = Str "Em Andamento"))
          (rows df) (process L df).
Proof.
  intros Hcol Hex. rewrite process_eq.
  rewrite (forallb_pointwise _ (fun r => isna (r "Status")))
    by (intros r; now rewrite normalize_row_present).
  rewrite forallb_false_of_Exists
    by (eapply Exists_impl; [|exact Hex]; intros r; apply isna_false).
  rewrite map_map. apply Forall2_map_right. intros r _. simpl.
  rewrite normalize_row_present by assumption. apply fillna_cases.
Qed.

Lemma percent_value (recepcao prev_receb : Q) :
  percent recepcao prev_receb =
  round ((if Qeq_bool prev_receb 0 then 0 else recepcao / prev_receb) * 100) 2.
Proof.
  unfold percent, percent_cell, where_, divide, on_finite.
  now destruct (Qeq_bool prev_receb 0).
Qed.





End Status.

(** C1 on a frame with one status filled in and one empty. *)
Lemma C1_status_is_sticky_witness :
  Forall2 (fun r out =>
             (r "Status" <> NaN -> Status out = r "Status") /\
             (r "Status" = NaN -> Status out = Str "Em Andamento"))
          (rows frame_partly_filled) (process plain frame_partly_filled).
Proof.
  apply (C1_status_is_sticky plain frame_partly_filled).
  - reflexivity.
  - apply Exists_cons_hd. vm_compute. discriminate.
Defined.

(** C2: on a file that has no column Status the record with Prev_Receb =
    Recepcao = 1000 is given the status 'N/A', where the rule of
    [get_status] gives 'OK'. *)
Theorem C2_absent_status_column :
  map Status (run (load_and_process_data plain) files_without_status) = [Str "N/A"] /\
  map get_status (run (load_and_process_data plain) files_without_status) = [Str "OK"].
Proof. vm_compute. split; reflexivity. Qed.

(** ** The lookup of categories *)

Lemma dict_get_set (d : dict) (k v k' default : Cell) :
  dict_get (dict_set k v d) k' default =
  if cell_eqb k k' then v else dict_get d k' default.
Proof.
  induction d as [|[k0 v0] d IH]; simpl.
  - reflexivity.
  - destruct (cell_eqb k0 k) eqn:E0; simpl.
    + rewrite (cell_eqb_congr _ _ k' E0).
      now destruct (cell_eqb k k').
    + rewrite IH. destruct (cell_eqb k0 k') eqn:E1; [|reflexivity].
      destruct (cell_eqb k k') eqn:E2; [|reflexivity].
      rewrite (cell_eqb_sym k k') in E2.
      rewrite (cell_eqb_trans _ _ _ E1 E2) in E0. discriminate.
Qed.

Lemma find_app {A} (p : A -> bool) (l1 l2 : list A) :
  find p (l1 ++ l2) = match find p l1 with Some a => Some a | None => find p l2 end.
Proof. induction l1 as [|a l1 IH]; simpl; [reflexivity|]. now destruct (p a). Qed.

(** In [dict(pairs)] a key has the value of the last pair that sets it. *)
Lemma dict_of_get (pairs : list (Cell * Cell)) (k default : Cell) :
  forall d0,
    dict_get (fold_left (fun d kv => dict_set (fst kv) (snd kv) d) pairs d0) k default =
    match find (fun kv => cell_eqb (fst kv) k) (rev pairs) with
    | Some kv => snd kv
    | None => dict_get d0 k default
    end.
Proof.
  induction pairs as [|[k1 v1] pairs IH]; intros d0; simpl.
  - reflexivity.
  - rewrite IH, find_app. simpl.
    destruct (find _ (rev pairs)); [reflexivity|].
    rewrite dict_get_set. now destruct (cell_eqb k1 k).
Qed.

Lemma zip_records (main_df : list CultivarRecord) :
  combine (map Cultivar main_df) (map Categoria main_df) =
  map (fun r => (Cultivar r, Categoria r)) main_df.
Proof. induction main_df as [|r l IH]; simpl; [reflexivity | now rewrite IH]. Qed.

Lemma find_pairs (l : list CultivarRecord) (k : Cell) :
  find (fun kv => cell_eqb (fst kv) k) (map (fun r => (Cultivar r, Categoria r)) l) =
  option_map (fun r => (Cultivar r, Categoria r))
             (find (fun r => cell_eqb (Cultivar r) k) l).
Proof.
  induction l as [|r l IH]; simpl; [reflexivity|].
  now destruct (cell_eqb (Cultivar r) k).
Qed.

Lemma lookup_is_last_seen (main_df : list CultivarRecord) (k : Cell) :
  dict_get (dict_of (combine (map Cultivar main_df) (map Categoria main_df))) k (Str "N/A") =
  last_seen_categoria main_df k.
Proof.
  unfold dict_of, last_seen_categoria.
  rewrite dict_of_get, zip_records, <- map_rev, find_pairs.
  now destruct (find _ (rev main_df)).
Qed.

Section Timeline.

Variable L : Library.

(** C4, as the code has it: the Categoria of an imported event whose
    Cultivar is not missing is the Categoria of the last record of the
    canonical set with that Cultivar, and 'N/A' when no record has it. *)
Theorem C4_categoria_last_seen (fs : Files) (events : list TimelineEvent)
        (i : nat) (ev : TimelineEvent) :
  nth_error events i = Some ev ->
  ev_Cultivar ev <> NaN ->
  option_map tl_Categoria (nth_error (run (process_timeline_data L events) fs) i) =
  Some (last_seen_categoria (run (load_and_process_data L) fs) (ev_Cultivar ev)).
Proof.
  intros Hev _.
  unfold run, process_timeline_data, bind, ret.
  destruct (load_and_process_data L fs) as [main_df fs1]. simpl.
  rewrite nth_error_map, Hev. simpl.
  now rewrite lookup_is_last_seen.
Qed.

End Timeline.

(** C4 on the event of TRUNFO, listed twice in the set. *)
Lemma C4_categoria_last_seen_witness :
  option_map tl_Categoria
    (nth_error (run (process_timeline_data plain [event_trunfo]) files_twice) 0) =
  Some (last_seen_categoria (run (load_and_process_data plain) files_twice)
                            (ev_Cultivar event_trunfo)).
Proof.
  apply (C4_categoria_last_seen plain files_twice [event_trunfo] 0 event_trunfo).
  - reflexivity.
  - discriminate.
Defined.

(** C4, as the claim has it, fails: TRUNFO is first listed under 'Pao'
    and the event gets 'Melhorador', the category of its second record. *)
Lemma C4_first_seen_counterexample :
  map tl_Categoria (run (process_timeline_data plain [event_trunfo]) files_twice) =
    [Str "Melhorador"] /\
  map (fun ev => first_seen_categoria (run (load_and_process_data plain) files_twice)
                                      (ev_Cultivar ev))
      [event_trunfo] = [Str "Pao"] /\
  map tl_Categoria (run (process_timeline_data plain [event_trunfo]) files_twice) <>
  map (fun ev => first_seen_categoria (run (load_and_process_data plain) files_twice)
                                      (ev_Cultivar ev))
      [event_trunfo].
Proof.
  repeat split; try (vm_compute; reflexivity).
  vm_compute. discriminate.
Qed.

(** ** The import of the timeline *)

Lemma existsb_none_false {A B} (f : A -> option B) (l : list A) :
  existsb (fun o => negb (is_some o)) (map f l) = false <->
  Forall (fun a => f a <> None) l.
Proof.
  induction l as [|a l IH]; simpl.
  - split; [constructor | reflexivity].
  - rewrite orb_false_iff, IH. split.
    + intros [Ha Hl]. constructor; [|assumption].
      destruct (f a); [discriminate | discriminate Ha].
    + intros H. inversion H; subst. split; [|assumption].
      destruct (f a); [reflexivity | congruence].
Qed.

Section TimelineImport.

Variable L : Library.

Lemma length_process_timeline_data (events : list TimelineEvent) (fs : Files) :
  List.length (run (process_timeline_data L events) fs) = List.length events.
Proof.
  unfold run, process_timeline_data, bind, ret.
  destruct (load_and_process_data L fs). simpl. apply length_map.
Qed.

Lemma length_to_events (df : DataFrame) :
  List.length (to_events L df) = List.length (rows df).
Proof. apply length_map. Qed.

(** Lines 733 and 737 both pass on the sheets without an unparsable row,
    and on no other. *)
Lemma checks_pass (df : DataFrame) :
  Forall (fun r => ~ unparsable L r) (rows df) <->
  existsb (fun d => negb (is_some d))
          (map (fun r => to_datetime L (r "Data")) (rows df)) = false /\
  existsb (fun q => negb (is_some q))
          (map (fun r => to_numeric L (r "Quantidade (Kg)")) (rows df)) = false.
Proof.
  rewrite !existsb_none_false, !Forall_forall. unfold unparsable. split.
  - intros H. split; intros r Hr E; apply (H r Hr); [now left | now right].
  - intros [Hd Hq] r Hr [E|E]; [exact (Hd r Hr E) | exact (Hq r Hr E)].
Qed.

(** C5, as the code has it: a sheet with a row whose date or quantity
    does not parse is refused with an error, status 400, and both files
    stay as they were; a sheet with the required columns whose dates and
    quantities all parse is imported, and the timeline file then holds
    its rows, when it comes under a name that ends in .xlsx or .xls and
    the volumes of [data.csv], which the import loads, fit a float. *)
Theorem C5_import_is_all_or_nothing (file : Upload) (df : DataFrame) (fs : Files) :
  read_excel file = inr df ->
  (Exists (unparsable L) (rows df) ->
   exists msg,
     import_timeline_data L (Some file) fs = ((JError msg, 400%Z), fs) /\
     (name_ok file = true -> has_required_cols df = true ->
      msg = "Datas inválidas no arquivo. Use formato AAAA-MM-DD" \/
      msg = "Valores de quantidade inválidos no arquivo")) /\
  (name_ok file = true -> has_required_cols df = true ->
   Forall (fun r => ~ unparsable L r) (rows df) ->
   load_fits L fs ->
   exists msg fs',
     import_timeline_data L (Some file) fs =
       ((JImported msg (List.length (rows df)), 200%Z), fs') /\
     TIMELINE_FILE fs' = Some (run (process_timeline_data L (to_events L df)) fs) /\
     List.length (run (process_timeline_data L (to_events L df)) fs) =
       List.length (rows df)).
Proof.
  intros Hread. unfold import_timeline_data. rewrite Hread.
  destruct (name_ok file); simpl.
  2: { split; [intros _; eexists; split; [reflexivity|] |]; intros H; discriminate H. }
  destruct (has_required_cols df); simpl.
  2: { split; [intros _; eexists; split; [reflexivity|] |]; intros _ H; discriminate H. }
  destruct (existsb _ (map (fun r => to_datetime L (r "Data")) (rows df))) eqn:Hd.
  { split.
    - intros _. eexists. split; [reflexivity | intros _ _; now left].
    - intros _ _ Hall. apply checks_pass in Hall. destruct Hall as [Hd' _]. congruence. }
  destruct (existsb _ (map (fun r => to_numeric L (r "Quantidade (Kg)")) (rows df))) eqn:Hq.
  { split.
    - intros _. eexists. split; [reflexivity | intros _ _; now right].
    - intros _ _ Hall. apply checks_pass in Hall. destruct Hall as [_ Hq']. congruence. }
  split.
  - intros Hex. exfalso. apply (Forall_Exists_neg (unparsable L) (rows df)); [|exact Hex].
    apply checks_pass. now split.
  - intros _ _ _ _. unfold bind, ret, save_timeline_data, write_timeline, run.
    rewrite <- (length_to_events df), <- (length_process_timeline_data _ fs).
    unfold run.
    destruct (process_timeline_data L (to_events L df) fs) as [processed fs1].
    simpl. eexists. eexists. repeat split.
Qed.

End TimelineImport.

(** C5 on a sheet with a text that is no date, refused, and on a sheet
    that parses, imported. *)
Lemma C5_import_is_all_or_nothing_witness :
  (exists msg,
     import_timeline_data plain (Some upload_bad_date) files_twice =
       ((JError msg, 400%Z), files_twice)) /\
  (exists msg fs',
     import_timeline_data plain (Some upload_good) files_twice =
       ((JImported msg 2, 200%Z), fs') /\
     option_map (map Volume_SC) (TIMELINE_FILE fs') = Some [15000 / 60; 12000 / 60]).
Proof.
  split.
  - destruct (C5_import_is_all_or_nothing plain upload_bad_date sheet_bad_date
                files_twice eq_refl) as [H _].
    destruct H as (msg & H & _).
    + apply Exists_cons_tl, Exists_cons_hd. left. reflexivity.
    + exists msg. exact H.
  - destruct (C5_import_is_all_or_nothing plain upload_good sheet_good
                files_twice eq_refl) as [_ H].
    destruct H as (msg & fs' & H & Ht & _).
    + reflexivity.
    + reflexivity.
    + repeat constructor; intros [E|E]; vm_compute in E; discriminate E.
    + repeat constructor; vm_compute; discriminate.
    + exists msg, fs'. split; [exact H|]. rewrite Ht. reflexivity.
Defined.

(** C5, as the claim has it, fails: the sheet of two receipts has the
    required columns, its dates and quantities all parse, and the record
    set loads, but under the name recebimento.XLSX it is refused and the
    timeline is not written. *)
Lemma C5_capitals_are_refused :
  read_excel upload_capitals = inr sheet_good /\
  has_required_cols sheet_good = true /\
  Forall (fun r => ~ unparsable plain r) (rows sheet_good) /\
  load_fits plain files_twice /\
  import_timeline_data plain (Some upload_capitals) files_twice =
    ((JError "Formato de arquivo inválido. Use .xlsx ou .xls", 400%Z), files_twice) /\
  snd (run (import_timeline_data plain (Some upload_capitals)) files_twice) <> 200%Z.
Proof.
  split; [reflexivity|]. split; [reflexivity|]. split.
  { repeat constructor; intros [E|E]; vm_compute in E; discriminate E. }
  split.
  { repeat constructor; vm_compute; discriminate. }
  split; [reflexivity|]. vm_compute. discriminate.
Qed.

(** ** Sorting *)

Section Sorting.

Context {A : Type}.
Variable leb : A -> A -> bool.
Variable R : A -> A -> Prop.
Hypothesis leb_R : forall a b, leb a b = true -> R a b.
Hypothesis leb_total : forall a b, leb a b = false -> R b a.
Hypothesis R_trans : forall a b c, R a b -> R b c -> R a c.

Lemma insert_by_perm (x : A) (l : list A) : Permutation (insert_by leb x l) (x :: l).
Proof.
  induction l as [|y l IH]; simpl.
  - reflexivity.
  - destruct (leb x y).
    + reflexivity.
    + rewrite IH. apply perm_swap.
Qed.

Lemma sort_by_perm (l : list A) : Permutation (sort_by leb l) l.
Proof.
  induction l as [|x l IH]; simpl.
  - reflexivity.
  - rewrite insert_by_perm. now constructor.
Qed.

Lemma insert_by_sorted (x : A) (l : list A) :
  StronglySorted R l -> StronglySorted R (insert_by leb x l).
Proof.
  induction 1 as [|y l Hl IH Hy]; simpl.
  - repeat constructor.
  - destruct (leb x y) eqn:E.
    + constructor; [now constructor|].
      constructor; [now apply leb_R|].
      eapply Forall_impl; [|exact Hy]. intros z Hz.
      eapply R_trans; [apply leb_R; exact E | exact Hz].
    + constructor; [exact IH|].
      eapply Permutation_Forall; [symmetry; apply insert_by_perm|].
      constructor; [now apply leb_total | exact Hy].
Qed.

Lemma sort_by_sorted (l : list A) : StronglySorted R (sort_by leb l).
Proof.
  induction l as [|x l IH]; simpl.
  - constructor.
  - now apply insert_by_sorted.
Qed.

Lemma sorted_app (l1 l2 : list A) :
  StronglySorted R (l1 ++ l2) ->
  StronglySorted R l1 /\ Forall (fun a => Forall (R a) l2) l1.
Proof.
  induction l1 as [|a l1 IH]; simpl; intros H.
  - split; constructor.
  - inversion H as [|? ? Hs Hf]; subst.
    destruct (IH Hs) as [H1 H2]. apply Forall_app in Hf. destruct Hf as [Hf1 Hf2].
    split; constructor; assumption.
Qed.

End Sorting.

(** ** The views *)

Lemma Qlt_bool_iff (a b : Q) : Qlt_bool a b = true <-> a < b.
Proof.
  unfold Qlt_bool. rewrite negb_true_iff. split.
  - intros H. apply Qnot_le_lt. intros Hle. apply Qle_bool_iff in Hle. congruence.
  - intros H. destruct (Qle_bool b a) eqn:E; [|reflexivity].
    apply Qle_bool_iff in E. exfalso. exact (Qlt_not_le _ _ H E).
Qed.

Lemma positive_is_nonzero (q : Q) :
  Qlt_bool 0 q = true -> negb (Qeq_bool q 0) = true.
Proof.
  rewrite Qlt_bool_iff, negb_true_iff. intros H.
  destruct (Qeq_bool q 0) eqn:E; [|reflexivity].
  apply Qeq_bool_iff in E. rewrite E in H. exfalso. exact (Qlt_irrefl _ H).
Qed.

Lemma filter_map_filter {A B} (p : B -> bool) (q : A -> bool) (f : A -> B) (l : list A) :
  (forall a, p (f a) = true -> q a = true) ->
  filter p (map f (filter q l)) = filter p (map f l).
Proof.
  intros H. induction l as [|a l IH]; simpl; [reflexivity|].
  destruct (q a) eqn:Eq; simpl.
  - now rewrite IH.
  - rewrite IH. destruct (p (f a)) eqn:Ep; [|reflexivity].
    rewrite (H a Ep) in Eq. discriminate.
Qed.

Lemma filter_filter_weaker {A} (p q : A -> bool) (l : list A) :
  (forall a, p a = true -> q a = true) ->
  filter p (filter q l) = filter p l.
Proof.
  intros H. induction l as [|a l IH]; simpl; [reflexivity|].
  destruct (q a) eqn:Eq; simpl.
  - now rewrite IH.
  - rewrite IH. destruct (p a) eqn:Ep; [|reflexivity].
    rewrite (H a Ep) in Eq. discriminate.
Qed.

Lemma diff_bars (df : list CultivarRecord) :
  bars_of (create_diff_bar_graph df) =
  sort_by (fun a b => Qle_bool (snd b) (snd a))
          (filter (fun rd => Qlt_bool 0 (Prev_Receb (fst rd)))
                  (map (fun r => (r, Recepcao r - Prev_Receb r)) df)).
Proof. destruct df; reflexivity. Qed.

Lemma percent_bars (df : list CultivarRecord) :
  bars_of (create_percent_bar_graph df) =
  sort_by (fun a b => Qle_bool (Percent a) (Percent b))
          (filter (fun r => Qlt_bool 0 (Prev_Receb r)) df).
Proof. destruct df; reflexivity. Qed.

Lemma top_bars (df : list CultivarRecord) :
  bars_of (create_top_cultivars_graph df) = nlargest 10 df.
Proof. destruct df; reflexivity. Qed.

(** C6, as the code has it: the difference view and the percentage view
    are made of the rows with Prev_Receb > 0 alone and do not change when
    the rows with Prev_Receb = 0 are taken out of the set; the view by
    cultivar shows the cultivars whose total forecast is positive, each
    with the sums of Prev_Receb and of Recepcao over all of its rows. *)
Theorem C6_views_exclusion (df : list CultivarRecord) :
  (Forall (fun rd => 0 < Prev_Receb (fst rd) /\ In (fst rd) df /\
                     snd rd = Recepcao (fst rd) - Prev_Receb (fst rd))
          (bars_of (create_diff_bar_graph df)) /\
   bars_of (create_diff_bar_graph df) =
   bars_of (create_diff_bar_graph (drop_zero_forecast df))) /\
  (Forall (fun r => 0 < Prev_Receb r /\ In r df)
          (bars_of (create_percent_bar_graph df)) /\
   bars_of (create_percent_bar_graph df) =
   bars_of (create_percent_bar_graph (drop_zero_forecast df))) /\
  Forall (fun s => 0 < Total_Previsto s /\
                   Total_Previsto s = Qsum (map Prev_Receb (group (s_Cultivar s) df)) /\
                   Total_Recebido s = Qsum (map Recepcao (group (s_Cultivar s) df)))
         (bars_of (create_bar_grouped_graph df)).
Proof.
  repeat split.
  - rewrite diff_bars. apply Forall_forall. intros [r d] H.
    apply (Permutation_in _ (sort_by_perm _ _)) in H.
    apply filter_In in H. destruct H as [H Hpos]. apply in_map_iff in H.
    destruct H as (r' & E & Hin). inversion E; subst. simpl in *.
    repeat split; [now apply Qlt_bool_iff | assumption].
  - rewrite !diff_bars. unfold drop_zero_forecast. f_equal.
    symmetry. apply filter_map_filter. intros a. simpl. apply positive_is_nonzero.
  - rewrite percent_bars. apply Forall_forall. intros r H.
    apply (Permutation_in _ (sort_by_perm _ _)) in H.
    apply filter_In in H. destruct H as [H Hpos].
    split; [now apply Qlt_bool_iff | assumption].
  - rewrite !percent_bars. unfold drop_zero_forecast. f_equal.
    symmetry. apply filter_filter_weaker. intros a. apply positive_is_nonzero.
  - apply Forall_forall. intros s H.
    destruct df as [|r0 df0]; [contradiction|].
    remember (r0 :: df0) as df eqn:Hdf.
    assert (Hs : In s (filter (fun g => Qlt_bool 0 (Total_Previsto g)) (summary df))).
    { unfold create_bar_grouped_graph in H. rewrite Hdf in H. rewrite <- Hdf in H.
      destruct (Qeq_bool (Qsum (map Prev_Receb df)) 0); [contradiction | exact H]. }
    apply filter_In in Hs. destruct Hs as [Hs Hpos].
    apply in_map_iff in Hs. destruct Hs as (k & <- & _). simpl in *.
    repeat split. now apply Qlt_bool_iff.
Qed.

(** C6, as the claim has it, fails for the view by cultivar: the row of
    TRUNFO with Prev_Receb = 0 adds its 30 received to the 50 of the other
    row, and the bar of TRUNFO shows 80. *)
Lemma C6_zero_forecast_row_counts :
  map Prev_Receb (run (load_and_process_data plain) files_zero_forecast) = [100; 0] /\
  map (fun s => (s_Cultivar s, Qred (Total_Previsto s), Qred (Total_Recebido s)))
      (bars_of (create_bar_grouped_graph
                  (run (load_and_process_data plain) files_zero_forecast))) =
    [(Str "TRUNFO", 100, 80)] /\
  map (fun s => (s_Cultivar s, Qred (Total_Previsto s), Qred (Total_Recebido s)))
      (bars_of (create_bar_grouped_graph
                  (drop_zero_forecast
                     (run (load_and_process_data plain) files_zero_forecast)))) =
    [(Str "TRUNFO", 100, 50)] /\
  bars_of (create_bar_grouped_graph
             (run (load_and_process_data plain) files_zero_forecast)) <>
  bars_of (create_bar_grouped_graph
             (drop_zero_forecast (run (load_and_process_data plain) files_zero_forecast))).
Proof.
  vm_compute. repeat split. discriminate.
Qed.

(** C8: the ranking holds the 10 records of largest Recepcao, or all of
    them when they are fewer, the largest first, and no record left out
    has a larger Recepcao than one of the ranking. *)
Theorem C8_top_ten (df : list CultivarRecord) :
  List.length (bars_of (create_top_cultivars_graph df)) = Nat.min 10 (List.length df) /\
  StronglySorted (fun a b => Recepcao b <= Recepcao a)
                 (bars_of (create_top_cultivars_graph df)) /\
  exists rest,
    Permutation df (bars_of (create_top_cultivars_graph df) ++ rest) /\
    Forall (fun r => Forall (fun r' => Recepcao r' <= Recepcao r) rest)
           (bars_of (create_top_cultivars_graph df)).
Proof.
  rewrite top_bars. unfold nlargest.
  set (leb := fun a b : CultivarRecord => Qle_bool (Recepcao b) (Recepcao a)).
  set (R := fun a b : CultivarRecord => Recepcao b <= Recepcao a).
  assert (Hsorted : StronglySorted R (sort_by leb df)).
  { apply sort_by_sorted.
    - intros a b H. now apply Qle_bool_iff.
    - intros a b H. unfold R. apply Qlt_le_weak. apply Qnot_le_lt.
      intros Hle. apply Qle_bool_iff in Hle. unfold leb in H. congruence.
    - intros a b c Hab Hbc. unfold R in *. eapply Qle_trans; eassumption. }
  rewrite <- (firstn_skipn 10 (sort_by leb df)) in Hsorted.
  apply (sorted_app R) in Hsorted. destruct Hsorted as [Hs Hf].
  repeat split.
  - rewrite length_firstn. now rewrite (Permutation_length (sort_by_perm leb df)).
  - exact Hs.
  - exists (skipn 10 (sort_by leb df)). split.
    + rewrite firstn_skipn. symmetry. apply sort_by_perm.
    + exact Hf.
Qed.

(** ** The sample timeline *)

Lemma Qsum_snoc (l : list Q) (x : Q) : Qsum (l ++ [x]) == Qsum l + x.
Proof. unfold Qsum. rewrite fold_left_app. simpl. reflexivity. Qed.

Lemma randint_range (a b : Z) (g : Rng) :
  (a <= b)%Z -> (a <= fst (randint a b g) <= b)%Z.
Proof.
  intros H. unfold randint. simpl.
  pose proof (Z.mod_pos_bound (g O) (b - a + 1)). lia.
Qed.

Lemma py_min_le_r (a b : Q) : py_min a b <= b.
Proof.
  unfold py_min. destruct (Qlt_bool b a) eqn:E.
  - apply Qle_refl.
  - destruct (Qlt_le_dec b a) as [H|H]; [|exact H].
    apply Qlt_bool_iff in H. congruence.
Qed.

Lemma py_min_cases (a b : Q) :
  (b < a /\ py_min a b = b) \/ (a <= b /\ py_min a b = a).
Proof.
  unfold py_min. destruct (Qlt_bool b a) eqn:E.
  - left. split; [now apply Qlt_bool_iff | reflexivity].
  - right. split; [|reflexivity].
    destruct (Qlt_le_dec b a) as [H|H]; [|exact H].
    apply Qlt_bool_iff in H. congruence.
Qed.

Section Loop.

Variable now : Z.
Variable row : CultivarRecord.

(** One turn: the date moves on by one to three days, the volume left
    goes down by the volume of the day, which is the draw or all that is
    left. *)
Lemma loop_body_spec (s : LoopState) :
  exists (r d : Z) (daily : Q),
    (100 <= r <= 1000)%Z /\ (1 <= d <= 3)%Z /\
    daily = py_min (inject_Z r) (remaining s) /\
    current_date (loop_body row s) = (current_date s + d)%Z /\
    ((0 < daily /\
      sample_data (loop_body row s) =
        sample_data s ++ [mkTimeline (Some (current_date s)) (Cultivar row)
                                     (Categoria row) daily] /\
      remaining (loop_body row s) = remaining s - daily) \/
     (~ 0 < daily /\
      sample_data (loop_body row s) = sample_data s /\
      remaining (loop_body row s) = remaining s)).
Proof.
  unfold loop_body.
  pose proof (randint_range 100 1000 (rng s)) as Hr.
  destruct (randint 100 1000 (rng s)) as [r g1]. simpl in Hr.
  pose proof (randint_range 1 3 g1) as Hd.
  destruct (randint 1 3 g1) as [d g2]. simpl in Hd.
  exists r, d, (py_min (inject_Z r) (remaining s)).
  split; [lia|]. split; [lia|]. split; [reflexivity|].
  destruct (Qlt_bool 0 (py_min (inject_Z r) (remaining s))) eqn:E; simpl.
  - split; [reflexivity|]. left. split; [now apply Qlt_bool_iff | split; reflexivity].
  - split; [reflexivity|]. right. split; [|split; reflexivity].
    intros H. apply Qlt_bool_iff in H. congruence.
Qed.

Lemma loop_test_true (s : LoopState) :
  loop_test now s = true <-> 0 < remaining s /\ (current_date s <= now)%Z.
Proof.
  unfold loop_test. rewrite andb_true_iff, Qlt_bool_iff, Z.leb_le. reflexivity.
Qed.

(** The rule of the loop: a property of the starting state that each turn
    keeps holds of the state in which the loop ends, and the loop does end
    within [turns] turns. *)
Lemma while_loop_rule (I : LoopState -> Prop) :
  (forall s, I s -> loop_test now s = true -> I (loop_body row s)) ->
  forall fuel s,
    (turns now s <= fuel)%nat -> I s ->
    exists s', while_loop fuel now row s = Some s' /\ I s' /\ loop_test now s' = false.
Proof.
  intros Hkeep. induction fuel as [|fuel IH]; intros s Hfuel Hs; simpl.
  - destruct (loop_test now s) eqn:Ht.
    + apply loop_test_true in Ht. unfold turns in Hfuel. lia.
    + exists s. auto.
  - destruct (loop_test now s) eqn:Ht.
    + apply IH; [|now apply Hkeep].
      destruct (loop_body_spec s) as (r & d & daily & _ & Hd & _ & Hdate & _).
      apply loop_test_true in Ht. unfold turns in *. rewrite Hdate. lia.
    + exists s. auto.
Qed.

Variable acc : list TimelineRecord.

Lemma accounted_keep (s : LoopState) :
  accounted row acc s -> accounted row acc (loop_body row s).
Proof.
  intros [Hpos (new & Hdata & Hcult & Hsum)].
  destruct (loop_body_spec s) as (r & d & daily & _ & _ & Hdaily & _ & [H|H]).
  - destruct H as (_ & Hd' & Hr'). unfold accounted. rewrite Hd', Hr'. split.
    + pose proof (py_min_le_r (inject_Z r) (remaining s)). rewrite <- Hdaily in H. lra.
    + exists (new ++ [mkTimeline (Some (current_date s)) (Cultivar row)
                                 (Categoria row) daily]).
      split; [now rewrite Hdata, app_assoc|]. split.
      * apply Forall_app. split; [assumption | now repeat constructor].
      * rewrite map_app. simpl map.
        pose proof (Qsum_snoc (map Volume_SC new) daily) as E. lra.
  - destruct H as (_ & Hd' & Hr'). unfold accounted. rewrite Hd', Hr'.
    split; [assumption|]. exists new. auto.
Qed.

Lemma within_reach_keep (s : LoopState) :
  within_reach now s -> loop_test now s = true ->
  within_reach now (loop_body row s).
Proof.
  intros [Hc Hrem] Ht. apply loop_test_true in Ht. destruct Ht as [Hpos Hdate].
  destruct (loop_body_spec s) as (r & d & daily & Hr & Hd & Hdaily & Hcur & H).
  unfold within_reach. rewrite Hcur. split; [lia|].
  assert (Hz : (0 <= (now - (current_date s + d) + 3) / 3)%Z)
    by (apply Z.div_pos; lia).
  assert (Hstep : (100 * ((now - current_date s + 3) / 3) - r <=
                   100 * ((now - (current_date s + d) + 3) / 3))%Z).
  { assert ((now - current_date s + 3) / 3 - 1 <=
            (now - (current_date s + d) + 3) / 3)%Z; [|lia].
    replace (now - current_date s + 3)%Z with (now - current_date s + 1 * 3)%Z by lia.
    rewrite Z.div_add by lia.
    replace ((now - current_date s) / 3 + 1 - 1)%Z with ((now - current_date s) / 3)%Z by lia.
    apply Z.div_le_mono; lia. }
  assert (H100 : inject_Z 100 <= inject_Z r) by (rewrite <- Zle_Qle; lia).
  change (inject_Z 100) with 100 in H100.
  destruct (py_min_cases (inject_Z r) (remaining s)) as [[Hlt Hmin]|[Hle Hmin]];
    rewrite Hmin in Hdaily; subst daily.
  - destruct H as [(_ & _ & ->) | (Hn & _)]; [|contradiction].
    assert (H0 : inject_Z 0 <= inject_Z (100 * ((now - (current_date s + d) + 3) / 3)))
      by (rewrite <- Zle_Qle; lia).
    change (inject_Z 0) with 0 in H0. lra.
  - destruct H as [(_ & _ & ->) | (Hn & _)]; [|exfalso; apply Hn; lra].
    unfold Z.sub in Hstep at 1.
    rewrite Zle_Qle, inject_Z_plus, inject_Z_opp in Hstep. lra.
Qed.

Lemma reachable_accounted (g : Rng) (s : LoopState) :
  0 <= Recepcao row ->
  reachable now row (loop_start now row acc g) s -> accounted row acc s.
Proof.
  intros Hpos. induction 1 as [|s _ IH _].
  - split; [exact Hpos|]. exists []. simpl. split; [now rewrite app_nil_r|].
    split; [constructor | unfold Qsum; simpl; lra].
  - now apply accounted_keep.
Qed.

(** C7, as the code has it: for a record with Recepcao > 0 the volume
    left is never negative, the loop ends, and the entries it adds, all
    of the record's cultivar, sum to Recepcao less the volume left when it
    ends; that volume is 0, and the sum is Recepcao, when Recepcao is 2100
    at most. *)
Theorem C7_sample_accounts_for_volume (g : Rng) :
  0 < Recepcao row -> distribute_spec now row acc g.
Proof.
  intros Hpos. unfold distribute_spec. cbv zeta. split.
  - intros s Hs. apply (reachable_accounted g) in Hs; [apply Hs | lra].
  - set (s0 := loop_start now row acc g).
    destruct (while_loop_rule
                (fun s => accounted row acc s /\
                          (Recepcao row <= 2100 -> within_reach now s))
                ltac:(intros s [Ha Hw] Ht; split;
                      [now apply accounted_keep
                      | intros Hb; apply within_reach_keep; auto])
                (turns now s0) s0 (le_n _))
      as (s' & Hloop & [Hacc Hreach] & Htest).
    { split.
      - apply (reachable_accounted g); [lra | constructor].
      - intros Hb. unfold within_reach, s0, loop_start. simpl.
        replace (now - (now - 60) + 3)%Z with 63%Z by lia.
        split; [lia|]. exact Hb. }
    destruct Hacc as [Hrem (new & Hdata & Hcult & Hsum)].
    exists s', new. split; [exact Hloop|]. split; [exact Htest|]. split.
    { unfold distribute. apply Qlt_bool_iff in Hpos. rewrite Hpos. cbn [fst snd].
      fold (loop_start now row acc g). fold s0. rewrite Hloop. now rewrite Hdata. }
    split; [exact Hcult|]. split; [exact Hsum|]. split; [exact Hrem|].
    intros Hb. destruct (Hreach Hb) as [Hc Hle].
    assert (Hzero : remaining s' == 0).
    { destruct (Qlt_le_dec 0 (remaining s')) as [Hlt|Hle0]; [|lra].
      destruct (Z_le_gt_dec (current_date s') now) as [Hd|Hd].
      - assert (loop_test now s' = true) by (apply loop_test_true; auto). congruence.
      - replace ((now - current_date s' + 3) / 3)%Z with 0%Z in Hle
          by (symmetry; apply Z.div_small; lia).
        simpl in Hle. change (inject_Z 0) with 0 in Hle. lra. }
    split; [exact Hzero | lra].
Qed.

End Loop.

(** C7 on a record with 250 received: two days of 100 and one of 50. *)
Lemma C7_sample_accounts_for_volume_witness :
  distribute_spec 20000 record_250 [] (fun _ => 0%Z).
Proof.
  apply (C7_sample_accounts_for_volume 20000 record_250 [] (fun _ => 0%Z)).
  reflexivity.
Defined.

(** C7, as the claim has it, fails: of 100000 received the sample holds
    61000, the most that 61 days can take at 1000 a day. *)
Lemma C7_sum_falls_short :
  map Recepcao (run (load_and_process_data plain) files_large) = [100000] /\
  Qred (Qsum (map Volume_SC
                  (run (generate_sample_timeline_data plain 20000 seed_largest)
                       files_large))) = 61000 /\
  ~ Qsum (map Volume_SC
              (run (generate_sample_timeline_data plain 20000 seed_largest)
                   files_large)) == 100000.
Proof.
  split; [vm_compute; reflexivity|]. split; [vm_compute; reflexivity|].
  intros H. apply Qred_complete in H. vm_compute in H. discriminate H.
Qed.

(** ** Saving and loading *)

Section RoundTrip.

Variable L : Library.

Lemma to_csv_saved (df : DataFrame) :
  to_csv L (reindex_fillna df) = raw_cols :: map (saved_line L df) (rows df).
Proof. unfold to_csv, reindex_fillna. simpl columns. simpl rows. now rewrite map_map. Qed.

(** A file whose lines have as many fields as its header is read line by
    line. *)
Lemma read_csv_lines (hdr : list string) (body : list (list string)) :
  Forall (fun l => List.length l = List.length hdr) body ->
  read_csv L (hdr :: body) = Some (mkFrame hdr (map (read_field L hdr body) body)).
Proof.
  intros H. unfold read_csv.
  replace (existsb _ body) with false; [reflexivity|].
  symmetry. apply not_true_is_false. intros E.
  apply existsb_exists in E. destruct E as (l & Hl & E).
  rewrite Forall_forall in H. rewrite (H l Hl) in E.
  apply Nat.ltb_lt in E. lia.
Qed.

Lemma read_saved (df : DataFrame) :
  let body := map (saved_line L df) (rows df) in
  read_csv L (raw_cols :: body) =
  Some (mkFrame raw_cols (map (read_field L raw_cols body) body)).
Proof.
  cbv zeta. apply read_csv_lines.
  apply Forall_forall. intros l Hl. apply in_map_iff in Hl.
  destruct Hl as (r & <- & _). reflexivity.
Qed.

(** Loading after a save reads the file just written and leaves it. *)
Lemma load_after_save (df : DataFrame) (fs : Files) :
  let body := map (saved_line L df) (rows df) in
  let fs' := exec (save_dataframe L df) fs in
  load_and_process_data L fs' =
  (process L (mkFrame raw_cols (map (read_field L raw_cols body) body)), fs').
Proof.
  cbv zeta. unfold load_and_process_data, bind, ret, read_data_file, exec,
    save_dataframe, write_data. rewrite to_csv_saved. cbn [snd DATA_FILE].
  now rewrite (read_saved df).
Qed.

(** The test of line 91 after lines 77-82. *)
Lemma status_is_automatic_filled (df : DataFrame) :
  status_is_automatic (fill_missing_columns df) =
  forallb (fun r => isna (normalize_row raw_cols df r "Status")) (rows df).
Proof.
  unfold fill_missing_columns, status_is_automatic.
  destruct (fold_add_missing raw_cols df) as (g & Hrows & Hg & Hcols).
  rewrite Hcols, Hrows. replace (col_in "Status" raw_cols) with true by reflexivity.
  rewrite orb_true_r. simpl negb. rewrite orb_false_l, forallb_over_map.
  apply forallb_pointwise. intros r. now rewrite Hg.
Qed.

Lemma read_cell_not_na (numeric : bool) (t : string) :
  is_na t = false -> isna (read_cell L numeric t) = false.
Proof.
  intros H. unfold read_cell. rewrite H.
  destruct numeric; [destruct (parse_float L t)|]; reflexivity.
Qed.

Lemma read_cell_text (numeric : bool) (t : string) :
  is_na t = false -> parse_float L t = None -> read_cell L numeric t = Str t.
Proof. intros H1 H2. unfold read_cell. rewrite H1, H2. now destruct numeric. Qed.

Lemma read_cell_float (q : Q) :
  float_survives L q -> read_cell L true (float_repr L q) = Num q.
Proof. intros [H1 H2]. unfold read_cell. now rewrite H1, H2. Qed.

Lemma read_field_at (hdr : list string) (body : list (list string))
      (l : list string) (c : string) (j : nat) :
  index_of c hdr = Some j ->
  read_field L hdr body l c = read_cell L (column_is_numeric L j body) (nth j l "").
Proof. intros H. unfold read_field. now rewrite H. Qed.

Lemma saved_records (df : list CultivarRecord) :
  map (saved_line L (to_frame df)) (rows (to_frame df)) = map (record_line L) df.
Proof. unfold to_frame. cbn [rows]. rewrite map_map. apply map_ext. reflexivity. Qed.

Lemma numeric_columns (df : list CultivarRecord) :
  Forall (survives_csv L) df ->
  column_is_numeric L 1 (map (record_line L) df) = true /\
  column_is_numeric L 2 (map (record_line L) df) = true /\
  column_is_numeric L 3 (map (record_line L) df) = true.
Proof.
  intros H. rewrite Forall_forall in H. unfold column_is_numeric.
  rewrite !forallb_over_map. repeat split; apply forallb_forall; intros r Hr;
    destruct (H r Hr) as (_ & _ & _ & [_ E1] & [_ E2] & [_ E3]); cbn [nth record_line];
    rewrite ?E1, ?E2, ?E3; apply orb_true_r.
Qed.

(** A record that survives the file is read back from its line with the
    same six columns. *)
Lemma read_back (df : list CultivarRecord) (frame : DataFrame) (r : CultivarRecord) :
  Forall (survives_csv L) df -> survives_csv L r -> columns frame = raw_cols ->
  with_percent L (normalize_row raw_cols frame
                    (read_field L raw_cols (map (record_line L) df) (record_line L r))) =
  recomputed r.
Proof.
  intros Hdf Hr Hcols.
  destruct (numeric_columns df Hdf) as (N1 & N2 & N3).
  destruct Hr as ((t1 & E1 & A1 & P1) & (t2 & E2 & A2 & P2) & (t3 & E3 & A3 & P3)
                  & F1 & F2 & F3).
  unfold with_percent, recomputed.
  rewrite !normalize_row_present by (rewrite Hcols; reflexivity).
  rewrite (read_field_at _ _ _ "Cultivar" 0), (read_field_at _ _ _ "Prev_Colheita" 1),
    (read_field_at _ _ _ "Prev_Receb" 2), (read_field_at _ _ _ "Recepcao" 3),
    (read_field_at _ _ _ "Categoria" 4), (read_field_at _ _ _ "Status" 5)
    by reflexivity.
  rewrite N1, N2, N3. cbn [nth record_line]. rewrite E1, E2, E3.
  cbn [fillna isna cell_text].
  rewrite !read_cell_float, !read_cell_text by assumption.
  reflexivity.
Qed.

Lemma recomputed_survives (r : CultivarRecord) :
  survives_csv L r -> survives_csv L (recomputed r).
Proof. intros H. exact H. Qed.

(** Saving a set that survives the file and loading it gives the set
    back, its percentages computed anew. *)
Lemma round_trip (df : list CultivarRecord) (fs : Files) :
  Forall (survives_csv L) df ->
  run (save_then_load L df) fs = map recomputed df.
Proof.
  intros Hdf.
  pose proof (load_after_save (to_frame df) fs) as Hload. cbv zeta in Hload.
  unfold run, save_then_load, bind. unfold exec in Hload.
  destruct (save_dataframe L (to_frame df) fs) as [u fs']. cbn [snd] in Hload.
  rewrite Hload. cbn [fst]. rewrite saved_records, process_eq. cbn [rows].
  set (frame := mkFrame raw_cols _).
  assert (Hrecs : map (fun l => with_percent L (normalize_row raw_cols frame l))
                      (map (read_field L raw_cols (map (record_line L) df))
                           (map (record_line L) df)) =
                  map recomputed df).
  { rewrite !map_map. apply map_ext_in. intros r Hr.
    apply read_back; [assumption | | reflexivity].
    rewrite Forall_forall in Hdf. now apply Hdf. }
  rewrite Hrecs.
  destruct df as [|r0 df0]; [reflexivity|].
  replace (forallb _ _) with false.
  - rewrite map_map. apply map_ext_in. intros r Hr.
    rewrite Forall_forall in Hdf. destruct (Hdf r Hr) as (_ & _ & (t & E & _) & _).
    unfold recomputed, with_Status. cbn. rewrite E. reflexivity.
  - symmetry. cbn [map forallb]. apply andb_false_iff. left.
    inversion Hdf as [|? ? Hr0 _]; subst.
    destruct Hr0 as (_ & _ & (t & E & A & P) & _).
    rewrite normalize_row_present by reflexivity.
    rewrite (read_field_at _ _ _ "Status" 5) by reflexivity.
    cbn [nth record_line]. rewrite E. cbn [fillna isna cell_text].
    now apply read_cell_not_na.
Qed.

(** C9, as the code has it: a set whose texts are neither a text of a
    missing value nor a number, and whose volumes are read back from
    their text, has the same six columns after a save and a load, and a
    second save and load gives the same set again. *)
Theorem C9_round_trip_of_plain_sets (df : list CultivarRecord) (fs : Files) :
  Forall (survives_csv L) df ->
  map six_columns (run (save_then_load L df) fs) = map six_columns df /\
  run (save_then_load L (run (save_then_load L df) fs))
      (exec (save_then_load L df) fs) =
  run (save_then_load L df) fs.
Proof.
  intros Hdf. rewrite (round_trip df fs Hdf). split.
  - rewrite map_map. apply map_ext. reflexivity.
  - rewrite round_trip.
    + rewrite map_map. apply map_ext. reflexivity.
    + apply Forall_forall. intros r Hr. apply in_map_iff in Hr.
      destruct Hr as (r' & <- & Hr'). rewrite Forall_forall in Hdf.
      apply recomputed_survives. now apply Hdf.
Qed.

End RoundTrip.

(** C9 on the set of two records of TRUNFO. *)
Lemma C9_round_trip_of_plain_sets_witness :
  map six_columns (run (save_then_load plain set_plain) no_files) =
    map six_columns set_plain /\
  run (save_then_load plain (run (save_then_load plain set_plain) no_files))
      (exec (save_then_load plain set_plain) no_files) =
  run (save_then_load plain set_plain) no_files.
Proof.
  apply (C9_round_trip_of_plain_sets plain set_plain no_files).
  repeat constructor; try (eexists; repeat split; reflexivity).
Defined.

(** C9, as the claim has it, fails: the Categoria 'N/A' that a file
    without the column gets is written as N/A, which is read as a missing
    value; the next save writes 0 for it. *)
Lemma C9_default_text_is_lost :
  map Categoria set_with_default = [Str "N/A"] /\
  map Categoria (run (save_then_load plain set_with_default) no_files) = [NaN] /\
  map six_columns (run (save_then_load plain set_with_default) no_files) <>
    map six_columns set_with_default /\
  map Categoria
      (run (save_then_load plain (run (save_then_load plain set_with_default) no_files))
           (exec (save_then_load plain set_with_default) no_files)) = [Num 0].
Proof.
  repeat split; try (vm_compute; reflexivity).
  vm_compute. discriminate.
Qed.

(** ** Registration *)

Section Register.

Variable L : Library.

Lemma read_after_save (df : DataFrame) (fs : Files) :
  let body := map (saved_line L df) (rows df) in
  let fs' := exec (save_dataframe L df) fs in
  read_data_file L fs' = (mkFrame raw_cols (map (read_field L raw_cols body) body), fs').
Proof.
  cbv zeta. unfold read_data_file, exec, save_dataframe, write_data.
  rewrite to_csv_saved. cbn [snd DATA_FILE]. now rewrite (read_saved L df).
Qed.

(** After a save of a frame whose last row has a status that is not a
    text of a missing value, the load fills the column Status and does not
    compute it, and the last record has the status read from that text. *)
Lemma load_after_save_last (df : DataFrame) (rs : list Row) (r : Row)
      (t : string) (fs : Files) :
  rows df = rs ++ [r] ->
  nth 5 (saved_line L df r) "" = t ->
  is_na t = false ->
  let fs' := exec (save_dataframe L df) fs in
  status_is_automatic (fill_missing_columns (run (read_data_file L) fs')) = false /\
  exists df0 last numeric,
    run (load_and_process_data L) fs' = df0 ++ [last] /\
    Status last = read_cell L numeric t.
Proof.
  intros Hrows Hnth Hna. cbv zeta.
  assert (Hauto : forall body0,
    forallb (fun x => isna (normalize_row raw_cols
                          (mkFrame raw_cols
                             (map (read_field L raw_cols (map (saved_line L df) (rows df)))
                                  body0)) x "Status"))
            (map (read_field L raw_cols (map (saved_line L df) (rows df)))
                 (map (saved_line L df) (rows df))) = false).
  { intros body0. rewrite Hrows, !map_app, forallb_app. cbn [map forallb].
    rewrite normalize_row_present by reflexivity.
    rewrite (read_field_at _ _ _ _ "Status" 5) by reflexivity.
    rewrite Hnth, read_cell_not_na by assumption.
    apply andb_false_r. }
  split.
  - unfold run. rewrite read_after_save. cbn [fst].
    rewrite status_is_automatic_filled. cbn [rows]. apply Hauto.
  - unfold run. rewrite load_after_save. cbn [fst].
    rewrite process_eq. cbn [rows]. rewrite Hauto.
    rewrite Hrows, !map_app. cbn [map].
    eexists. eexists. eexists. split; [reflexivity|].
    cbn [Status with_Status with_percent].
    rewrite normalize_row_present by reflexivity.
    rewrite (read_field_at _ _ _ _ "Status" 5) by reflexivity.
    rewrite Hnth. unfold fillna. rewrite read_cell_not_na by assumption.
    reflexivity.
Qed.

(** C10: after a registration that succeeds, the last line of [data.csv]
    has the status 'Em Andamento', whatever the volumes sent; a load then
    fills the column Status and does not compute it, gives the new record
    that status, and leaves the file as it is for the loads that follow. *)
Theorem C10_registered_status (form : Form) (fs : Files) (resp : Response) (fs' : Files) :
  register_cultivar L form fs = (resp, fs') ->
  snd resp = 200%Z ->
  (exists lines line,
     DATA_FILE fs' = Some (raw_cols :: lines ++ [line]) /\
     nth 5 line "" = "Em Andamento") /\
  status_is_automatic (fill_missing_columns (run (read_data_file L) fs')) = false /\
  exec (load_and_process_data L) fs' = fs' /\
  exists df0 last,
    run (load_and_process_data L) fs' = df0 ++ [last] /\
    Status last <> NaN /\
    (parse_float L "Em Andamento" = None -> Status last = Str "Em Andamento").
Proof.
  unfold register_cultivar. intros Hreg Hcode.
  destruct (float_field L (prev_colheita form)) as [e|v1];
    [inversion Hreg; subst; discriminate Hcode|].
  destruct (float_field L (prev_receb form)) as [e|v2];
    [inversion Hreg; subst; discriminate Hcode|].
  destruct (float_field L (recepcao form)) as [e|v3];
    [inversion Hreg; subst; discriminate Hcode|].
  unfold bind, ret in Hreg.
  destruct (load_and_process_data L fs) as [df fs1].
  set (data := [("Cultivar", text_field (cultivar form));
                ("Categoria", text_field (categoria form));
                ("Prev_Colheita", v1); ("Prev_Receb", v2); ("Recepcao", v3);
                ("Status", Str "Em Andamento")]) in Hreg.
  set (frame := concat (to_frame df) (mkFrame (columns (to_frame df)) [row_of data]))
    in Hreg.
  assert (Hfs : fs' = exec (save_dataframe L frame) fs1).
  { unfold exec. destruct (save_dataframe L frame fs1). now inversion Hreg. }
  assert (Hrows : rows frame = map to_row df ++ [row_of data]) by reflexivity.
  assert (Hnth : nth 5 (saved_line L frame (row_of data)) "" = "Em Andamento")
    by reflexivity.
  destruct (load_after_save_last frame _ _ _ fs1 Hrows Hnth eq_refl)
    as (Hauto & df0 & last & numeric & Hload & Hlast).
  rewrite <- Hfs in Hauto, Hload.
  split; [|split; [exact Hauto|split]].
  - exists (map (saved_line L frame) (map to_row df)), (saved_line L frame (row_of data)).
    split; [|exact Hnth].
    rewrite Hfs. unfold exec, save_dataframe, write_data. cbn [snd DATA_FILE].
    rewrite to_csv_saved, Hrows, map_app. reflexivity.
  - rewrite Hfs. unfold exec at 1. rewrite load_after_save. reflexivity.
  - exists df0, last. split; [exact Hload|]. rewrite Hlast. split.
    + apply isna_false. now apply read_cell_not_na.
    + intros Hp. now apply read_cell_text.
Qed.

End Register.

(** C10 on the registration of VELOZ in a file of one record. *)
Lemma C10_registered_status_witness :
  status_is_automatic
    (fill_missing_columns
       (run (read_data_file plain)
            (exec (register_cultivar plain form_veloz) files_without_status))) = false /\
  exec (load_and_process_data plain)
       (exec (register_cultivar plain form_veloz) files_without_status) =
  exec (register_cultivar plain form_veloz) files_without_status.
Proof.
  destruct (C10_registered_status plain form_veloz files_without_status
              (run (register_cultivar plain form_veloz) files_without_status)
              (exec (register_cultivar plain form_veloz) files_without_status))
    as (_ & H1 & H2 & _).
  - unfold run, exec. now destruct (register_cultivar plain form_veloz _).
  - reflexivity.
  - split; [exact H1 | exact H2].
Defined.

(** * Further properties *)

(** ** Sums *)

Lemma Qsum_acc (l : list Q) (a : Q) : fold_left Qplus l a == a + Qsum l.
Proof.
  unfold Qsum. revert a. induction l as [|x l IH]; intros a; simpl.
  - lra.
  - rewrite IH, (IH (0 + x)). lra.
Qed.

Lemma Qsum_cons (x : Q) (l : list Q) : Qsum (x :: l) == x + Qsum l.
Proof. unfold Qsum at 1. simpl. rewrite Qsum_acc. lra. Qed.

Lemma Qsum_nil : Qsum [] == 0.
Proof. reflexivity. Qed.

Lemma Qsum_perm (l l' : list Q) : Permutation l l' -> Qsum l == Qsum l'.
Proof.
  induction 1 as [|x l l' _ IH|x y l|l l' l'' _ IH1 _ IH2].
  - reflexivity.
  - rewrite !Qsum_cons, IH. reflexivity.
  - rewrite !Qsum_cons. lra.
  - now rewrite IH1.
Qed.



(** A sum of terms that are not negative is not negative, and it is
    positive when the list is not empty and its terms are positive. *)
Lemma Qsum_nonneg (l : list Q) : Forall (fun x => 0 <= x) l -> 0 <= Qsum l.
Proof.
  induction 1 as [|x l Hx _ IH].
  - apply Qle_refl.
  - rewrite Qsum_cons. lra.
Qed.


(** ** The figures of the report *)

Lemma not_above_not_below (r : CultivarRecord) :
  Qlt_bool (Prev_Receb r) (Recepcao r) = false ->
  Qlt_bool (Recepcao r) (Prev_Receb r) = false ->
  Recepcao r == Prev_Receb r.
Proof.
  unfold Qlt_bool. rewrite !negb_false_iff, !Qle_bool_iff. intros H1 H2.
  now apply Qle_antisym.
Qed.

(** The surplus and the deficit of the report are not negative, and
    their difference is the difference between all that was received and
    all that was forecast. *)
Theorem kpis_balance (df : list CultivarRecord) :
  0 <= total_excedente (kpis df) /\
  0 <= total_deficit (kpis df) /\
  total_recebido (kpis df) - total_previsto (kpis df) ==
  total_excedente (kpis df) - total_deficit (kpis df).
Proof.
  unfold kpis. cbn [total_excedente total_deficit total_recebido total_previsto].
  induction df as [|r df IH].
  - cbn. repeat split; try discriminate. 
  - cbn [map filter].
    pose proof (Qsum_cons (Prev_Receb r) (map Prev_Receb df)) as Hp.
    pose proof (Qsum_cons (Recepcao r) (map Recepcao df)) as Hr.
    destruct IH as (IH1 & IH2 & IH3).
    destruct (Qlt_bool (Prev_Receb r) (Recepcao r)) eqn:Ea;
      destruct (Qlt_bool (Recepcao r) (Prev_Receb r)) eqn:Eb; cbn [map].
    + apply Qlt_bool_iff in Ea. apply Qlt_bool_iff in Eb. lra.
    + apply Qlt_bool_iff in Ea.
      pose proof (Qsum_cons (Prev_Receb r)
                    (map Prev_Receb (filter (fun r => Qlt_bool (Prev_Receb r) (Recepcao r)) df))).
      pose proof (Qsum_cons (Recepcao r)
                    (map Recepcao (filter (fun r => Qlt_bool (Prev_Receb r) (Recepcao r)) df))).
      repeat split; lra.
    + apply Qlt_bool_iff in Eb.
      pose proof (Qsum_cons (Prev_Receb r)
                    (map Prev_Receb (filter (fun r => Qlt_bool (Recepcao r) (Prev_Receb r)) df))).
      pose proof (Qsum_cons (Recepcao r)
                    (map Recepcao (filter (fun r => Qlt_bool (Recepcao r) (Prev_Receb r)) df))).
      repeat split; lra.
    + pose proof (not_above_not_below r Ea Eb). repeat split; lra.
Qed.


(** ** The ranked views *)

(** The difference view lists the rows with a forecast, each once, the
    largest difference first; the percentage view lists them the lowest
    percentage first. *)
Theorem ranked_views_sorted (df : list CultivarRecord) :
  (StronglySorted (fun a b => snd b <= snd a) (bars_of (create_diff_bar_graph df)) /\
   Permutation (bars_of (create_diff_bar_graph df))
               (map (fun r => (r, Recepcao r - Prev_Receb r))
                    (filter (fun r => Qlt_bool 0 (Prev_Receb r)) df))) /\
  (StronglySorted (fun a b => Percent a <= Percent b)
                  (bars_of (create_percent_bar_graph df)) /\
   Permutation (bars_of (create_percent_bar_graph df))
               (filter (fun r => Qlt_bool 0 (Prev_Receb r)) df)).
Proof.
  rewrite diff_bars, percent_bars. repeat split.
  - apply sort_by_sorted.
    + intros a b H. now apply Qle_bool_iff.
    + intros a b H. apply Qlt_le_weak, Qnot_le_lt. intros Hle.
      apply Qle_bool_iff in Hle. congruence.
    + intros a b c Hab Hbc. eapply Qle_trans; eassumption.
  - rewrite sort_by_perm.
    replace (filter (fun rd => Qlt_bool 0 (Prev_Receb (fst rd)))
                    (map (fun r => (r, Recepcao r - Prev_Receb r)) df))
      with (map (fun r => (r, Recepcao r - Prev_Receb r))
                (filter (fun r => Qlt_bool 0 (Prev_Receb r)) df)); [reflexivity|].
    induction df as [|r df IH]; cbn [map filter]; [reflexivity|].
    cbn [fst]. destruct (Qlt_bool 0 (Prev_Receb r)); cbn [map]; now rewrite IH.
  - apply sort_by_sorted.
    + intros a b H. now apply Qle_bool_iff.
    + intros a b H. apply Qlt_le_weak, Qnot_le_lt. intros Hle.
      apply Qle_bool_iff in Hle. congruence.
    + intros a b c Hab Hbc. eapply Qle_trans; eassumption.
  - apply sort_by_perm.
Qed.

(** ** Grouping *)

Lemma distinct_filter (p : Cell -> bool) (l : list Cell) :
  distinct l -> distinct (filter p l).
Proof.
  unfold distinct. induction 1 as [|a l Ha _ IH]; simpl.
  - constructor.
  - destruct (p a); [|exact IH]. constructor; [|exact IH].
    apply Forall_forall. intros b Hb. apply filter_In in Hb.
    rewrite Forall_forall in Ha. now apply Ha.
Qed.

Lemma unique_distinct (l : list Cell) : distinct (unique l).
Proof.
  induction l as [|k l IH]; simpl; unfold distinct in *.
  - constructor.
  - constructor; [|now apply (distinct_filter _ _ IH)].
    apply Forall_forall. intros b Hb. apply filter_In in Hb.
    destruct Hb as [_ Hb]. now apply negb_true_iff in Hb.
Qed.

Lemma unique_incl (l : list Cell) (k : Cell) : In k (unique l) -> In k l.
Proof.
  induction l as [|a l IH]; simpl; [auto|].
  intros [H|H]; [now left|]. apply filter_In in H. right. now apply IH.
Qed.

Lemma unique_covers (l : list Cell) (x : Cell) :
  In x l -> existsb (fun k => cell_eqb k x) (unique l) = true.
Proof.
  induction l as [|a l IH]; simpl; [contradiction|].
  intros [H|H].
  - subst. now rewrite cell_eqb_refl.
  - destruct (cell_eqb a x) eqn:E; [reflexivity|]. simpl.
    specialize (IH H). apply existsb_exists in IH. destruct IH as (k & Hk & Ek).
    apply existsb_exists. exists k. split; [|exact Ek].
    apply filter_In. split; [exact Hk|]. apply negb_true_iff.
    destruct (cell_eqb a k) eqn:E'; [|reflexivity].
    rewrite (cell_eqb_trans _ _ _ E' Ek) in E. discriminate.
Qed.

Lemma insert_by_distinct (leb : Cell -> Cell -> bool) (x : Cell) (l : list Cell) :
  distinct l -> Forall (fun b => cell_eqb x b = false) l ->
  distinct (insert_by leb x l).
Proof.
  unfold distinct. induction 1 as [|a l Ha Hl IH]; intros Hx; simpl.
  - repeat constructor.
  - inversion Hx as [|? ? Hxa Hxl]; subst. destruct (leb x a).
    + constructor; [exact Hx|]. now constructor.
    + constructor; [|now apply IH].
      eapply Permutation_Forall; [symmetry; apply insert_by_perm|].
      constructor; [now rewrite cell_eqb_sym | exact Ha].
Qed.

Lemma sort_by_distinct (leb : Cell -> Cell -> bool) (l : list Cell) :
  distinct l -> distinct (sort_by leb l).
Proof.
  unfold distinct. induction 1 as [|a l Ha _ IH]; simpl.
  - constructor.
  - apply insert_by_distinct; [exact IH|].
    eapply Permutation_Forall; [symmetry; apply sort_by_perm | exact Ha].
Qed.

Lemma existsb_perm {A} (p : A -> bool) (l l' : list A) :
  Permutation l l' -> existsb p l = existsb p l'.
Proof.
  induction 1 as [|x l l' _ IH|x y l|l l' l'' _ IH1 _ IH2]; simpl.
  - reflexivity.
  - now rewrite IH.
  - destruct (p x), (p y); reflexivity.
  - now rewrite IH1.
Qed.

Section Groups.

Variable key : CultivarRecord -> Cell.
Variable f : CultivarRecord -> Q.

Lemma keys_by_distinct (df : list CultivarRecord) : distinct (keys_by key df).
Proof. apply sort_by_distinct, unique_distinct. Qed.


(** A row whose key is not missing has its key among the groups. *)
Lemma keys_by_covers (df : list CultivarRecord) (r : CultivarRecord) :
  In r df ->
  existsb (fun k => cell_eqb k (key r)) (keys_by key df) = negb (isna (key r)).
Proof.
  intros Hr. unfold keys_by. rewrite (existsb_perm _ _ _ (sort_by_perm _ _)).
  destruct (isna (key r)) eqn:E; simpl.
  - apply not_true_is_false. intros H. apply existsb_exists in H.
    destruct H as (k & Hk & Ek). apply unique_incl, filter_In in Hk.
    destruct Hk as [_ Hk]. destruct (key r); try discriminate.
    destruct k; discriminate.
  - apply unique_covers. apply filter_In. split; [now apply in_map|].
    now rewrite E.
Qed.




End Groups.


Lemma filter_twice {A} (p q : A -> bool) (l : list A) :
  filter p (filter q l) = filter (fun a => q a && p a) l.
Proof.
  induction l as [|a l IH]; simpl; [reflexivity|].
  destruct (q a); simpl; [destruct (p a)|]; now rewrite IH.
Qed.



Lemma filter_of_map {A B} (p : B -> bool) (f : A -> B) (l : list A) :
  filter p (map f l) = map f (filter (fun a => p (f a)) l).
Proof.
  induction l as [|a l IH]; simpl; [reflexivity|].
  destruct (p (f a)); simpl; now rewrite IH.
Qed.

Lemma group_of_equal_keys (k k' : Cell) (df : list CultivarRecord) :
  cell_eqb k k' = true -> group k df = group k' df.
Proof.
  intros E. unfold group. apply filter_ext. intros r. now apply cell_eqb_congr.
Qed.

Lemma grouped_bars (df : list CultivarRecord) :
  ~ Qsum (map Prev_Receb df) == 0 ->
  bars_of (create_bar_grouped_graph df) =
  map (fun k => mkSummary k (Qsum (map Prev_Receb (group k df)))
                          (Qsum (map Recepcao (group k df))))
      (filter (fun k => Qlt_bool 0 (Qsum (map Prev_Receb (group k df))))
              (keys_by Cultivar df)).
Proof.
  intros H. destruct df as [|r df]; [exfalso; apply H; reflexivity|].
  unfold create_bar_grouped_graph.
  destruct (Qeq_bool (Qsum (map Prev_Receb (r :: df))) 0) eqn:E.
  - apply Qeq_bool_iff in E. contradiction.
  - cbn [bars_of]. unfold summary. now rewrite filter_of_map.
Qed.

(** When the forecasts of the set do not add up to 0, the view by
    cultivar has one bar at most for a cultivar, and a cultivar has its bar
    when the forecasts of its rows add up to more than 0, and then only. *)
Theorem grouped_view_bars (df : list CultivarRecord) :
  ~ Qsum (map Prev_Receb df) == 0 ->
  distinct (map s_Cultivar (bars_of (create_bar_grouped_graph df))) /\
  forall r, In r df -> Cultivar r <> NaN ->
    (0 < Qsum (map Prev_Receb (group (Cultivar r) df)) <->
     exists s, In s (bars_of (create_bar_grouped_graph df)) /\
               cell_eqb (s_Cultivar s) (Cultivar r) = true).
Proof.
  intros H. rewrite (grouped_bars df H), map_map. cbn [s_Cultivar]. rewrite map_id.
  split; [apply distinct_filter, keys_by_distinct|].
  intros r Hr Hna. split.
  - intros Hpos.
    pose proof (keys_by_covers Cultivar df r Hr) as Hc.
    apply isna_false in Hna. rewrite Hna in Hc. apply existsb_exists in Hc.
    destruct Hc as (k & Hk & Ek).
    exists (mkSummary k (Qsum (map Prev_Receb (group k df)))
                      (Qsum (map Recepcao (group k df)))).
    split; [|exact Ek]. apply in_map_iff. exists k. split; [reflexivity|].
    apply filter_In. split; [exact Hk|].
    rewrite (group_of_equal_keys _ _ df Ek). now apply Qlt_bool_iff.
  - intros (s & Hs & Es). apply in_map_iff in Hs. destruct Hs as (k & <- & Hk).
    apply filter_In in Hk. destruct Hk as [_ Hk]. cbn [s_Cultivar] in Es.
    rewrite (group_of_equal_keys _ _ df Es) in Hk. now apply Qlt_bool_iff.
Qed.

(** ** The Sankey diagram *)

Lemma getitem_setitem {V} (d : list (Cell * V)) (k k' : Cell) (v : V) :
  getitem (setitem k v d) k' = if cell_eqb k k' then Some v else getitem d k'.
Proof.
  induction d as [|[k0 v0] d IH]; simpl.
  - reflexivity.
  - destruct (cell_eqb k0 k) eqn:E0; simpl.
    + rewrite (cell_eqb_congr _ _ k' E0). now destruct (cell_eqb k k').
    + rewrite IH. destruct (cell_eqb k0 k') eqn:E1; [|reflexivity].
      destruct (cell_eqb k k') eqn:E2; [|reflexivity].
      rewrite (cell_eqb_sym k k') in E2.
      rewrite (cell_eqb_trans _ _ _ E1 E2) in E0. discriminate.
Qed.

(** In a dictionary built pair by pair a key has the value of the last
    pair that sets it. *)
Lemma getitem_built {V} (pairs : list (V * Cell)) (x : Cell) :
  forall d0,
    getitem (fold_left (fun d p => setitem (snd p) (fst p) d) pairs d0) x =
    match find (fun p => cell_eqb (snd p) x) (rev pairs) with
    | Some p => Some (fst p)
    | None => getitem d0 x
    end.
Proof.
  induction pairs as [|[v k] pairs IH]; intros d0; simpl.
  - reflexivity.
  - rewrite IH, find_app. simpl.
    destruct (find _ (rev pairs)); [reflexivity|].
    rewrite getitem_setitem. now destruct (cell_eqb k x).
Qed.

Lemma combine_app {A B} (l1 l2 : list A) (m1 m2 : list B) :
  List.length l1 = List.length m1 ->
  combine (l1 ++ l2) (m1 ++ m2) = combine l1 m1 ++ combine l2 m2.
Proof.
  revert m1. induction l1 as [|a l1 IH]; intros [|b m1] H; simpl in *;
    try discriminate; [reflexivity|].
  f_equal. apply IH. now inversion H.
Qed.

(** The pairs of [enumerate], counted from [a]. *)
Lemma in_numbered {A} (l : list A) :
  forall a i y,
    In (i, y) (combine (seq a (List.length l)) l) ->
    (a <= i < a + List.length l)%nat /\ nth_error l (i - a) = Some y.
Proof.
  induction l as [|x l IH]; intros a i y H; simpl in *; [contradiction|].
  destruct H as [H|H].
  - inversion H; subst. split; [lia|]. now rewrite Nat.sub_diag.
  - apply IH in H. destruct H as [H1 H2]. split; [lia|].
    replace (i - a)%nat with (S (i - S a)) by lia. exact H2.
Qed.

Lemma numbered_In {A} (l : list A) (y : A) :
  forall a, In y l -> exists i, In (i, y) (combine (seq a (List.length l)) l).
Proof.
  induction l as [|x l IH]; intros a H; simpl in *; [contradiction|].
  destruct H as [H|H].
  - subst. exists a. now left.
  - destruct (IH (S a) H) as (i & Hi). exists i. now right.
Qed.

(** The first match of a list read backwards is a match of the list, and
    there is one when the list has a match. *)
Lemma find_rev_pairs {A} (l : list A) (a : nat) (x : Cell) (key : A -> Cell) :
  existsb (fun y => cell_eqb (key y) x) l = true ->
  exists p, find (fun p => cell_eqb (key (snd p)) x)
                 (rev (combine (seq a (List.length l)) l)) = Some p /\
            In p (combine (seq a (List.length l)) l) /\
            cell_eqb (key (snd p)) x = true.
Proof.
  intros H. apply existsb_exists in H. destruct H as (y & Hy & Ey).
  destruct (numbered_In l y a Hy) as (i & Hi).
  destruct (find (fun p => cell_eqb (key (snd p)) x)
                 (rev (combine (seq a (List.length l)) l))) as [p|] eqn:F.
  - apply find_some in F. destruct F as [F1 F2]. exists p.
    split; [reflexivity|]. split; [now apply in_rev | exact F2].
  - exfalso. apply in_rev in Hi.
    pose proof (find_none _ _ F (i, y) Hi) as N. cbn [snd] in N. congruence.
Qed.

(** A name that is among the nodes is found in the map of the nodes, at
    the place of a node of that name: among the statuses when a status has
    the name, among the cultivars otherwise. *)
Lemma node_map_lookup (c s : list Cell) (x : Cell) :
  existsb (fun y => cell_eqb y x) (c ++ s) = true ->
  exists i y,
    getitem (node_map_of (c ++ s)) x = Some i /\
    nth_error (c ++ s) i = Some y /\ cell_eqb y x = true /\
    ((i < List.length c)%nat <-> existsb (fun y => cell_eqb y x) s = false).
Proof.
  intros H. unfold node_map_of, enumerate.
  rewrite getitem_built, length_app, seq_app, combine_app by apply length_seq.
  rewrite rev_app_distr, find_app. simpl Nat.add.
  destruct (existsb (fun y => cell_eqb y x) s) eqn:Es.
  - destruct (find_rev_pairs s (List.length c) x (fun y => y) Es) as ([i y] & F & Hin & E).
    rewrite F. apply in_numbered in Hin. destruct Hin as [Hi Hn].
    exists i, y. cbn [fst snd] in *. split; [reflexivity|].
    split; [now rewrite nth_error_app2 by lia|]. split; [exact E|].
    split; [lia | discriminate].
  - replace (find _ (rev (combine (seq (List.length c) (List.length s)) s))) with (@None (nat * Cell)).
    + rewrite existsb_app, Es, orb_false_r in H.
      destruct (find_rev_pairs c 0 x (fun y => y) H) as ([i y] & F & Hin & E).
      rewrite F. apply in_numbered in Hin. destruct Hin as [Hi Hn].
      exists i, y. cbn [fst snd] in *. split; [reflexivity|].
      split; [rewrite nth_error_app1 by lia; now rewrite Nat.sub_0_r in Hn|].
      split; [exact E|]. split; [reflexivity | lia].
    + symmetry. destruct (find _ _) as [[i y]|] eqn:F; [|reflexivity].
      apply find_some in F. destruct F as [F1 F2]. apply in_rev in F1.
      apply in_combine_r in F1. cbn [snd] in F2.
      assert (existsb (fun y => cell_eqb y x) s = true)
        by (apply existsb_exists; now exists y).
      congruence.
Qed.

Lemma unique_has (l : list Cell) (x : Cell) :
  In x l -> existsb (fun y => cell_eqb y x) (unique l) = true.
Proof. apply unique_covers. Qed.

(** The links of rows whose names are all among the nodes. *)
Lemma links_of_rows (c s : list Cell) (rows : list CultivarRecord) :
  Forall (fun r => existsb (fun y => cell_eqb y (Cultivar r)) c = true /\
                   existsb (fun y => cell_eqb y (Status r)) s = true) rows ->
  exists ss ts,
    links (node_map_of (c ++ s)) rows = Some (ss, ts, map Prev_Receb rows) /\
    Forall2 (fun r i =>
               (exists y, nth_error (c ++ s) i = Some y /\
                          cell_eqb y (Cultivar r) = true) /\
               ((i < List.length c)%nat <->
                existsb (fun y => cell_eqb y (Cultivar r)) s = false))
            rows ss /\
    Forall2 (fun r i =>
               (List.length c <= i)%nat /\
               exists y, nth_error (c ++ s) i = Some y /\
                         cell_eqb y (Status r) = true)
            rows ts.
Proof.
  induction 1 as [|r rows [Hc Hs] _ IH].
  - exists [], []. repeat split; constructor.
  - destruct IH as (ss & ts & Hl & Hss & Hts).
    destruct (node_map_lookup c s (Cultivar r)) as (i & y & Gi & Ni & Ei & Wi);
      [rewrite existsb_app, Hc; reflexivity|].
    destruct (node_map_lookup c s (Status r)) as (j & z & Gj & Nj & Ej & Wj);
      [rewrite existsb_app, Hs; apply orb_true_r|].
    exists (i :: ss), (j :: ts). cbn [links map]. rewrite Gi, Gj, Hl.
    split; [reflexivity|]. split; constructor; try assumption.
    + split; [now exists y | exact Wi].
    + split; [|now exists z].
      destruct (Nat.lt_ge_cases j (List.length c)) as [Hlt|Hge]; [|exact Hge].
      apply Wj in Hlt. congruence.
Qed.

(** For a set without a missing cultivar or status, the Sankey diagram
    is always built: it has one link for each row with a forecast, of
    that forecast, from a node with the name of the row's cultivar to a
    node, among the statuses, with the name of its status; the link starts
    among the cultivars unless a status of the set has the cultivar's
    name. *)
Theorem sankey_links (df : list CultivarRecord) :
  Forall (fun r => Cultivar r <> NaN /\ Status r <> NaN) df ->
  exists g,
    create_sankey_graph df = Some g /\
    forall sk, g = Figure sk ->
      nodes sk = unique (map Cultivar (filter (fun r => Qlt_bool 0 (Prev_Receb r)) df)) ++
                 unique (map Status (filter (fun r => Qlt_bool 0 (Prev_Receb r)) df)) /\
      values sk = map Prev_Receb (filter (fun r => Qlt_bool 0 (Prev_Receb r)) df) /\
      Forall (fun v => 0 < v) (values sk) /\
      Forall2 (fun r i =>
                 (exists y, nth_error (nodes sk) i = Some y /\
                            cell_eqb y (Cultivar r) = true) /\
                 ((i < List.length (unique (map Cultivar
                        (filter (fun r => Qlt_bool 0 (Prev_Receb r)) df))))%nat <->
                  existsb (fun y => cell_eqb y (Cultivar r))
                          (unique (map Status
                             (filter (fun r => Qlt_bool 0 (Prev_Receb r)) df))) = false))
              (filter (fun r => Qlt_bool 0 (Prev_Receb r)) df) (sources sk) /\
      Forall2 (fun r i =>
                 (List.length (unique (map Cultivar
                     (filter (fun r => Qlt_bool 0 (Prev_Receb r)) df))) <= i)%nat /\
                 exists y, nth_error (nodes sk) i = Some y /\
                           cell_eqb y (Status r) = true)
              (filter (fun r => Qlt_bool 0 (Prev_Receb r)) df) (targets sk).
Proof.
  intros _. unfold create_sankey_graph.
  destruct df as [|r0 df0]; [eexists; split; [reflexivity | discriminate]|].
  destruct (Qeq_bool _ 0); [eexists; split; [reflexivity | discriminate]|].
  cbv zeta. set (rows := filter (fun r => Qlt_bool 0 (Prev_Receb r)) (r0 :: df0)).
  destruct (links_of_rows (unique (map Cultivar rows)) (unique (map Status rows)) rows)
    as (ss & ts & Hl & Hss & Hts).
  { apply Forall_forall. intros r Hr.
    split; apply unique_has; now apply in_map. }
  assert (Hpos : Forall (fun v => 0 < v) (map Prev_Receb rows)).
  { apply Forall_forall. intros v Hv. apply in_map_iff in Hv.
    destruct Hv as (r & <- & Hr). apply filter_In in Hr. now apply Qlt_bool_iff. }
  destruct rows as [|r1 rows1] eqn:Erows;
    [eexists; split; [reflexivity | discriminate]|].
  rewrite Hl. eexists. split; [reflexivity|].
  intros sk Hsk. inversion Hsk; subst sk. cbn [nodes values sources targets].
  split; [reflexivity|]. split; [reflexivity|]. split; [exact Hpos|].
  split; assumption.
Qed.

(** ** What a load returns *)

Lemma rint_floor (y : Q) : (Qfloor y <= rint y <= Qfloor y + 1)%Z.
Proof.
  unfold rint. destruct (y - inject_Z (Qfloor y) ?= 1 # 2); [|lia|lia].
  destruct (Z.even (Qfloor y)); lia.
Qed.

Lemma rint_ge (n : Z) (y : Q) : inject_Z n <= y -> (n <= rint y)%Z.
Proof.
  intros H. pose proof (rint_floor y). pose proof (Qfloor_resp_le _ _ H) as F.
  rewrite Qfloor_Z in F. lia.
Qed.

Lemma rint_nonpos (y : Q) : y <= 0 -> (rint y <= 0)%Z.
Proof.
  intros H. pose proof (Qfloor_resp_le _ _ H) as F.
  change 0 with (inject_Z 0) in F. rewrite Qfloor_Z in F.
  destruct (Z.eq_dec (Qfloor y) 0) as [E|E].
  - unfold rint. rewrite E. pose proof (Qfloor_le y) as Hf. rewrite E in Hf.
    assert (Hy : (y - inject_Z 0 ?= 1 # 2) = Lt)
      by (apply (proj1 (Qlt_alt _ _)); change (inject_Z 0) with 0 in *; lra).
    rewrite Hy. lia.
  - pose proof (rint_floor y). lia.
Qed.

Lemma round_2_hundredths (x : Q) : round x 2 == inject_Z (rint (x * 100)) / 100.
Proof. reflexivity. Qed.

Section Loaded.

Variable L : Library.

Lemma length_process (df : DataFrame) :
  List.length (process L df) = List.length (rows df).
Proof. rewrite process_eq. destruct (forallb _ _); now rewrite !length_map. Qed.

(** A loaded record has the percentage of its own volumes. *)
Lemma loaded_percent (df : DataFrame) (r : CultivarRecord) :
  In r (process L df) -> Percent r = percent (Recepcao r) (Prev_Receb r).
Proof.
  rewrite process_eq. intros H.
  destruct (forallb _ _); apply in_map_iff in H; destruct H as (row & <- & Hrow);
    apply in_map_iff in Hrow; destruct Hrow as (x & <- & _); reflexivity.
Qed.

Lemma loaded_recomputed (df : DataFrame) (r : CultivarRecord) :
  In r (process L df) -> recomputed r = r.
Proof.
  intros H. apply loaded_percent in H. unfold recomputed. rewrite <- H.
  now destruct r.
Qed.

Lemma load_is_process (fs : Files) :
  run (load_and_process_data L) fs = process L (run (read_data_file L) fs).
Proof.
  unfold run, load_and_process_data, bind, ret.
  now destruct (read_data_file L fs).
Qed.


(** The percentage of a loaded record is 100 at least when the record
    received its positive forecast or more, and is not negative when
    neither volume is. *)
Theorem loaded_percent_bounds (fs : Files) :
  Forall (fun r =>
            (0 < Prev_Receb r -> Prev_Receb r <= Recepcao r -> 100 <= Percent r) /\
            (0 <= Prev_Receb r -> 0 <= Recepcao r -> 0 <= Percent r) /\
            (0 < Prev_Receb r -> Recepcao r <= 0 -> Percent r <= 0))
         (run (load_and_process_data L) fs).
Proof.
  rewrite load_is_process. apply Forall_forall. intros r Hr.
  rewrite (loaded_percent _ _ Hr), percent_value.
  set (p := Prev_Receb r). set (q := Recepcao r).
  destruct (Qeq_bool p 0) eqn:E.
  - apply Qeq_bool_iff in E. repeat split; intros; try lra.
    vm_compute. discriminate.
  - assert (Hne : ~ p == 0) by (intros H; apply Qeq_bool_iff in H; congruence).
    rewrite round_2_hundredths. repeat split.
    + intros Hp Hq.
      assert (H : (10000 <= rint (q / p * 100 * 100))%Z).
      { apply rint_ge. change (inject_Z 10000) with (100 * 100).
        assert (1 <= q / p) by (apply Qle_shift_div_l; lra). nra. }
      rewrite Zle_Qle in H. change (inject_Z 10000) with 10000 in H.
      apply Qle_shift_div_l; lra.
    + intros Hp Hq.
      assert (Hp' : 0 < p) by (destruct (Qlt_le_dec 0 p) as [H|H]; [exact H|];
                               exfalso; apply Hne; lra).
      assert (H : (0 <= rint (q / p * 100 * 100))%Z).
      { apply rint_ge. change (inject_Z 0) with 0.
        assert (0 <= q / p) by (apply Qle_shift_div_l; lra). nra. }
      rewrite Zle_Qle in H. change (inject_Z 0) with 0 in H.
      apply Qle_shift_div_l; lra.
    + intros Hp Hq.
      assert (H : (rint (q / p * 100 * 100) <= 0)%Z).
      { apply rint_nonpos.
        assert (q / p <= 0) by (apply Qle_shift_div_r; lra). nra. }
      rewrite Zle_Qle in H. change (inject_Z 0) with 0 in H.
      apply Qle_shift_div_r; lra.
Qed.

Lemma load_keeps_timeline (fs : Files) :
  TIMELINE_FILE (exec (load_and_process_data L) fs) = TIMELINE_FILE fs.
Proof.
  unfold exec, load_and_process_data, bind, ret, read_data_file. cbv zeta.
  cbn [snd]. now destruct (DATA_FILE fs) as [[|]|].
Qed.

(** A load creates [data.csv] when it is missing or empty and returns no
    record then; it leaves an existing file and the timeline as they are,
    and a second load returns the same records and changes nothing. *)
Theorem load_is_stable (fs : Files) :
  DATA_FILE (exec (load_and_process_data L) fs) <> None /\
  TIMELINE_FILE (exec (load_and_process_data L) fs) = TIMELINE_FILE fs /\
  load_and_process_data L (exec (load_and_process_data L) fs) =
    (run (load_and_process_data L) fs, exec (load_and_process_data L) fs) /\
  (DATA_FILE fs = None \/ DATA_FILE fs = Some [] ->
   run (load_and_process_data L) fs = [] /\
   DATA_FILE (exec (load_and_process_data L) fs) = Some [raw_cols]) /\
  (forall line f, DATA_FILE fs = Some (line :: f) ->
                  exec (load_and_process_data L) fs = fs).
Proof.
  unfold run, exec, load_and_process_data, bind, ret, read_data_file, exec, write_data.
  destruct fs as [[[|hdr body]|] tl]; cbn [DATA_FILE TIMELINE_FILE fst snd to_csv
                                              columns rows map];
    (split; [discriminate|]); (split; [reflexivity|]); (split; [reflexivity|]); split.
  - intros _. split; reflexivity.
  - discriminate.
  - intros [H|H]; discriminate H.
  - reflexivity.
  - intros _. split; reflexivity.
  - discriminate.
Qed.

End Loaded.

(** ** The routes that write the record store *)

Section Writes.

Variable L : Library.

(** A load after a save returns one record for each row saved. *)
Lemma load_count_after_save (df : DataFrame) (fs : Files) :
  List.length (run (load_and_process_data L) (exec (save_dataframe L df) fs)) =
  List.length (rows df).
Proof.
  unfold run. rewrite load_after_save. cbn [fst].
  rewrite length_process. cbn [rows]. now rewrite !length_map.
Qed.

(** A save touches [data.csv] alone, and what it writes does not depend
    on what the files held. *)
Lemma save_overwrites (df : DataFrame) (fs : Files) :
  exec (save_dataframe L df) fs =
  mkFiles (Some (raw_cols :: map (saved_line L df) (rows df))) (TIMELINE_FILE fs).
Proof. unfold exec, save_dataframe, write_data. now rewrite to_csv_saved. Qed.

Lemma float_field_inl (field : option string) (e : string) :
  float_field L field = inl e -> exists t, field = Some t /\ py_float L t = None.
Proof.
  unfold float_field. destruct field as [t|]; [|discriminate].
  destruct (py_float L t) as [[q|]|] eqn:E; try discriminate. intros _. now exists t.
Qed.

Lemma float_field_inr (field : option string) (v : Cell) (t : string) :
  float_field L field = inr v -> field = Some t -> py_float L t <> None.
Proof.
  unfold float_field. intros H ->. destruct (py_float L t) as [[q|]|]; congruence.
Qed.

(** A registration that answers 200 was sent three volumes that can
    each be read as a float, and with such volumes it answers 200 when
    the volumes of [data.csv] fit a float; when it does not answer 200 it
    answers 500 and leaves the files as they were, not even creating
    [data.csv] for volumes that cannot be read. *)
Theorem register_rejects_bad_numbers (form : Form) (fs : Files) :
  (snd (run (register_cultivar L form) fs) = 200%Z ->
   forall t, In (Some t) [prev_colheita form; prev_receb form; recepcao form] ->
             py_float L t <> None) /\
  (load_fits L fs ->
   (forall t, In (Some t) [prev_colheita form; prev_receb form; recepcao form] ->
              py_float L t <> None) ->
   snd (run (register_cultivar L form) fs) = 200%Z) /\
  (snd (run (register_cultivar L form) fs) <> 200%Z ->
   snd (run (register_cultivar L form) fs) = 500%Z /\
   exec (register_cultivar L form) fs = fs).
Proof.
  unfold register_cultivar, run, exec.
  destruct (float_field L (prev_colheita form)) as [e|v1] eqn:E1.
  { apply float_field_inl in E1. destruct E1 as (t & Et & Ep). cbn.
    split; [discriminate|]. split.
    - intros _ H. exfalso. apply (H t); [|exact Ep]. rewrite <- Et. simpl. auto.
    - intros _. split; reflexivity. }
  destruct (float_field L (prev_receb form)) as [e|v2] eqn:E2.
  { apply float_field_inl in E2. destruct E2 as (t & Et & Ep). cbn.
    split; [discriminate|]. split.
    - intros _ H. exfalso. apply (H t); [|exact Ep]. rewrite <- Et. simpl. auto.
    - intros _. split; reflexivity. }
  destruct (float_field L (recepcao form)) as [e|v3] eqn:E3.
  { apply float_field_inl in E3. destruct E3 as (t & Et & Ep). cbn.
    split; [discriminate|]. split.
    - intros _ H. exfalso. apply (H t); [|exact Ep]. rewrite <- Et. simpl. auto.
    - intros _. split; reflexivity. }
  unfold bind, ret. destruct (load_and_process_data L fs) as [df fs1].
  destruct (save_dataframe L _ fs1) as [u fs2]. cbn [fst snd]. split; [|split].
  - intros _ t [H|[H|[H|[]]]].
    + now apply (float_field_inr _ _ t E1).
    + now apply (float_field_inr _ _ t E2).
    + now apply (float_field_inr _ _ t E3).
  - reflexivity.
  - intros H. now contradiction H.
Qed.

(** A registration that succeeds adds one record to those that a load
    returned before it, and leaves the timeline as it was. *)
Theorem register_appends_one (form : Form) (fs : Files) :
  snd (run (register_cultivar L form) fs) = 200%Z ->
  List.length (run (load_and_process_data L) (exec (register_cultivar L form) fs)) =
    S (List.length (run (load_and_process_data L) fs)) /\
  TIMELINE_FILE (exec (register_cultivar L form) fs) = TIMELINE_FILE fs.
Proof.
  unfold register_cultivar, run at 1, exec.
  destruct (float_field L (prev_colheita form)) as [e|v1]; [discriminate|].
  destruct (float_field L (prev_receb form)) as [e|v2]; [discriminate|].
  destruct (float_field L (recepcao form)) as [e|v3]; [discriminate|].
  intros _. unfold bind, ret, run.
  pose proof (load_keeps_timeline L fs) as Htl. unfold exec in Htl.
  destruct (load_and_process_data L fs) as [df fs1]. cbn [fst snd] in *.
  match goal with
  | |- context [save_dataframe L ?f fs1] =>
      pose proof (load_count_after_save f fs1) as Hn;
      pose proof (save_overwrites f fs1) as Hs
  end.
  unfold run, exec in Hn, Hs. destruct (save_dataframe L _ fs1) as [u fs2].
  cbn [fst snd] in *. rewrite Hn, Hs. cbn [rows concat to_frame TIMELINE_FILE].
  rewrite length_app, length_map. cbn [List.length]. split; [lia | exact Htl].
Qed.

End Writes.

Section Replacing.

Variable L : Library.

Lemma run_bind {A B} (m : IO A) (k : A -> IO B) (fs : Files) :
  run (bind m k) fs = run (k (run m fs)) (exec m fs).
Proof. unfold run, exec, bind. now destruct (m fs). Qed.

Lemma exec_bind {A B} (m : IO A) (k : A -> IO B) (fs : Files) :
  exec (bind m k) fs = exec (k (run m fs)) (exec m fs).
Proof. unfold run, exec, bind. now destruct (m fs). Qed.

(** An import of records answers 200 when the file has an Excel name,
    is read, and has the five required columns, and then only; otherwise
    the files stay as they were. *)
Theorem import_data_checks (excel_file : option Upload) (fs : Files) :
  (snd (run (import_data L excel_file) fs) = 200%Z <->
   exists file df,
     excel_file = Some file /\ name_ok file = true /\ read_excel file = inr df /\
     forallb (fun col => col_in col (columns df)) import_required_cols = true) /\
  (snd (run (import_data L excel_file) fs) <> 200%Z ->
   exec (import_data L excel_file) fs = fs).
Proof.
  unfold import_data. destruct excel_file as [file|].
  2: { split; [|reflexivity]. split; [discriminate|].
       intros (file & df & H & _). discriminate H. }
  destruct (name_ok file) eqn:En; cbn [negb].
  2: { split; [|reflexivity]. split; [discriminate|].
       intros (file' & df & H & Hn & _). inversion H; subst. congruence. }
  destruct (read_excel file) as [e|df] eqn:Er.
  { split; [|reflexivity]. split; [discriminate|].
    intros (file' & df & H & _ & Hr & _). inversion H; subst. congruence. }
  destruct (forallb _ import_required_cols) eqn:Ec; cbn [negb].
  2: { split; [|reflexivity]. split; [discriminate|].
       intros (file' & df' & H & _ & Hr & Hc). inversion H; subst.
       rewrite Er in Hr. inversion Hr; subst. congruence. }
  rewrite run_bind. split.
  - split; [|reflexivity]. intros _. now exists file, df.
  - intros H. now contradiction H.
Qed.

(** An import that is accepted replaces [data.csv], whatever the file
    held: what it holds afterwards is the same from any files, the header
    of the six columns and one line for each row of the sheet.  The
    timeline stays, and a load of the new file, when its volumes fit a
    float, returns as many records as the sheet has rows. *)
Theorem import_data_replaces (file : Upload) (df : DataFrame) (fs fs' : Files) :
  name_ok file = true ->
  read_excel file = inr df ->
  forallb (fun col => col_in col (columns df)) import_required_cols = true ->
  DATA_FILE (exec (import_data L (Some file)) fs) =
    DATA_FILE (exec (import_data L (Some file)) fs') /\
  (exists body,
     DATA_FILE (exec (import_data L (Some file)) fs) = Some (raw_cols :: body) /\
     List.length body = List.length (rows df)) /\
  TIMELINE_FILE (exec (import_data L (Some file)) fs) = TIMELINE_FILE fs /\
  (load_fits L (exec (import_data L (Some file)) fs) ->
   List.length (run (load_and_process_data L) (exec (import_data L (Some file)) fs)) =
     List.length (rows df)).
Proof.
  intros Hn Hr Hc. unfold import_data. rewrite Hn, Hr, Hc. cbn [negb].
  rewrite !exec_bind. cbn [ret exec snd].
  assert (Hlen : List.length (rows (with_default_status df)) = List.length (rows df)).
  { unfold with_default_status. destruct (col_in "Status" (columns df)); [reflexivity|].
    cbn [rows]. apply length_map. }
  rewrite load_count_after_save.
  rewrite (save_overwrites L (with_default_status df) fs).
  rewrite (save_overwrites L (with_default_status df) fs').
  cbn [DATA_FILE TIMELINE_FILE].
  split; [reflexivity|]. split.
  { eexists. split; [reflexivity|]. now rewrite length_map. }
  split; [reflexivity | intros _; exact Hlen].
Qed.

(** After a save of a frame whose every line has the status text 'Em
    Andamento', each loaded record has that status. *)
Lemma loaded_status_default (df : DataFrame) (fs : Files) :
  (forall r, In r (rows df) -> nth 5 (saved_line L df r) "" = "Em Andamento") ->
  parse_float L "Em Andamento" = None ->
  Forall (fun r => Status r = Str "Em Andamento")
         (run (load_and_process_data L) (exec (save_dataframe L df) fs)).
Proof.
  intros Hst Hp. unfold run. rewrite load_after_save. cbn [fst].
  rewrite process_eq. cbn [rows]. rewrite !map_map.
  set (body := map (saved_line L df) (rows df)).
  assert (Hcell : forall frame r, In r (rows df) ->
            normalize_row raw_cols (mkFrame raw_cols frame)
              (read_field L raw_cols body (saved_line L df r)) "Status" =
            Str "Em Andamento").
  { intros frame r Hr. rewrite normalize_row_present by reflexivity.
    rewrite (read_field_at _ _ _ _ "Status" 5) by reflexivity.
    rewrite (Hst r Hr). now apply read_cell_text. }
  destruct (forallb _ _) eqn:Ef.
  - destruct (rows df) as [|r0 rs] eqn:Erows; [constructor|].
    exfalso. cbn [map forallb] in Ef. rewrite Hcell in Ef by (left; reflexivity).
    discriminate Ef.
  - apply Forall_forall. intros out Hout. apply in_map_iff in Hout.
    destruct Hout as (r & <- & Hr). cbn [Status with_Status with_percent].
    now rewrite Hcell.
Qed.

(** After the import of a sheet that has no column Status, every record
    has the status 'Em Andamento', whatever its volumes. *)
Theorem import_data_default_status (file : Upload) (df : DataFrame) (fs : Files) :
  name_ok file = true ->
  read_excel file = inr df ->
  forallb (fun col => col_in col (columns df)) import_required_cols = true ->
  col_in "Status" (columns df) = false ->
  parse_float L "Em Andamento" = None ->
  Forall (fun r => Status r = Str "Em Andamento")
         (run (load_and_process_data L) (exec (import_data L (Some file)) fs)).
Proof.
  intros Hn Hr Hc Hs Hp. unfold import_data. rewrite Hn, Hr, Hc. cbn [negb].
  rewrite exec_bind. cbn [ret exec snd].
  apply loaded_status_default; [|exact Hp].
  intros r Hin. unfold with_default_status in *. rewrite Hs in *. cbn [rows] in Hin.
  apply in_map_iff in Hin. destruct Hin as (r0 & <- & _).
  cbn [saved_line raw_cols map nth]. unfold saved_cell. cbn [columns].
  rewrite col_in_app. replace (col_in "Status" ["Status"]) with true by reflexivity.
  rewrite orb_true_r. reflexivity.
Qed.


(** An update with the records that [/data] answered saves what a save
    of those records saves. *)
Lemma update_saves_records (df : list CultivarRecord) (fs : Files) :
  update_data L (to_frame df) fs =
  (inr (run (save_then_load L df) fs), exec (save_then_load L df) fs).
Proof.
  unfold update_data, save_then_load.
  replace (find _ numeric_cols) with (@None string) by reflexivity.
  assert (E : forall fs0,
             save_dataframe L (fold_left (coerce_column L) numeric_cols (to_frame df)) fs0 =
             save_dataframe L (to_frame df) fs0).
  { intros fs0. unfold save_dataframe, write_data. rewrite !to_csv_saved.
    cbn [fold_left numeric_cols coerce_column rows columns to_frame].
    rewrite !map_map.
    now rewrite (map_ext _ (fun x => saved_line L (to_frame df) (to_row x)))
      by reflexivity. }
  unfold run, exec, bind, ret. rewrite E.
  destruct (save_dataframe L (to_frame df) fs) as [u fs1].
  now destruct (load_and_process_data L fs1).
Qed.

(** Sending back to an update the records that [/data] answered gives
    the same records again, when there is one at least and their texts
    and volumes are read back from the file as they are; with no record,
    the frame of the empty answer has no column and the update stops on
    Prev_Colheita, writing nothing. *)
Theorem update_data_of_get_data (fs fs' : Files) :
  Forall (survives_csv L) (run (load_and_process_data L) fs) ->
  (run (get_data L) fs <> [] ->
   run (update_data L (frame_of_records (run (get_data L) fs))) fs' =
   inr (run (load_and_process_data L) fs)) /\
  (run (get_data L) fs = [] ->
   update_data L (frame_of_records (run (get_data L) fs)) fs' =
   (inl "Prev_Colheita", fs')).
Proof.
  intros H. unfold get_data. rewrite run_bind. cbv zeta. cbn [ret run fst].
  fold (run (load_and_process_data L) fs).
  destruct (run (load_and_process_data L) fs) as [|r rs] eqn:E.
  - split; [congruence | reflexivity].
  - split; [|discriminate]. intros _. cbn [frame_of_records].
    unfold run at 1. rewrite update_saves_records. cbn [fst].
    rewrite round_trip by exact H. f_equal.
    rewrite <- (map_id (r :: rs)) at 2.
    apply map_ext_in. intros r' Hr. rewrite <- E, load_is_process in Hr.
    now apply (loaded_recomputed L _ _ Hr).
Qed.

(** When the frame has a column Status that is empty in every row, each
    record gets its status from its volumes: 'Prev. Inválida' without a
    forecast, else 'OK' from 100 percent, else 'Em Andamento' when
    something was received, else 'Falta Receber'. *)
Theorem automatic_status_rule (df : DataFrame) :
  col_in "Status" (columns df) = true ->
  Forall (fun r => r "Status" = NaN) (rows df) ->
  Forall (fun out =>
            (Prev_Receb out == 0 /\ Status out = Str "Prev. Inválida") \/
            (~ Prev_Receb out == 0 /\ 100 <= Percent out /\ Status out = Str "OK") \/
            (~ Prev_Receb out == 0 /\ Percent out < 100 /\ 0 < Recepcao out /\
             Status out = Str "Em Andamento") \/
            (~ Prev_Receb out == 0 /\ Percent out < 100 /\ Recepcao out <= 0 /\
             Status out = Str "Falta Receber"))
         (process L df).
Proof.
  intros Hcol Hall.
  pose proof (status_rule_on_empty_column L df Hcol Hall) as H.
  eapply Forall_impl; [|exact H]. intros out Hout. cbv beta in Hout.
  rewrite Hout. destruct (get_status_rule out) as (R1 & R2 & R3 & R4).
  destruct (Qeq_dec (Prev_Receb out) 0) as [E|E]; [left; auto|right].
  destruct (Qlt_le_dec (Percent out) 100) as [P|P]; [right|left; auto].
  destruct (Qlt_le_dec 0 (Recepcao out)) as [V|V]; [left; auto | right; auto].
Qed.

End Replacing.

(** ** The sample timeline as a whole *)

Lemma Qsum_app (l l' : list Q) : Qsum (l ++ l') == Qsum l + Qsum l'.
Proof. unfold Qsum at 1. rewrite fold_left_app, Qsum_acc. reflexivity. Qed.

Lemma sample_volumes_nonneg (now : Z) (row : CultivarRecord)
      (new : list TimelineRecord) :
  Forall (sample_entry now row) new -> 0 <= Qsum (map Volume_SC new).
Proof.
  intros H. apply Qsum_nonneg. apply Forall_map.
  eapply Forall_impl; [|exact H]. intros e (_ & _ & _ & Hv & _). cbv beta. lra.
Qed.

Lemma sampled_keep (now : Z) (row : CultivarRecord) (acc : list TimelineRecord)
      (s : LoopState) :
  sampled now row acc s -> loop_test now s = true ->
  sampled now row acc (loop_body row s).
Proof.
  intros (Hdate & Hrem & new & Hdata & Hnew & Hsum) Ht.
  apply loop_test_true in Ht. destruct Ht as [Hpos Hnow].
  pose proof (sample_volumes_nonneg now row new Hnew) as Hnn.
  destruct (loop_body_spec row s) as (r & d & daily & Hr & Hd & Hdaily & Hcur & H).
  pose proof (py_min_le_r (inject_Z r) (remaining s)) as Hle. rewrite <- Hdaily in Hle.
  assert (H1000 : daily <= 1000).
  { destruct (py_min_cases (inject_Z r) (remaining s)) as [[Hlt E]|[Hge E]];
      rewrite <- Hdaily in E; rewrite E.
    - assert (inject_Z r <= inject_Z 1000) by (rewrite <- Zle_Qle; lia).
      change (inject_Z 1000) with 1000 in *. lra.
    - assert (inject_Z r <= inject_Z 1000) by (rewrite <- Zle_Qle; lia).
      exact H0. }
  unfold sampled. rewrite Hcur. split; [lia|].
  destruct H as [(Hd0 & Hs' & Hr')|(Hd0 & Hs' & Hr')]; rewrite Hs', Hr'.
  - split; [lra|].
    exists (new ++ [mkTimeline (Some (current_date s)) (Cultivar row)
                               (Categoria row) daily]).
    split; [now rewrite Hdata, app_assoc|]. split.
    + apply Forall_app. split; [exact Hnew|]. constructor; [|constructor].
      unfold sample_entry. cbn [tl_Cultivar tl_Categoria tl_Data Volume_SC].
      split; [reflexivity|]. split; [reflexivity|]. split.
      * exists (current_date s). split; [reflexivity | lia].
      * split; [exact Hd0|]. split; [exact H1000 | lra].
    + rewrite map_app. cbn [map Volume_SC].
      pose proof (Qsum_snoc (map Volume_SC new) daily) as E. lra.
  - split; [exact Hrem|]. exists new. auto.
Qed.

(** The loop for one record adds entries of that record after the ones
    there are, of a total within what it received; it adds none for a
    record that received nothing. *)
Lemma distribute_sampled (now : Z) (row : CultivarRecord)
      (acc : list TimelineRecord) (g : Rng) :
  exists new g',
    distribute now row (acc, g) = (acc ++ new, g') /\
    Forall (sample_entry now row) new /\
    Qsum (map Volume_SC new) <=
      Qsum (map Recepcao (filter (fun r => Qlt_bool 0 (Recepcao r)) [row])).
Proof.
  unfold distribute. cbn [filter]. destruct (Qlt_bool 0 (Recepcao row)) eqn:E.
  - apply Qlt_bool_iff in E. cbv zeta. cbn [fst snd].
    set (s0 := mkLoop acc (Recepcao row) (now - 60) g).
    destruct (while_loop_rule now row (sampled now row acc)
                (sampled_keep now row acc) (turns now s0) s0 (le_n _))
      as (s' & Hloop & (_ & Hrem & new & Hdata & Hnew & Hsum) & _).
    { unfold sampled, s0. cbn [current_date remaining sample_data].
      split; [lia|]. split; [lra|]. exists []. rewrite app_nil_r.
      split; [reflexivity|]. split; [constructor|]. cbn [map]. rewrite Qsum_nil. lra. }
    rewrite Hloop. exists new, (rng s'). rewrite Hdata.
    split; [reflexivity|]. split; [exact Hnew|].
    cbn [map]. rewrite Qsum_cons, Qsum_nil. lra.
  - exists [], g. rewrite app_nil_r. split; [reflexivity|]. split; [constructor|].
    apply Qle_refl.
Qed.

Lemma fold_distribute_sampled (now : Z) (main_df l : list CultivarRecord) :
  (forall row, In row l -> In row main_df) ->
  forall (acc : list TimelineRecord) (g : Rng),
  exists new g',
    fold_left (fun a row => distribute now row a) l (acc, g) = (acc ++ new, g') /\
    Forall (fun e => exists row, In row main_df /\ 0 < Recepcao row /\
                                 sample_entry now row e) new /\
    Qsum (map Volume_SC new) <=
      Qsum (map Recepcao (filter (fun r => Qlt_bool 0 (Recepcao r)) l)).
Proof.
  induction l as [|row l IH]; intros Hin acc g.
  - exists [], g. rewrite app_nil_r. split; [reflexivity|]. split; [constructor|].
    apply Qle_refl.
  - destruct (distribute_sampled now row acc g) as (new1 & g1 & E1 & F1 & S1).
    destruct (IH (fun r H => Hin r (or_intror H)) (acc ++ new1) g1)
      as (new2 & g2 & E2 & F2 & S2).
    exists (new1 ++ new2), g2. cbn [fold_left]. rewrite E1, E2, app_assoc.
    split; [reflexivity|]. split.
    + apply Forall_app. split; [|exact F2].
      eapply Forall_impl; [|exact F1]. intros e He. exists row.
      split; [apply Hin; now left|]. split; [|exact He].
      destruct He as (_ & _ & _ & Hv & _ & Hr). lra.
    + rewrite map_app, Qsum_app.
      cbn [filter] in *. destruct (Qlt_bool 0 (Recepcao row)); cbn [map] in *.
      * rewrite Qsum_cons in *. rewrite Qsum_nil in S1. lra.
      * rewrite Qsum_nil in S1. lra.
Qed.

Section Sample.

Variable L : Library.

Lemma load_timeline_of_file (fs : Files) :
  load_timeline_data fs =
  (match TIMELINE_FILE fs with Some t => t | None => [] end,
   mkFiles (DATA_FILE fs)
           (Some match TIMELINE_FILE fs with Some t => t | None => [] end)).
Proof.
  unfold load_timeline_data. destruct fs as [d [t|]]; reflexivity.
Qed.

(** The sample in terms of the two loads. *)
Lemma sample_unfolded (now : Z) (g : Rng) (fs : Files) :
  generate_sample_timeline_data L now g fs =
  match run load_timeline_data fs, run (load_and_process_data L) fs with
  | [], _ :: _ =>
      match fst (fold_left (fun acc row => distribute now row acc)
                           (run (load_and_process_data L) fs) ([], g)) with
      | e :: sample =>
          (e :: sample,
           mkFiles (DATA_FILE (exec (load_and_process_data L) fs)) (Some (e :: sample)))
      | [] => ([], mkFiles (DATA_FILE (exec (load_and_process_data L) fs)) (Some []))
      end
  | timeline_df, _ =>
      (timeline_df,
       mkFiles (DATA_FILE (exec (load_and_process_data L) fs)) (Some timeline_df))
  end.
Proof.
  pose proof (load_keeps_timeline L fs) as Hk.
  unfold generate_sample_timeline_data, bind, run, exec in *.
  destruct (load_and_process_data L fs) as [main_df fs1]. cbn [fst snd] in *.
  rewrite !load_timeline_of_file. cbn [fst snd]. rewrite Hk.
  destruct (TIMELINE_FILE fs) as [[|t ts]|]; destruct main_df as [|r rs];
    try reflexivity;
    destruct (fst (fold_left _ _ _)); reflexivity.
Qed.

(** When there is no timeline yet, every entry of the sample comes from
    a loaded record that received something: it has its cultivar and
    category, a day of the sixty before now, and a volume above 0 and
    within 1000; and the sample holds no more than was received. *)
Theorem sample_timeline_entries (now : Z) (g : Rng) (fs : Files) :
  run load_timeline_data fs = [] ->
  Forall (fun e => exists row,
            In row (run (load_and_process_data L) fs) /\ 0 < Recepcao row /\
            sample_entry now row e)
         (run (generate_sample_timeline_data L now g) fs) /\
  Qsum (map Volume_SC (run (generate_sample_timeline_data L now g) fs)) <=
  Qsum (map Recepcao (filter (fun r => Qlt_bool 0 (Recepcao r))
                             (run (load_and_process_data L) fs))).
Proof.
  intros Ht. unfold run at 2 3. rewrite sample_unfolded, Ht.
  set (main_df := run (load_and_process_data L) fs).
  destruct (fold_distribute_sampled now main_df main_df (fun r H => H) [] g)
    as (new & g' & E & F & S).
  cbn [app] in E.
  destruct main_df as [|r rs] eqn:Em.
  - cbn [fst map filter]. split; [constructor | apply Qle_refl].
  - rewrite E. cbn [fst]. destruct new as [|e new]; cbn [fst]; split; assumption.
Qed.

(** A timeline file that has entries is never written by the sample.
    When there is no timeline yet, the file holds afterwards the sample
    that was returned, which is empty when none is made.  [data.csv] is
    as a load leaves it. *)
Theorem sample_timeline_stored (now : Z) (g : Rng) (fs : Files) :
  (forall t ts, TIMELINE_FILE fs = Some (t :: ts) ->
     TIMELINE_FILE (exec (generate_sample_timeline_data L now g) fs) =
       Some (t :: ts)) /\
  (run load_timeline_data fs = [] ->
   TIMELINE_FILE (exec (generate_sample_timeline_data L now g) fs) =
     Some (run (generate_sample_timeline_data L now g) fs)) /\
  DATA_FILE (exec (generate_sample_timeline_data L now g) fs) =
    DATA_FILE (exec (load_and_process_data L) fs).
Proof.
  unfold run at 2, exec at 1 2 3. rewrite sample_unfolded.
  assert (Ht : forall t ts, TIMELINE_FILE fs = Some (t :: ts) ->
                            run load_timeline_data fs = t :: ts).
  { intros t ts H. unfold run. now rewrite load_timeline_of_file, H. }
  destruct (run load_timeline_data fs) as [|t0 ts0] eqn:El.
  - split; [intros t ts H; apply Ht in H; discriminate H|].
    destruct (run (load_and_process_data L) fs) as [|r rs];
      [split; [reflexivity | reflexivity]|].
    destruct (fst (fold_left _ _ _)); split; reflexivity.
  - split.
    + intros t ts H. apply Ht in H. inversion H; subst.
      now destruct (run (load_and_process_data L) fs).
    + split; [discriminate|]. now destruct (run (load_and_process_data L) fs).
Qed.

(** An import of the timeline that answers 200 had a file with an
    Excel name that was read, with the five required columns and no row
    with an unparsable date or quantity; such a file is answered 200 when
    the volumes of [data.csv], which the import loads, fit a float.  When
    the answer is not 200 the files stay as they were. *)
Theorem timeline_import_checks (timeline_file : option Upload) (fs : Files) :
  (snd (run (import_timeline_data L timeline_file) fs) = 200%Z ->
   exists file df,
     timeline_file = Some file /\ name_ok file = true /\ read_excel file = inr df /\
     has_required_cols df = true /\
     Forall (fun r => ~ unparsable L r) (rows df)) /\
  (load_fits L fs ->
   forall file df,
     timeline_file = Some file -> name_ok file = true -> read_excel file = inr df ->
     has_required_cols df = true ->
     Forall (fun r => ~ unparsable L r) (rows df) ->
     snd (run (import_timeline_data L timeline_file) fs) = 200%Z) /\
  (snd (run (import_timeline_data L timeline_file) fs) <> 200%Z ->
   exec (import_timeline_data L timeline_file) fs = fs).
Proof.
  unfold import_timeline_data. destruct timeline_file as [file|].
  2: { split; [discriminate|]. split; [|reflexivity].
       intros _ file df H. discriminate H. }
  destruct (name_ok file) eqn:En; cbn [negb].
  2: { split; [discriminate|]. split; [|reflexivity].
       intros _ file' df H Hn. inversion H; subst. congruence. }
  destruct (read_excel file) as [e|df] eqn:Er.
  { split; [discriminate|]. split; [|reflexivity].
    intros _ file' df H _ Hr. inversion H; subst. congruence. }
  destruct (has_required_cols df) eqn:Ec; cbn [negb].
  2: { split; [discriminate|]. split; [|reflexivity].
       intros _ file' df' H _ Hr Hc. inversion H; subst.
       rewrite Er in Hr. inversion Hr; subst. congruence. }
  cbv zeta.
  destruct (existsb _ (map (fun r => to_datetime L (r "Data")) (rows df))) eqn:Hd.
  { split; [discriminate|]. split; [|reflexivity].
    intros _ file' df' H _ Hr _ Hall. inversion H; subst.
    rewrite Er in Hr. inversion Hr; subst.
    apply checks_pass in Hall. destruct Hall as [Hd' _]. congruence. }
  destruct (existsb _ (map (fun r => to_numeric L (r "Quantidade (Kg)")) (rows df)))
    eqn:Hq.
  { split; [discriminate|]. split; [|reflexivity].
    intros _ file' df' H _ Hr _ Hall. inversion H; subst.
    rewrite Er in Hr. inversion Hr; subst.
    apply checks_pass in Hall. destruct Hall as [_ Hq']. congruence. }
  rewrite !run_bind. cbn [ret run fst snd]. split; [|split].
  - intros _. exists file, df.
    repeat (split; [reflexivity || assumption|]). apply checks_pass. now split.
  - reflexivity.
  - intros H. now contradiction H.
Qed.

(** After an import that is accepted the timeline file holds one record
    for each row of the sheet, in the order of the sheet: the date and
    the cultivar of the row, and its quantity divided by 60.  What the
    timeline held before is gone; [data.csv] is as a load leaves it. *)
Theorem timeline_import_records (file : Upload) (df : DataFrame) (fs : Files) :
  name_ok file = true ->
  read_excel file = inr df ->
  has_required_cols df = true ->
  Forall (fun r => ~ unparsable L r) (rows df) ->
  exists stored,
    TIMELINE_FILE (exec (import_timeline_data L (Some file)) fs) = Some stored /\
    Forall2 (fun r e =>
               tl_Data e = to_datetime L (r "Data") /\
               tl_Cultivar e = r "Cultivar" /\
               exists q, to_numeric L (r "Quantidade (Kg)") = Some q /\
                         Volume_SC e = q / 60)
            (rows df) stored /\
    DATA_FILE (exec (import_timeline_data L (Some file)) fs) =
      DATA_FILE (exec (load_and_process_data L) fs).
Proof.
  intros Hn Hr Hc Hall. pose proof Hall as Hp. apply checks_pass in Hp.
  destruct Hp as [Hd Hq].
  unfold import_timeline_data. rewrite Hn, Hr, Hc. cbn [negb]. cbv zeta.
  rewrite Hd, Hq.
  unfold process_timeline_data, save_timeline_data, write_timeline.
  unfold exec, bind, ret.
  destruct (load_and_process_data L fs) as [main_df fs1]. cbn [fst snd DATA_FILE TIMELINE_FILE].
  eexists. split; [reflexivity|]. split; [|reflexivity].
  unfold to_events. rewrite map_map.
  clear Hd Hq. induction Hall as [|r rs Hrow _ IH]; cbn [map]; constructor.
  - cbn [tl_Data tl_Cultivar Volume_SC ev_Data ev_Cultivar Quantidade_Kg].
    unfold unparsable in Hrow.
    destruct (to_datetime L (r "Data")) as [d|]; [|exfalso; apply Hrow; now left].
    destruct (to_numeric L (r "Quantidade (Kg)")) as [q|];
      [|exfalso; apply Hrow; now right].
    split; [reflexivity|]. split; [reflexivity|]. now exists q.
  - exact IH.
Qed.

End Sample.

(** ** The properties on the examples *)

(** The view by cultivar on the two records of TRUNFO. *)
Lemma grouped_view_bars_witness :
  distinct (map s_Cultivar (bars_of (create_bar_grouped_graph set_plain))) /\
  forall r, In r set_plain -> Cultivar r <> NaN ->
    (0 < Qsum (map Prev_Receb (group (Cultivar r) set_plain)) <->
     exists s, In s (bars_of (create_bar_grouped_graph set_plain)) /\
               cell_eqb (s_Cultivar s) (Cultivar r) = true).
Proof.
  apply (grouped_view_bars set_plain).
  intros H. vm_compute in H. discriminate H.
Defined.

(** The Sankey diagram of the two records of TRUNFO is built. *)
Lemma sankey_links_witness :
  exists g, create_sankey_graph set_plain = Some g.
Proof.
  destruct (sankey_links set_plain) as (g & Hg & _).
  - vm_compute. repeat constructor; discriminate.
  - exists g. exact Hg.
Defined.

(** The registration of VELOZ after the two records of TRUNFO. *)
Lemma register_appends_one_witness :
  List.length (run (load_and_process_data plain)
                   (exec (register_cultivar plain form_veloz) files_twice)) =
    S (List.length (run (load_and_process_data plain) files_twice)) /\
  TIMELINE_FILE (exec (register_cultivar plain form_veloz) files_twice) =
    TIMELINE_FILE files_twice.
Proof.
  apply (register_appends_one plain form_veloz files_twice).
  vm_compute. reflexivity.
Defined.

(** The import of the sheet of two records over the file of TRUNFO,
    and with no file yet. *)
Lemma import_data_replaces_witness :
  DATA_FILE (exec (import_data plain (Some upload_records)) files_twice) =
    DATA_FILE (exec (import_data plain (Some upload_records)) no_files) /\
  (exists body,
     DATA_FILE (exec (import_data plain (Some upload_records)) files_twice) =
       Some (raw_cols :: body) /\
     List.length body = List.length (rows sheet_records)) /\
  TIMELINE_FILE (exec (import_data plain (Some upload_records)) files_twice) =
    TIMELINE_FILE files_twice /\
  List.length (run (load_and_process_data plain)
                   (exec (import_data plain (Some upload_records)) files_twice)) =
    List.length (rows sheet_records).
Proof.
  destruct (import_data_replaces plain upload_records sheet_records files_twice
              no_files eq_refl eq_refl eq_refl) as (H1 & H2 & H3 & H4).
  split; [exact H1|]. split; [exact H2|]. split; [exact H3|].
  apply H4. repeat constructor; vm_compute; discriminate.
Defined.

(** The same import: TRUNFO, received in full, is 'Em Andamento'. *)
Lemma import_data_default_status_witness :
  Forall (fun r => Status r = Str "Em Andamento")
         (run (load_and_process_data plain)
              (exec (import_data plain (Some upload_records)) files_twice)).
Proof.
  apply (import_data_default_status plain upload_records sheet_records files_twice);
    reflexivity.
Defined.

(** The records of the file of TRUNFO, answered and sent back. *)
Lemma update_data_of_get_data_witness :
  (run (get_data plain) files_twice <> [] ->
   run (update_data plain (frame_of_records (run (get_data plain) files_twice)))
       no_files =
   inr (run (load_and_process_data plain) files_twice)) /\
  (run (get_data plain) files_twice = [] ->
   update_data plain (frame_of_records (run (get_data plain) files_twice)) no_files =
   (inl "Prev_Colheita", no_files)).
Proof.
  apply (update_data_of_get_data plain files_twice no_files).
  repeat constructor; try (eexists; repeat split; reflexivity).
Defined.

(** The automatic rule on the frame with an empty column Status. *)
Lemma automatic_status_rule_witness :
  Forall (fun out =>
            (Prev_Receb out == 0 /\ Status out = Str "Prev. Inválida") \/
            (~ Prev_Receb out == 0 /\ 100 <= Percent out /\ Status out = Str "OK") \/
            (~ Prev_Receb out == 0 /\ Percent out < 100 /\ 0 < Recepcao out /\
             Status out = Str "Em Andamento") \/
            (~ Prev_Receb out == 0 /\ Percent out < 100 /\ Recepcao out <= 0 /\
             Status out = Str "Falta Receber"))
         (process plain frame_empty_status).
Proof.
  apply (automatic_status_rule plain frame_empty_status).
  - reflexivity.
  - repeat constructor.
Defined.

(** The sample for the file with 100000 received and no timeline. *)
Lemma sample_timeline_entries_witness :
  Forall (fun e => exists row,
            In row (run (load_and_process_data plain) files_large) /\
            0 < Recepcao row /\ sample_entry 20000 row e)
         (run (generate_sample_timeline_data plain 20000 seed_largest) files_large) /\
  Qsum (map Volume_SC
            (run (generate_sample_timeline_data plain 20000 seed_largest) files_large)) <=
  Qsum (map Recepcao (filter (fun r => Qlt_bool 0 (Recepcao r))
                             (run (load_and_process_data plain) files_large))).
Proof.
  apply (sample_timeline_entries plain 20000 seed_largest files_large).
  reflexivity.
Defined.

(** The import of the sheet of two receipts. *)
Lemma timeline_import_records_witness :
  exists stored,
    TIMELINE_FILE (exec (import_timeline_data plain (Some upload_good)) files_twice) =
      Some stored /\
    Forall2 (fun r e =>
               tl_Data e = to_datetime plain (r "Data") /\
               tl_Cultivar e = r "Cultivar" /\
               exists q, to_numeric plain (r "Quantidade (Kg)") = Some q /\
                         Volume_SC e = q / 60)
            (rows sheet_good) stored /\
    DATA_FILE (exec (import_timeline_data plain (Some upload_good)) files_twice) =
      DATA_FILE (exec (load_and_process_data plain) files_twice).
Proof.
  apply (timeline_import_records plain upload_good sheet_good files_twice).
  - reflexivity.
  - reflexivity.
  - reflexivity.
  - repeat constructor; intros [E|E]; vm_compute in E; discriminate E.
Defined.

(** ** What a load makes of the fields *)

Section Tolerant.

Variable L : Library.

Lemma index_of_col_in (c : string) (hdr : list string) :
  col_in c hdr = is_some (index_of c hdr).
Proof.
  unfold col_in. induction hdr as [|h t IH]; cbn [existsb index_of]; [reflexivity|].
  destruct (String.eqb c h); [reflexivity|]. cbn [orb]. rewrite IH.
  now destruct (index_of c t).
Qed.

Lemma coerce_read_cell (numeric : bool) (t : string) :
  coerce L (read_cell L numeric t) = volume_of_text L t.
Proof.
  unfold read_cell, volume_of_text, coerce. destruct (is_na t); [reflexivity|].
  destruct numeric; cbn [to_numeric]; destruct (parse_float L t) eqn:E;
    cbn [to_numeric]; try rewrite E; reflexivity.
Qed.

Lemma read_of_fitting_lines (hdr : list string) (body : list (list string)) :
  Forall (fun l => (2 <= List.length l <= List.length hdr)%nat) body ->
  read_csv L (hdr :: body) =
  Some (mkFrame hdr (map (read_field L hdr body) body)).
Proof.
  intros H. unfold read_csv.
  replace (existsb _ body) with false; [reflexivity|].
  symmetry. induction H as [|l ls Hl _ IH]; cbn [existsb]; [reflexivity|].
  rewrite IH, orb_false_r. apply Nat.ltb_ge. lia.
Qed.

(** A load of a file whose lines fit the header and whose volumes fit
    a float drops no line: each volume of a record is the number its
    field reads as, and 0 when the field is empty, is no number, or the
    column is not in the file. *)
Theorem loaded_volumes_tolerant (fs : Files) (hdr : list string)
        (body : list (list string)) :
  DATA_FILE fs = Some (hdr :: body) ->
  Forall (fun l => (2 <= List.length l <= List.length hdr)%nat) body ->
  load_fits L fs ->
  List.length (run (load_and_process_data L) fs) = List.length body /\
  forall (c : string) (volume : CultivarRecord -> Q),
    In (c, volume) [("Prev_Colheita", Prev_Colheita); ("Prev_Receb", Prev_Receb);
                    ("Recepcao", Recepcao)] ->
    map volume (run (load_and_process_data L) fs) =
    map (fun l => match index_of c hdr with
                  | Some j => volume_of_text L (nth j l "")
                  | None => 0
                  end) body.
Proof.
  intros Hfile Hfit _. rewrite load_is_process.
  assert (Hread : run (read_data_file L) fs =
                  mkFrame hdr (map (read_field L hdr body) body)).
  { unfold run, read_data_file. cbv zeta. cbn [fst]. rewrite Hfile, Hfile.
    now rewrite read_of_fitting_lines. }
  rewrite Hread. split.
  - rewrite length_process. cbn [rows]. apply length_map.
  - intros c volume Hin. rewrite process_eq. cbn [rows].
    set (frame := mkFrame hdr (map (read_field L hdr body) body)).
    assert (Hcell : forall l,
              coerce L (normalize_row raw_cols frame (read_field L hdr body l) c) =
              match index_of c hdr with
              | Some j => volume_of_text L (nth j l "")
              | None => 0
              end).
    { intros l. pose proof (index_of_col_in c hdr) as Hc.
      destruct (index_of c hdr) as [j|] eqn:Ej; cbn [is_some] in Hc.
      - rewrite normalize_row_present by exact Hc.
        rewrite (read_field_at L hdr body l c j Ej). apply coerce_read_cell.
      - rewrite normalize_row_absent; [| |exact Hc].
        + destruct Hin as [E|[E|[E|[]]]]; inversion E; reflexivity.
        + destruct Hin as [E|[E|[E|[]]]]; inversion E; reflexivity. }
    destruct (forallb _ _); rewrite !map_map; apply map_ext; intros l;
      rewrite <- Hcell;
      destruct Hin as [E|[E|[E|[]]]]; inversion E; reflexivity.
Qed.

End Tolerant.

(** The file with two fields that are no numbers and a short line. *)
Lemma loaded_volumes_tolerant_witness :
  List.length (run (load_and_process_data plain) files_bad_cells) = 3%nat /\
  map Prev_Colheita (run (load_and_process_data plain) files_bad_cells) = [0; 0; 0] /\
  map Prev_Receb (run (load_and_process_data plain) files_bad_cells) =
    map (volume_of_text plain) ["mil"; "500"; "800"] /\
  map Recepcao (run (load_and_process_data plain) files_bad_cells) =
    map (volume_of_text plain) ["400"; "n/a"; "80O"].
Proof.
  destruct (loaded_volumes_tolerant plain files_bad_cells
              ["Cultivar"; "Prev_Receb"; "Recepcao"; "Categoria"; "Status"]
              [["TRUNFO"; "mil"; "400"; "Pao"; "Em Andamento"];
               ["VELOZ"; "500"; "n/a"; "Pao"];
               ["AUDAZ"; "800"; "80O"; "Melhorador"; "Em Andamento"]])
    as [Hn Hv].
  - reflexivity.
  - repeat constructor.
  - repeat constructor; vm_compute; discriminate.
  - split; [exact Hn|]. split; [|split].
    + apply (Hv "Prev_Colheita" Prev_Colheita). cbn [In]. tauto.
    + apply (Hv "Prev_Receb" Prev_Receb). cbn [In]. tauto.
    + apply (Hv "Recepcao" Recepcao). cbn [In]. tauto.
Defined.

(** ** The timeline view *)

Lemma filter_perm {A} (p : A -> bool) (l l' : list A) :
  Permutation l l' -> Permutation (filter p l) (filter p l').
Proof.
  induction 1 as [|x l l' _ IH|x y l|l l' l'' _ IH1 _ IH2]; cbn [filter].
  - constructor.
  - destruct (p x); [now constructor | exact IH].
  - destruct (p x), (p y); try reflexivity. constructor.
  - now transitivity (filter p l').
Qed.

Lemma Qsum_filter_or {A} (v : A -> Q) (p q : A -> bool) (l : list A) :
  (forall a, In a l -> p a && q a = false) ->
  Qsum (map v (filter (fun a => p a || q a) l)) ==
  Qsum (map v (filter p l)) + Qsum (map v (filter q l)).
Proof.
  induction l as [|a l IH]; intros H; cbn [filter map].
  - rewrite Qsum_nil. lra.
  - specialize (IH (fun b Hb => H b (or_intror Hb))).
    pose proof (H a (or_introl eq_refl)) as Ha.
    destruct (p a), (q a); try discriminate Ha; cbn [orb map];
      rewrite ?Qsum_cons, IH; lra.
Qed.

Lemma sorted_le_lt (l : list Z) :
  StronglySorted Z.le l -> NoDup l -> StronglySorted Z.lt l.
Proof.
  induction 1 as [|a l _ IH Ha]; intros Hn; constructor.
  - apply IH. now inversion Hn.
  - inversion Hn as [|? ? Hnot _]; subst. apply Forall_forall. intros b Hb.
    rewrite Forall_forall in Ha. specialize (Ha b Hb).
    assert (a <> b) by (intros ->; contradiction). lia.
Qed.

Lemma in_dates_of (data : list TimelineRecord) (d : Z) :
  In d (dates_of data) <-> exists e, In e data /\ tl_Data e = Some d.
Proof.
  unfold dates_of. rewrite in_flat_map. split.
  - intros (e & He & Hd). exists e. split; [exact He|].
    destruct (tl_Data e) as [d'|]; [|contradiction].
    destruct Hd as [->|[]]. reflexivity.
  - intros (e & He & Hd). exists e. split; [exact He|]. rewrite Hd. now left.
Qed.

Section Series.

Variable data : list TimelineRecord.

Lemma until_step (lo d : Z) (ds : list Z) :
  (lo < d)%Z -> Forall (Z.lt d) ds ->
  (forall e d', In e data -> tl_Data e = Some d' -> (d' <= lo)%Z \/ In d' (d :: ds)) ->
  volume_until data lo + volume_on data d == volume_until data d.
Proof.
  intros Hlt Hd Hin. unfold volume_until, volume_on.
  rewrite <- Qsum_filter_or.
  - rewrite (filter_ext_in (dated_until d)
                           (fun e => dated_until lo e || on_date d e));
      [reflexivity|].
    intros e He. unfold on_date, dated_until.
    destruct (tl_Data e) as [d'|] eqn:Ed; [|reflexivity].
    destruct (Hin e d' He Ed) as [H|[H|H]].
    + replace (d' <=? lo)%Z with true by (symmetry; apply Z.leb_le; lia).
      apply Z.leb_le. lia.
    + subst. rewrite Z.eqb_refl, orb_true_r. apply Z.leb_le. lia.
    + rewrite Forall_forall in Hd. specialize (Hd d' H).
      replace (d' <=? lo)%Z with false by (symmetry; apply Z.leb_gt; lia).
      replace (d' =? d)%Z with false by (symmetry; apply Z.eqb_neq; lia).
      apply Z.leb_gt. lia.
  - intros e _. unfold on_date, dated_until.
    destruct (tl_Data e) as [d'|]; [|reflexivity].
    destruct (d' <=? lo)%Z eqn:E1; [|reflexivity].
    apply Z.leb_le in E1. cbn [andb]. apply Z.eqb_neq. lia.
Qed.

Lemma cumsum_from_total (ds : list Z) :
  forall (lo : Z) (acc : Q),
    StronglySorted Z.lt (lo :: ds) ->
    (forall e d', In e data -> tl_Data e = Some d' -> (d' <= lo)%Z \/ In d' ds) ->
    acc == volume_until data lo ->
    Forall2 (fun d y => y == volume_until data d) ds
            (cumsum_from acc (map (volume_on data) ds)).
Proof.
  induction ds as [|d ds IH]; intros lo acc Hs Hin Hacc; cbn [map cumsum_from].
  - constructor.
  - inversion Hs as [|? ? Hs' Hlo]; subst.
    inversion Hs' as [|? ? Hs'' Hd]; subst.
    assert (Hlt : (lo < d)%Z) by (inversion Hlo; assumption).
    assert (Hstep : acc + volume_on data d == volume_until data d).
    { rewrite Hacc. now apply (until_step lo d ds). }
    constructor; [exact Hstep|].
    apply (IH d (acc + volume_on data d)); [| |exact Hstep].
    + constructor; assumption.
    + intros e d' He Ed. destruct (Hin e d' He Ed) as [H|[H|H]];
        [left; lia | left; lia | now right].
Qed.

Lemma cumsum_total (ds : list Z) :
  StronglySorted Z.lt ds ->
  (forall e d', In e data -> tl_Data e = Some d' -> In d' ds) ->
  Forall2 (fun d y => y == volume_until data d) ds
          (cumsum (map (volume_on data) ds)).
Proof.
  intros Hs Hin. destruct ds as [|d ds]; cbn [map cumsum]; [constructor|].
  assert (Hfirst : volume_on data d == volume_until data d).
  { unfold volume_until, volume_on.
    rewrite (filter_ext_in (dated_until d) (on_date d)); [reflexivity|].
    intros e He. unfold on_date, dated_until.
    destruct (tl_Data e) as [d'|] eqn:Ed; [|reflexivity].
    destruct (Hin e d' He Ed) as [H|H].
    - subst. rewrite Z.eqb_refl. apply Z.leb_le. lia.
    - inversion Hs as [|? ? _ Hd]; subst. rewrite Forall_forall in Hd.
      specialize (Hd d' H).
      replace (d' =? d)%Z with false by (symmetry; apply Z.eqb_neq; lia).
      apply Z.leb_gt. lia. }
  constructor; [exact Hfirst|].
  apply (cumsum_from_total ds d (volume_on data d)); [exact Hs| |exact Hfirst].
  intros e d' He Ed. destruct (Hin e d' He Ed) as [H|H]; [left; lia | now right].
Qed.

Lemma daily_dates_sorted :
  StronglySorted Z.lt (sort_by Z.leb (nodup Z.eq_dec (dates_of data))).
Proof.
  apply sorted_le_lt.
  - apply sort_by_sorted.
    + intros a b H. now apply Z.leb_le.
    + intros a b H. apply Z.leb_gt in H. lia.
    + intros a b c. apply Z.le_trans.
  - eapply Permutation_NoDup; [symmetry; apply sort_by_perm|]. apply NoDup_nodup.
Qed.

Lemma daily_dates_In (d : Z) :
  In d (sort_by Z.leb (nodup Z.eq_dec (dates_of data))) <->
  exists e, In e data /\ tl_Data e = Some d.
Proof.
  split; intros H.
  - apply (Permutation_in _ (sort_by_perm _ _)) in H. apply nodup_In in H.
    now apply in_dates_of.
  - apply (Permutation_in _ (Permutation_sym (sort_by_perm _ _))).
    apply nodup_In. now apply in_dates_of.
Qed.

(** The series of [data]: its dates, each once and in order, with the
    volume dated so far on each. *)
Lemma daily_series :
  StronglySorted Z.lt (map fst (daily_data data)) /\
  Forall2 (fun d y => y == volume_until data d)
          (map fst (daily_data data)) (cumsum (map snd (daily_data data))) /\
  forall d, In d (map fst (daily_data data)) <->
            exists e, In e data /\ tl_Data e = Some d.
Proof.
  unfold daily_data. rewrite !map_map. cbn [fst snd]. rewrite map_id.
  split; [apply daily_dates_sorted|]. split; [|apply daily_dates_In].
  apply cumsum_total; [apply daily_dates_sorted|].
  intros e d' He Ed. apply daily_dates_In. now exists e.
Qed.

End Series.

Section TimelineView.

Variable L : Library.

(** The timeline view has one trace for each category of the timeline
    that line 539 returned.  The dates of a trace are those of the
    entries of its category, each once and in order, and the value on a
    date is the volume of the entries of the category dated so far. *)
Theorem timeline_series (now : Z) (g : Rng) (fs : Files) :
  distinct (map t_name (bars_of (run (create_timeline_graph L now g) fs))) /\
  (forall e, In e (run (generate_sample_timeline_data L now g) fs) ->
     exists tr, In tr (bars_of (run (create_timeline_graph L now g) fs)) /\
                cell_eqb (t_name tr) (tl_Categoria e) = true) /\
  forall tr, In tr (bars_of (run (create_timeline_graph L now g) fs)) ->
    StronglySorted Z.lt (t_x tr) /\
    Forall2 (fun d y =>
               y == Qsum (map Volume_SC
                              (filter (until (t_name tr) d)
                                      (run (generate_sample_timeline_data L now g) fs))))
            (t_x tr) (t_y tr) /\
    forall d, In d (t_x tr) <->
      exists e, In e (run (generate_sample_timeline_data L now g) fs) /\
                series_eqb (tl_Categoria e) (t_name tr) = true /\
                tl_Data e = Some d.
Proof.
  unfold create_timeline_graph. rewrite run_bind. cbn [ret run fst].
  fold (run (generate_sample_timeline_data L now g) fs).
  set (timeline_df := run (generate_sample_timeline_data L now g) fs).
  unfold timeline_traces. destruct timeline_df as [|e0 rest] eqn:Et.
  { cbn [bars_of map]. split; [constructor|]. split; intros ? []. }
  rewrite <- Et. clear Et e0 rest. cbv zeta. cbn [bars_of].
  set (sorted := sort_by (fun a b => date_leb (tl_Data a) (tl_Data b)) timeline_df).
  assert (Hperm : Permutation sorted timeline_df) by apply sort_by_perm.
  rewrite map_map. cbn [trace_of t_name]. rewrite map_id.
  split; [apply unique_distinct|]. split.
  - intros e He.
    assert (Hin : In (tl_Categoria e) (map tl_Categoria sorted)).
    { apply in_map. eapply Permutation_in; [symmetry; exact Hperm | exact He]. }
    apply unique_covers in Hin. apply existsb_exists in Hin.
    destruct Hin as (k & Hk & Heq). exists (trace_of k sorted).
    split; [|exact Heq].
    apply in_map_iff. exists k. split; [reflexivity | exact Hk].
  - intros tr Htr. apply in_map_iff in Htr. destruct Htr as (k & <- & _).
    unfold trace_of. cbv zeta. cbn [t_name t_x t_y].
    set (category_data := filter (fun e => series_eqb (tl_Categoria e) k) sorted).
    destruct (daily_series category_data) as (Hs & Hy & Hd).
    split; [exact Hs|]. split.
    + eapply Forall2_impl; [|exact Hy]. intros d y Hdy. cbv beta in Hdy.
      rewrite Hdy. unfold volume_until, category_data. rewrite filter_twice.
      fold (until k d).
      apply Qsum_perm, Permutation_map, filter_perm. exact Hperm.
    + intros d. rewrite Hd. unfold category_data. split.
      * intros (e & He & Ed). apply filter_In in He. destruct He as [He Hk].
        exists e. split; [eapply Permutation_in; eassumption|]. now split.
      * intros (e & He & Hk & Ed). exists e. split; [|exact Ed].
        apply filter_In. split; [|exact Hk].
        eapply Permutation_in; [symmetry; exact Hperm | exact He].
Qed.

End TimelineView.

(** ** The configuration *)

Lemma obj_get_set (k k' : string) (v : JsonValue) (d : list (string * JsonValue)) :
  obj_get (obj_set k v d) k' = if String.eqb k k' then Some v else obj_get d k'.
Proof.
  induction d as [|[k0 v0] t IH]; cbn [obj_set obj_get]; [reflexivity|].
  destruct (String.eqb k0 k) eqn:E; cbn [obj_get].
  - apply String.eqb_eq in E. subst k0. now destruct (String.eqb k k').
  - rewrite IH. destruct (String.eqb k0 k') eqn:E0; [|reflexivity].
    apply String.eqb_eq in E0. subst k0.
    rewrite String.eqb_sym in E. now rewrite E.
Qed.

Lemma obj_has (d : list (string * JsonValue)) (key : string) :
  existsb (fun kv => String.eqb (fst kv) key) d = is_some (obj_get d key).
Proof.
  induction d as [|[k0 v0] t IH]; cbn [existsb obj_get fst]; [reflexivity|].
  now destruct (String.eqb k0 key).
Qed.

Lemma keys_kept_refl (d : list (string * JsonValue)) : keys_kept d d.
Proof. intros k H. exact H. Qed.

Lemma keys_kept_trans (d1 d2 d3 : list (string * JsonValue)) :
  keys_kept d1 d2 -> keys_kept d2 d3 -> keys_kept d1 d3.
Proof. intros H1 H2 k H. apply H2, H1, H. Qed.

Lemma keys_kept_set (k : string) (v : JsonValue) (d : list (string * JsonValue)) :
  keys_kept d (obj_set k v d).
Proof.
  intros k' H. rewrite obj_get_set. destruct (String.eqb k k'); [discriminate | exact H].
Qed.

Lemma keys_kept_update (new d : list (string * JsonValue)) :
  keys_kept d (obj_update d new).
Proof.
  unfold obj_update. revert d. induction new as [|[k v] new IH]; intros d; cbn [fold_left].
  - apply keys_kept_refl.
  - eapply keys_kept_trans; [apply keys_kept_set | apply IH].
Qed.

(** The loop of lines 45-47 on a dict: it never fails, keeps what the
    dict has and adds the defaults of the keys it lacks. *)
Lemma fill_defaults_obj (defaults : list (string * JsonValue)) :
  forall d, exists c,
    fill_defaults defaults (VDict d) = Some (VDict c) /\
    forall k, obj_get c k =
              match obj_get d k with
              | Some v => Some v
              | None => obj_get defaults k
              end.
Proof.
  induction defaults as [|[key v] rest IH]; intros d; cbn [fill_defaults].
  - exists d. split; [reflexivity|]. intros k. now destruct (obj_get d k).
  - cbn [contains]. rewrite obj_has. destruct (obj_get d key) as [x|] eqn:E; cbn [is_some].
    + destruct (IH d) as (c & Hc & Hget). exists c. split; [exact Hc|].
      intros k. rewrite Hget. cbn [obj_get].
      destruct (obj_get d k) eqn:Ek; [reflexivity|].
      destruct (String.eqb key k) eqn:Ekey; [|reflexivity].
      apply String.eqb_eq in Ekey. subst. congruence.
    + cbn [set_item]. destruct (IH (obj_set key v d)) as (c & Hc & Hget).
      exists c. split; [exact Hc|].
      intros k. rewrite Hget, obj_get_set. cbn [obj_get].
      destruct (String.eqb key k) eqn:Ekey.
      * apply String.eqb_eq in Ekey. subst. now rewrite E.
      * reflexivity.
Qed.

(** The same loop on a value that is no dict: it succeeds only when it
    finds each key in the value, which it leaves as it is. *)
Lemma fill_defaults_other (defaults : list (string * JsonValue)) (v : JsonValue) :
  (forall d, v <> VDict d) ->
  fill_defaults defaults v =
  if forallb (fun kv => match contains (fst kv) v with
                        | Some true => true
                        | _ => false
                        end) defaults
  then Some v else None.
Proof.
  intros Hv. induction defaults as [|[key x] rest IH]; cbn [fill_defaults forallb fst].
  - reflexivity.
  - destruct (contains key v) as [[|]|]; cbn [andb]; [exact IH | | reflexivity].
    destruct v; try reflexivity. now contradiction (Hv d).
Qed.

(** A stored dict is returned with all its entries, the defaults added
    for those of the four settings it lacks; the file is not written. *)
Theorem load_config_fills (d : list (string * JsonValue)) :
  exists c,
    load_config (Stored (VDict d)) = (VDict c, Stored (VDict d)) /\
    forall k, obj_get c k =
              match obj_get d k with
              | Some v => Some v
              | None => obj_get default_config k
              end.
Proof.
  destruct (fill_defaults_obj default_config d) as (c & Hc & Hget).
  exists c. split; [|exact Hget]. unfold load_config. now rewrite Hc.
Qed.

(** A file that is missing or empty is written with the defaults; any
    other file is left as it is.  A file that is no JSON gives the
    defaults, and so does a stored value that is no dict, unless each of
    the four names is found in it (a list or a text can have them all): it
    is then returned as it is. *)
Theorem load_config_fallback (f : ConfigFile) :
  (f = Absent ->
   load_config f = (VDict default_config, Stored (VDict default_config))) /\
  (f <> Absent -> snd (load_config f) = f) /\
  (f = Unreadable -> fst (load_config f) = VDict default_config) /\
  (forall v, f = Stored v -> (forall d, v <> VDict d) ->
     fst (load_config f) =
     if forallb (fun key => match contains key v with
                            | Some true => true
                            | _ => false
                            end) setting_names
     then v else VDict default_config).
Proof.
  split; [intros ->; reflexivity|]. split.
  { intros H. destruct f; [congruence | reflexivity|]. unfold load_config.
    now destruct (fill_defaults default_config config). }
  split; [intros ->; reflexivity|].
  intros v -> Hv. unfold load_config. rewrite (fill_defaults_other _ v Hv).
  cbn [default_config forallb fst setting_names].
  now destruct (contains "dashboardTitle" v) as [[|]|],
               (contains "theme" v) as [[|]|],
               (contains "tabNames" v) as [[|]|],
               (contains "graphTitles" v) as [[|]|].
Qed.

Lemma keeps_refl (c : JsonValue) : keeps c c.
Proof. now left. Qed.

Lemma keeps_trans (a b c : JsonValue) : keeps a b -> keeps b c -> keeps a c.
Proof.
  intros [->|(d1 & d2 & -> & -> & K1 & U1 & S1)]; [auto|].
  intros [<-|(d2' & d3 & E & -> & K2 & U2 & S2)].
  - right. now exists d1, d2.
  - inversion E; subst d2'. right. exists d1, d3.
    split; [reflexivity|]. split; [reflexivity|].
    split; [eapply keys_kept_trans; eassumption|]. split.
    + intros k Hk. now rewrite U2, U1.
    + intros s v Hs Hv. specialize (S1 s v Hs Hv).
      destruct v; try (now apply (S2 s _ Hs S1)).
      destruct S1 as (d' & Hd' & Kd). specialize (S2 s _ Hs Hd').
      destruct S2 as (d'' & Hd'' & Kd'). exists d''.
      split; [exact Hd''|]. eapply keys_kept_trans; eassumption.
Qed.

(** Setting one of the four settings of a dict, a section to a dict
    that keeps its keys. *)
Lemma keeps_set (c : list (string * JsonValue)) (name : string) (v : JsonValue) :
  In name setting_names ->
  (forall x, obj_get c name = Some x ->
     In name section_names ->
     match x with
     | VDict d => exists d', v = VDict d' /\ keys_kept d d'
     | _ => v = x
     end) ->
  keeps (VDict c) (VDict (obj_set name v c)).
Proof.
  intros Hname Hsec. right. exists c, (obj_set name v c).
  split; [reflexivity|]. split; [reflexivity|].
  split; [apply keys_kept_set|]. split.
  - intros k Hk. rewrite obj_get_set. destruct (String.eqb name k) eqn:E; [|reflexivity].
    apply String.eqb_eq in E. subst. contradiction.
  - intros s x Hs Hx. rewrite obj_get_set. destruct (String.eqb name s) eqn:E.
    + apply String.eqb_eq in E. subst s. specialize (Hsec x Hx Hs).
      destruct x; try (now rewrite Hsec).
      destruct Hsec as (d' & -> & Hk). now exists d'.
    + rewrite Hx. destruct x; try reflexivity. exists d.
      split; [reflexivity | apply keys_kept_refl].
Qed.

Lemma set_title_keeps (new_settings c c1 : JsonValue) :
  set_title new_settings c = Some c1 ->
  keeps c c1 /\
  (forall title, get_item new_settings "dashboardTitle" = Some title ->
                 get_item c1 "dashboardTitle" = Some title).
Proof.
  unfold set_title. destruct (contains "dashboardTitle" new_settings) as [[|]|] eqn:Ec;
    [| |discriminate].
  - destruct (get_item new_settings "dashboardTitle") as [title|]; [|discriminate].
    destruct c; try discriminate. cbn [set_item]. intros H. inversion H; subst. split.
    + apply keeps_set; [cbn; tauto|].
      intros x _ Hs. cbn in Hs. destruct Hs as [E|[E|[E|[]]]]; discriminate E.
    + intros t Ht. inversion Ht; subst. cbn [get_item]. rewrite obj_get_set.
      now rewrite String.eqb_refl.
  - intros H. inversion H; subst. split; [apply keeps_refl|].
    intros title Ht. destruct new_settings; try discriminate Ht.
    cbn [contains get_item] in *. rewrite obj_has, Ht in Ec. discriminate Ec.
Qed.

Lemma update_section_keeps (section : string) (new_settings c c1 : JsonValue) :
  In section section_names ->
  update_section section new_settings c = Some c1 ->
  keeps c c1 /\ get_item c1 "dashboardTitle" = get_item c "dashboardTitle".
Proof.
  intros Hs. unfold update_section.
  destruct (contains section new_settings) as [[|]|]; [| |discriminate].
  2: { intros H. inversion H; subst. split; [apply keeps_refl | reflexivity]. }
  destruct (get_item new_settings section) as [new_section|]; [|discriminate].
  destruct new_section;
    try (intros H; inversion H; subst; split; [apply keeps_refl | reflexivity]).
  destruct (get_item c section) as [[| | | | |old]|] eqn:Eold; try discriminate.
  destruct c as [| | | | |cd]; try discriminate. cbn [set_item get_item] in *.
  intros H. inversion H; subst. split.
  - apply keeps_set.
    + cbn in Hs. cbn. tauto.
    + intros x Hx _. rewrite Eold in Hx. inversion Hx; subst.
      eexists. split; [reflexivity | apply keys_kept_update].
  - cbn [get_item]. rewrite obj_get_set.
    destruct (String.eqb section "dashboardTitle") eqn:E;
      [|reflexivity].
    apply String.eqb_eq in E. subst. cbn in Hs.
    destruct Hs as [E|[E|[E|[]]]]; discriminate E.
Qed.

(** The two ways an update ends. *)
Lemma update_config_cases (new_settings : JsonValue) (f : ConfigFile) :
  update_config new_settings f = (500%Z, snd (load_config f)) \/
  exists c4,
    update_config new_settings f = (200%Z, Stored c4) /\
    keeps (fst (load_config f)) c4 /\
    (forall title, get_item new_settings "dashboardTitle" = Some title ->
                   get_item c4 "dashboardTitle" = Some title).
Proof.
  unfold update_config. destruct (load_config f) as [c0 f1]. cbn [fst snd].
  destruct (set_title new_settings c0) as [c1|] eqn:E1; [|now left].
  destruct (update_section "tabNames" new_settings c1) as [c2|] eqn:E2; [|now left].
  destruct (update_section "graphTitles" new_settings c2) as [c3|] eqn:E3; [|now left].
  destruct (update_section "theme" new_settings c3) as [c4|] eqn:E4; [|now left].
  right. exists c4. split; [reflexivity|].
  apply set_title_keeps in E1. destruct E1 as [K1 T1].
  apply update_section_keeps in E2; [|cbn; tauto]. destruct E2 as [K2 T2].
  apply update_section_keeps in E3; [|cbn; tauto]. destruct E3 as [K3 T3].
  apply update_section_keeps in E4; [|cbn; tauto]. destruct E4 as [K4 T4].
  split.
  - eapply keeps_trans; [exact K1|]. eapply keeps_trans; [exact K2|].
    eapply keeps_trans; [exact K3 | exact K4].
  - intros title Ht. rewrite T4, T3, T2. now apply T1.
Qed.

(** An update answers 200 or 500.  On 500 the file is as a load leaves
    it.  On 200 the stored configuration is the loaded one with, at most,
    the four settings set: no key of it, and no key of a section, is
    lost, what is not one of the four settings is as it was, and the
    title sent is the title stored. *)
Theorem update_config_keeps (new_settings : JsonValue) (f : ConfigFile) :
  (fst (update_config new_settings f) = 500%Z /\
   snd (update_config new_settings f) = snd (load_config f)) \/
  (fst (update_config new_settings f) = 200%Z /\
   exists c4,
     snd (update_config new_settings f) = Stored c4 /\
     keeps (fst (load_config f)) c4 /\
     (forall title, get_item new_settings "dashboardTitle" = Some title ->
                    get_item c4 "dashboardTitle" = Some title)).
Proof.
  destruct (update_config_cases new_settings f) as [H|(c4 & H & K & T)]; rewrite H.
  - left. split; reflexivity.
  - right. split; [reflexivity|]. now exists c4.
Qed.

Lemma keeps_colors (before after : JsonValue) :
  keeps before after -> has_colors before -> has_colors after.
Proof.
  intros [<-|(c & c' & -> & -> & _ & _ & S)]; [auto|].
  intros (theme & Ht & Hkeys). cbn [get_item] in Ht.
  destruct (S "theme" (VDict theme)) as (d' & Hd' & Hk); [cbn; tauto | exact Ht|].
  exists d'. split; [exact Hd'|].
  eapply Forall_impl; [|exact Hkeys]. intros key. apply Hk.
Qed.

Lemma load_config_twice (f : ConfigFile) :
  fst (load_config (snd (load_config f))) = fst (load_config f).
Proof.
  destruct f as [| |v]; [reflexivity | reflexivity|].
  unfold load_config.
  destruct (fill_defaults default_config v) eqn:E; cbn [fst snd]; now rewrite E.
Qed.

Lemma loaded_colors_stored (c : JsonValue) :
  has_colors c -> has_colors (fst (load_config (Stored c))).
Proof.
  intros (theme & Ht & Hkeys). destruct c; try discriminate Ht.
  unfold load_config.
  destruct (fill_defaults_obj default_config d) as (c & -> & Hget). cbn [fst].
  exists theme. split; [|exact Hkeys]. cbn [get_item] in *. now rewrite Hget, Ht.
Qed.

Lemma colors_step (new_settings : JsonValue) (f : ConfigFile) :
  has_colors (fst (load_config f)) ->
  has_colors (fst (load_config (snd (update_config new_settings f)))).
Proof.
  intros H. destruct (update_config_cases new_settings f) as [E|(c4 & E & K & _)];
    rewrite E; cbn [snd].
  - now rewrite load_config_twice.
  - apply loaded_colors_stored. eapply keeps_colors; eassumption.
Qed.

Lemma colors_read (f : ConfigFile) :
  has_colors (fst (load_config f)) -> fst (get_plotly_colors f) <> None.
Proof.
  unfold get_plotly_colors. destruct (load_config f) as [config f1]. cbn [fst].
  intros (theme & -> & Hkeys). cbn [get_item].
  inversion Hkeys as [|? ? H1 Hk1]; subst.
  inversion Hk1 as [|? ? H2 Hk2]; subst.
  inversion Hk2 as [|? ? H3 Hk3]; subst.
  inversion Hk3 as [|? ? H4 _]; subst.
  destruct (obj_get theme "primary"); [|congruence].
  destruct (obj_get theme "success"); [|congruence].
  destruct (obj_get theme "warning"); [|congruence].
  destruct (obj_get theme "danger"); [|congruence].
  discriminate.
Qed.

(** From no configuration file, after any sequence of updates, accepted
    or not, the four colours of the theme can still be read: an update
    cannot take a colour away. *)
Theorem colors_always_read (requests : list JsonValue) :
  fst (get_plotly_colors
         (fold_left (fun f new_settings => snd (update_config new_settings f))
                    requests Absent)) <> None.
Proof.
  apply colors_read.
  assert (H0 : has_colors (fst (load_config Absent))).
  { exists [("primary", VString "#0d6efd"); ("success", VString "#198754");
            ("warning", VString "#ffc107"); ("danger", VString "#dc3545")].
    split; [reflexivity|]. repeat constructor; discriminate. }
  revert H0. generalize Absent.
  induction requests as [|r rs IH]; intros f Hf; cbn [fold_left]; [exact Hf|].
  apply IH. now apply colors_step.
Qed.
